(** * pdf_extractor: the extraction pipeline of [main.py]

    A shallow embedding of [AdvancedPDFExtractor] (file [main.py]) and the
    properties of its orchestration policy: the strategy selector, the
    table extractor and the content structurer.

    Modelling conventions.
    - A Python [str] is a list of Unicode code points ([pystr]); literals
      are written [py "..."].
    - Character classes of [re] and [str.strip] ([\s], [\d]) follow
      CPython's Unicode database (version 14.0.0).
    - Python integers are [Z].
    - The third-party libraries (fitz, pdfplumber, pypdf, pdf2image,
      pytesseract, camelot, tabula) and the file system are the fields
      of a [world]: what each call returns, or the exception it raises,
      for a given path.  The images of a pdfplumber page are Python
      dicts; [pdfplumber_images] states which key the library's dicts
      lack, and the properties that depend on it name it.
    - Methods are programs of a state-and-exception monad [M] over the
      extractor object, standard output and the one module global the
      code writes ([pytesseract.pytesseract.tesseract_cmd]).  A raised
      exception keeps the mutations done before it, as in Python.
    - Only exceptions deriving from [Exception] are modelled. *)

From Stdlib Require Import String Ascii ZArith NArith QArith Bool Lia Arith List
  Sorted.
Import ListNotations.
Local Open Scope Z_scope.

(* ===================================================================== *)
(** ** Python strings *)
(* ===================================================================== *)

Module PyStr.

Definition char := N.
Definition pystr := list char.

(** An ASCII literal as a Python string. *)
Definition py (s : string) : pystr := map N_of_ascii (list_ascii_of_string s).
Arguments py : simpl never.

Definition char_eqb (a b : char) : bool := N.eqb a b.

Fixpoint eqb (a b : pystr) : bool :=
  match a, b with
  | [], [] => true
  | x :: a', y :: b' => char_eqb x y && eqb a' b'
  | _, _ => false
  end.

Definition in_range (lo hi c : char) : bool := (N.leb lo c && N.leb c hi)%N.

(** [str.isspace] on one code point; also the class [\s] of [re]. *)
Definition is_space (c : char) : bool :=
  (in_range 9 13 c || in_range 28 32 c || N.eqb c 133 || N.eqb c 160
   || N.eqb c 5760 || in_range 8192 8202 c || N.eqb c 8232 || N.eqb c 8233
   || N.eqb c 8239 || N.eqb c 8287 || N.eqb c 12288)%N.

(** First code points of the runs of ten decimal digits (category Nd). *)
Definition digit_runs : list char :=
  [48; 1632; 1776; 1984; 2406; 2534; 2662; 2790; 2918; 3046; 3174; 3302;
   3430; 3558; 3664; 3792; 3872; 4160; 4240; 6112; 6160; 6470; 6608; 6784;
   6800; 6992; 7088; 7232; 7248; 42528; 43216; 43264; 43472; 43504; 43600;
   44016; 65296; 66720; 68912; 69734; 69872; 69942; 70096; 70384; 70736;
   70864; 71248; 71360; 71472; 71904; 72016; 72784; 73040; 73120; 92768;
   92864; 93008; 123200; 123632; 125264; 130032]%N.

(** The class [\d] of [re] on [str] patterns: any Unicode decimal digit.
    The mathematical digits U+1D7CE..U+1D7FF form one run of fifty. *)
Definition is_digit (c : char) : bool :=
  existsb (fun lo => in_range lo (lo + 9)%N c) digit_runs
  || in_range 120782%N 120831%N c.

Definition newline : char := 10%N.

(** [s.lstrip()] *)
Fixpoint lstrip (s : pystr) : pystr :=
  match s with
  | c :: s' => if is_space c then lstrip s' else s
  | [] => []
  end.

(** [s.rstrip()] *)
Definition rstrip (s : pystr) : pystr := rev (lstrip (rev s)).

(** [s.strip()] *)
Definition strip (s : pystr) : pystr := rstrip (lstrip s).

(** Truth value of a [str]: non-empty. *)
Definition truthy (s : pystr) : bool :=
  match s with [] => false | _ :: _ => true end.

(** [s.split(sep)] for a one-character separator: always at least one
    field, empty fields kept. *)
Fixpoint split (sep : char) (s : pystr) : list pystr :=
  match s with
  | [] => [[]]
  | c :: s' =>
      if char_eqb c sep then [] :: split sep s'
      else match split sep s' with
           | f :: fs => (c :: f) :: fs
           | [] => [[c]]
           end
  end.

End PyStr.
Import PyStr.

(* ===================================================================== *)
(** ** Regular expressions ([re.compile(p).match]) *)
(* ===================================================================== *)

Module Re.

(** The fragment of [re] syntax the program uses. *)
Inductive regex : Type :=
| Bol                                  (* ^ *)
| Eol                                  (* $ *)
| Cls (p : char -> bool)               (* a class, a literal or . *)
| Cat (r1 r2 : regex)
| Star (r : regex)
| Plus (r : regex)
| Opt (r : regex).

Declare Scope re_scope.
Delimit Scope re_scope with re.
Infix "++" := Cat (right associativity, at level 60) : re_scope.

Definition lit (c : char) : regex := Cls (char_eqb c).
Definition space : regex := Cls is_space.                   (* \s *)
Definition digit : regex := Cls is_digit.                   (* \d *)
Definition dot : regex := Cls (fun c => negb (char_eqb c newline)). (* . *)
Definition upper (c : char) : bool := in_range 65%N 90%N c.     (* A-Z *)
Definition lower (c : char) : bool := in_range 97%N 122%N c.    (* a-z *)

(** The loop of a starred body [step]: stop here and continue with [k],
    or run the body once more.  A body that consumes nothing is not
    iterated (as in [re]), so the length of the subject is fuel enough. *)
Fixpoint star_loop (step : pystr -> (pystr -> bool) -> bool)
    (k : pystr -> bool) (fuel : nat) (s : pystr) : bool :=
  k s ||
  match fuel with
  | O => false
  | S fuel' =>
      step s (fun s' =>
                Nat.ltb (length s') (length s) && star_loop step k fuel' s')
  end.

(** Backtracking matcher.  [n0] is the length of the whole subject (so
    that [^] can tell the start), [s] what is left of it, [k] the
    continuation run on the rest. *)
Fixpoint run (r : regex) (n0 : nat) (s : pystr) (k : pystr -> bool) : bool :=
  match r with
  | Bol => Nat.eqb (length s) n0 && k s
  | Eol => match s with
           | [] => k s
           | [c] => char_eqb c newline && k s
           | _ => false
           end
  | Cls p => match s with
             | c :: s' => p c && k s'
             | [] => false
             end
  | Cat r1 r2 => run r1 n0 s (fun s' => run r2 n0 s' k)
  | Opt r1 => run r1 n0 s k || k s
  | Star r1 => star_loop (run r1 n0) k (length s) s
  | Plus r1 => run r1 n0 s (star_loop (run r1 n0) k (length s))
  end.

(** [pattern.match(s)] is truthy: the pattern matches at the start of
    [s] (it need not reach the end). *)
Definition matches (r : regex) (s : pystr) : bool :=
  run r (length s) s (fun _ => true).

(** [pattern.search(s)] is truthy: the pattern matches at some position. *)
Fixpoint search_from (r : regex) (n0 : nat) (s : pystr) : bool :=
  run r n0 s (fun _ => true) ||
  match s with
  | [] => false
  | _ :: s' => search_from r n0 s'
  end.

Definition search (r : regex) (s : pystr) : bool :=
  search_from r (length s) s.

(** What the matcher decides, read off the syntax: [lang n0 r s s'] says
    that [r] matches a prefix of [s] and leaves [s'], in a subject of
    length [n0]. *)
Inductive lang (n0 : nat) : regex -> pystr -> pystr -> Prop :=
| L_Bol s : length s = n0 -> lang n0 Bol s s
| L_Eol_end : lang n0 Eol [] []
| L_Eol_newline : lang n0 Eol [newline] [newline]
| L_Cls p c s : p c = true -> lang n0 (Cls p) (c :: s) s
| L_Cat r1 r2 s s1 s2 :
    lang n0 r1 s s1 -> lang n0 r2 s1 s2 -> lang n0 (Cat r1 r2) s s2
| L_Opt_some r s s' : lang n0 r s s' -> lang n0 (Opt r) s s'
| L_Opt_none r s : lang n0 (Opt r) s s
| L_Star_stop r s : lang n0 (Star r) s s
| L_Star_more r s s1 s2 :
    lang n0 r s s1 -> lang n0 (Star r) s1 s2 -> lang n0 (Star r) s s2
| L_Plus r s s1 s2 :
    lang n0 r s s1 -> lang n0 (Star r) s1 s2 -> lang n0 (Plus r) s s2.

End Re.

(* ===================================================================== *)
(** ** Heading patterns of [_process_content] *)
(* ===================================================================== *)

Module Patterns.
Import Re.
Local Open Scope re_scope.

Definition upper_or_space (c : char) : bool := upper c || is_space c.
Definition letter_or_space (c : char) : bool :=
  lower c || upper c || is_space c.
Definition roman (c : char) : bool :=
  char_eqb c 73%N || char_eqb c 86%N || char_eqb c 88%N.     (* [IVX] *)

(** The pattern "^\s*(?:[A-Z][A-Z\s]+:?\s* )$" (the blank before the closing
    parenthesis is not part of it). *)
Definition all_caps : regex :=
  Bol ++ Star space ++
  (Cls upper ++ Plus (Cls upper_or_space) ++ Opt (lit 58%N) ++ Star space) ++
  Eol.

(** The pattern "^\s*\d+\.\s+[A-Z][a-zA-Z\s]+". *)
Definition numbered : regex :=
  Bol ++ Star space ++ Plus digit ++ lit 46%N ++ Plus space ++
  Cls upper ++ Plus (Cls letter_or_space).

(** The third pattern: "^\s*", the two code points U+0E22 U+0E07 that
    the source file has there, then "\s*\d+\.\s.*". *)
Definition section_sign : regex :=
  Bol ++ Star space ++ lit 3618%N ++ lit 3591%N ++ Star space ++
  Plus digit ++ lit 46%N ++ space ++ Star dot.

(** The pattern "^\s*[IVX]+\.\s.*". *)
Definition roman_numeral : regex :=
  Bol ++ Star space ++ Plus (Cls roman) ++ lit 46%N ++ space ++ Star dot.

Definition header_patterns : list regex :=
  [all_caps; numbered; section_sign; roman_numeral].

(** [any(pattern.match(line) for pattern in header_patterns)] *)
Definition is_heading (line : pystr) : bool :=
  existsb (fun pattern => matches pattern line) header_patterns.

End Patterns.
Import Patterns.

(* ===================================================================== *)
(** ** Python dictionaries *)
(* ===================================================================== *)

(** A [dict] keeps its keys in insertion order; assigning to a key that
    is present replaces the value in place. *)
Module Dict.
Section Generic.
Context {K V : Type}.
Variable key_eqb : K -> K -> bool.

Definition dict := list (K * V).

(** [d.get(k)] / [d[k]] *)
Fixpoint get (d : dict) (k : K) : option V :=
  match d with
  | [] => None
  | (k', v) :: d' => if key_eqb k' k then Some v else get d' k
  end.

(** [k in d] *)
Definition contains (d : dict) (k : K) : bool :=
  match get d k with Some _ => true | None => false end.

(** [d[k] = v] *)
Fixpoint set (d : dict) (k : K) (v : V) : dict :=
  match d with
  | [] => [(k, v)]
  | (k', v') :: d' =>
      if key_eqb k' k then (k', v) :: d' else (k', v') :: set d' k v
  end.

(** [dict(pairs)]: later pairs win, first position kept. *)
Definition of_pairs (pairs : list (K * V)) : dict :=
  fold_left (fun d kv => set d (fst kv) (snd kv)) pairs [].
End Generic.
Arguments dict : clear implicits.
End Dict.

(* ===================================================================== *)
(** ** Data model *)
(* ===================================================================== *)

(** Values stored under [metadata] (and whatever [list_items] may hold). *)
Inductive pyval : Type :=
| PNone
| PStr (s : pystr)
| PInt (z : Z).

(** A cell of a [pandas.DataFrame]. *)
Inductive cell : Type :=
| CNone                (* None *)
| CNaN                 (* missing value *)
| CStr (s : pystr)
| CNum (q : Q).

(** A column label. *)
Inductive label : Type :=
| LInt (z : Z)
| LStr (s : pystr).

Definition label_eqb (a b : label) : bool :=
  match a, b with
  | LInt x, LInt y => Z.eqb x y
  | LStr x, LStr y => PyStr.eqb x y
  | _, _ => false
  end.

Record DataFrame : Type := mkDataFrame {
  columns : list label;
  rows : list (list cell)
}.

Record PageTextRecord : Type := mkPageText {
  pt_page : Z;
  pt_content : pystr;
  pt_type : pystr
}.

Record TableRecord : Type := mkTable {
  tb_method : pystr;
  tb_page : Z;
  tb_data : list (Dict.dict label cell)
}.

(** A value of an entry of [page.images] of pdfplumber. *)
Inductive pyobj : Type :=
| ONone
| ONum (q : Q)
| OStr (s : pystr)
| OTuple (l : list Q).

Record FigureRecord : Type := mkFigure {
  fg_page : Z;
  fg_bbox : pyobj;
  fg_width : pyobj;
  fg_height : pyobj
}.

(** [self.results] *)
Record ExtractionResult : Type := mkResults {
  metadata : Dict.dict pystr pyval;
  headers : Dict.dict pystr (list pystr);
  content : list PageTextRecord;
  list_items : list pyval;
  tables : list TableRecord;
  figures : list FigureRecord
}.

(** An [AdvancedPDFExtractor] object. *)
Record extractor : Type := mkExtractor {
  pdf_path : pystr;
  results : ExtractionResult;
  extraction_methods : list pystr;
  is_scanned : bool;
  ocr_engine : pystr
}.

(** What is printed or written: a line of text, or the JSON rendering
    of a result (kept as the value rendered). *)
Inductive output : Type :=
| Text (s : pystr)
| Json (r : ExtractionResult).

(** The object, standard output (one entry per [print]), the files
    written, and the module global
    [pytesseract.pytesseract.tesseract_cmd]. *)
Record state : Type := mkState {
  self : extractor;
  stdout : list output;
  files : list (pystr * output);
  tesseract_cmd : pystr
}.

(* ===================================================================== *)
(** ** Exceptions and the libraries *)
(* ===================================================================== *)

Inductive exn_class : Type := PdfReadError | OtherException.

Record exn : Type := mkExn {
  exn_kind : exn_class;
  exn_str : pystr                      (* str(e) *)
}.

Inductive result (A : Type) : Type :=
| Ok (a : A)
| Raise (e : exn).
Arguments Ok {A} a.
Arguments Raise {A} e.

(** A rasterized page, as handed from pdf2image to pytesseract. *)
Definition image : Type := N.

(** An entry of [page.images] of pdfplumber: a Python dict.  The
    library builds it with the keys "x0", "y0", "x1", "y1", "top",
    "bottom", "doctop", "width", "height", "name", "stream", "srcsize",
    "imagemask", "bits", "colorspace", "object_type" and "page_number";
    the model takes any dict, and [pdfplumber_images] below says what
    the library's dicts lack. *)
Definition plumber_image : Type := Dict.dict pystr pyobj.

(** [d[key]]: the value, or [KeyError(key)], whose text is the key in
    quotes. *)
Definition getitem (d : Dict.dict pystr pyobj) (key : pystr) : result pyobj :=
  match Dict.get PyStr.eqb d key with
  | Some v => Ok v
  | None => Raise (mkExn OtherException (py "'" ++ key ++ py "'"))
  end.

(** A text that cannot be used as the code uses it (a text that is
    [None], on which [text.strip()] raises) is a call that raises.  The
    images of a page are handed over as the dicts they are: the code
    reads their keys one image at a time. *)
Record plumber_page : Type := mkPlumberPage {
  pl_extract_text : result pystr;           (* page.extract_text(...) *)
  pl_images : result (list plumber_image)   (* page.images *)
}.

Record fitz_doc : Type := mkFitzDoc {
  doc_metadata : Dict.dict pystr pyval;     (* doc.metadata *)
  doc_page_count : Z;                       (* doc.page_count *)
  doc_pages : list (result pystr)           (* page.get_text(...) per page *)
}.

Record camelot_table : Type := mkCamelotTable {
  ct_page : Z;                              (* table.page *)
  ct_df : DataFrame                         (* table.df *)
}.

(** What the libraries answer. *)
Record world : Type := mkWorld {
  os_name : pystr;                                          (* os.name *)
  fitz_open : pystr -> result fitz_doc;
  pdfplumber_open : pystr -> result (list plumber_page);
  PdfReader : pystr -> result (list (result pystr));
  convert_from_path : pystr -> result (list image);
  image_to_string : pystr -> image -> result pystr;
      (* first argument: the tesseract_cmd in force *)
  camelot_read_pdf : pystr -> result (list camelot_table);
  tabula_read_pdf : pystr -> result (list DataFrame);
  open_for_writing : pystr -> result unit
      (* open(file, 'w', encoding='utf-8'): the file is created or
         emptied, or the call raises *)
}.

(* ===================================================================== *)
(** ** The monad of methods *)
(* ===================================================================== *)

Definition M (A : Type) : Type := state -> result A * state.

Definition ret {A} (a : A) : M A := fun st => (Ok a, st).

Definition bind {A B} (m : M A) (f : A -> M B) : M B :=
  fun st =>
    match m st with
    | (Ok a, st') => f a st'
    | (Raise e, st') => (Raise e, st')
    end.

(** The outcome of a library call. *)
Definition call {A} (r : result A) : M A := fun st => (r, st).

(** [try: body / except Exception as e: handler(e)] *)
Definition try_except {A} (body : M A) (handler : exn -> M A) : M A :=
  fun st =>
    match body st with
    | (Ok a, st') => (Ok a, st')
    | (Raise e, st') => handler e st'
    end.

(** Reading a part of the state ([self.pdf_path], ...). *)
Definition gets {A} (f : state -> A) : M A := fun st => (Ok (f st), st).
Definition modify (f : state -> state) : M unit := fun st => (Ok tt, f st).

Declare Scope py_scope.
Delimit Scope py_scope with py.
Notation "x <- m ;; k" := (bind m (fun x => k))
  (at level 100, m at next level, right associativity) : py_scope.
Notation "m ;; k" := (bind m (fun _ => k))
  (at level 100, right associativity) : py_scope.
Local Open Scope py_scope.

(** [for i, x in enumerate(xs): acc = body(i, x, acc)], with the local
    variables the body updates threaded as [acc]. *)
Fixpoint for_enumerate {A B} (i : Z) (xs : list A)
    (body : Z -> A -> B -> M B) (acc : B) : M B :=
  match xs with
  | [] => ret acc
  | x :: xs' => acc' <- body i x acc ;; for_enumerate (i + 1) xs' body acc'
  end.

(** [for x in xs: acc = body(x, acc)] *)
Fixpoint for_fold {A B} (xs : list A) (body : A -> B -> M B) (acc : B)
    : M B :=
  match xs with
  | [] => ret acc
  | x :: xs' => acc' <- body x acc ;; for_fold xs' body acc'
  end.

(** [for x in xs: body(x)] *)
Fixpoint for_each {A} (xs : list A) (body : A -> M unit) : M unit :=
  match xs with
  | [] => ret tt
  | x :: xs' => body x ;; for_each xs' body
  end.

(* ===================================================================== *)
(** ** Updates of the object *)
(* ===================================================================== *)

Definition with_self (f : extractor -> extractor) (st : state) : state :=
  mkState (f (self st)) (stdout st) (files st) (tesseract_cmd st).

Definition with_results (f : ExtractionResult -> ExtractionResult)
    (st : state) : state :=
  with_self (fun x =>
    mkExtractor (pdf_path x) (f (results x)) (extraction_methods x)
                (is_scanned x) (ocr_engine x)) st.

Definition set_metadata (m : Dict.dict pystr pyval) (r : ExtractionResult) :=
  mkResults m (headers r) (content r) (list_items r) (tables r) (figures r).

Definition set_headers (h : Dict.dict pystr (list pystr))
    (r : ExtractionResult) :=
  mkResults (metadata r) h (content r) (list_items r) (tables r) (figures r).

(** [self.results["content"].extend(text_content)] *)
Definition extend_content (l : list PageTextRecord) (r : ExtractionResult) :=
  mkResults (metadata r) (headers r) (content r ++ l) (list_items r)
            (tables r) (figures r).

(** [self.results["tables"].append(t)] *)
Definition append_table (t : TableRecord) (r : ExtractionResult) :=
  mkResults (metadata r) (headers r) (content r) (list_items r)
            (tables r ++ [t]) (figures r).

(** [self.results["figures"].append(f)] *)
Definition append_figure (f : FigureRecord) (r : ExtractionResult) :=
  mkResults (metadata r) (headers r) (content r) (list_items r)
            (tables r) (figures r ++ [f]).

(** [self.extraction_methods.append(name)] *)
Definition append_method (name : pystr) (st : state) : state :=
  with_self (fun x =>
    mkExtractor (pdf_path x) (results x) (extraction_methods x ++ [name])
                (is_scanned x) (ocr_engine x)) st.

(** [self.is_scanned = b] *)
Definition set_is_scanned (b : bool) (st : state) : state :=
  with_self (fun x =>
    mkExtractor (pdf_path x) (results x) (extraction_methods x) b
                (ocr_engine x)) st.

(** [print(s)] *)
Definition print (s : pystr) : M unit :=
  modify (fun st =>
    mkState (self st) (stdout st ++ [Text s]) (files st) (tesseract_cmd st)).

(** Truth value of a list. *)
Definition nonempty {A} (l : list A) : bool :=
  match l with [] => false | _ :: _ => true end.

(* ===================================================================== *)
(** ** DataFrame operations *)
(* ===================================================================== *)

(** [df.empty]: some axis has length zero. *)
Definition df_empty (df : DataFrame) : bool :=
  Nat.eqb (length (rows df)) 0 || Nat.eqb (length (columns df)) 0.

Definition map_cells (f : cell -> cell) (df : DataFrame) : DataFrame :=
  mkDataFrame (columns df) (map (map f) (rows df)).

(** What [df.replace(pattern, value, regex=True)] does to one cell: a
    string in which the pattern is found becomes [value]; any other cell
    is kept.  (For the value [None] this is what pandas 2 stores;
    pandas 3 stores NaN in its place.) *)
Definition replace_cell (pattern : Re.regex) (value : cell) (c : cell)
    : cell :=
  match c with
  | CStr s => if Re.search pattern s then value else c
  | _ => c
  end.

Definition df_replace_regex (pattern : Re.regex) (value : cell) :=
  map_cells (replace_cell pattern value).

(** What [df.fillna(value)] does to one cell. *)
Definition fillna_cell (value : cell) (c : cell) : cell :=
  match c with
  | CNone | CNaN => value
  | _ => c
  end.

Definition df_fillna (value : cell) := map_cells (fillna_cell value).

(** [df.to_dict(orient='records')] *)
Definition to_dict_records (df : DataFrame) : list (Dict.dict label cell) :=
  map (fun row => Dict.of_pairs label_eqb (combine (columns df) row))
      (rows df).

(** The pattern "^\s*$". *)
Definition blank_cell : Re.regex :=
  Re.Cat Re.Bol (Re.Cat (Re.Star Re.space) Re.Eol).

(* ===================================================================== *)
(** ** The methods of [AdvancedPDFExtractor] *)
(* ===================================================================== *)

Section Methods.
Variable w : world.

Definition sentinel : pystr := py "Main Content".
Definition windows_tesseract : pystr :=
  py "C:\Program Files\Tesseract-OCR\tesseract.exe".

(** [AdvancedPDFExtractor(pdf_path)], in a process whose standard output,
    files and tesseract command are [out], [fs] and [cmd]. *)
Definition __init__ (path : pystr) (out : list output)
    (fs : list (pystr * output)) (cmd : pystr) : state :=
  mkState
    (mkExtractor path (mkResults [] [] [] [] [] []) [] false
                 (py "Tesseract"))
    out fs
    (if PyStr.eqb (os_name w) (py "nt") then windows_tesseract else cmd).

(** [metadata.get(key, "")] *)
Definition get_default (d : Dict.dict pystr pyval) (key : string) : pyval :=
  match Dict.get PyStr.eqb d (py key) with
  | Some v => v
  | None => PStr []
  end.

Definition _extract_metadata : M unit :=
  path <- gets (fun st => pdf_path (self st)) ;;
  doc <- call (fitz_open w path) ;;
  let metadata := doc_metadata doc in
  modify (with_results (set_metadata
    [ (py "title", get_default metadata "title");
      (py "author", get_default metadata "author");
      (py "creator", get_default metadata "creator");
      (py "creation_date", get_default metadata "creation_date");
      (py "modification_date", get_default metadata "mod_date");
      (py "page_count", PInt (doc_page_count doc)) ])).

Definition _extract_tables : M unit :=
  (* Try Camelot first *)
  try_except
    (path <- gets (fun st => pdf_path (self st)) ;;
     camelot_tables <- call (camelot_read_pdf w path) ;;
     for_each camelot_tables (fun table =>
       if df_empty (ct_df table) then ret tt
       else
         modify (with_results (append_table
           (mkTable (py "Camelot") (ct_page table)
              (to_dict_records
                 (df_replace_regex blank_cell CNone (ct_df table))))))))
    (fun e => print (py "Camelot table extraction failed: " ++ exn_str e)) ;;
  (* Try Tabula as fallback *)
  try_except
    (path <- gets (fun st => pdf_path (self st)) ;;
     tabula_tables <- call (tabula_read_pdf w path) ;;
     for_enumerate 0 tabula_tables (fun i table (_ : unit) =>
       if negb (df_empty table) then
         modify (with_results (append_table
           (mkTable (py "Tabula") (i + 1)
              (to_dict_records (df_fillna (CStr (py "")) table)))))
       else ret tt) tt)
    (fun e => print (py "Tabula table extraction failed: " ++ exn_str e)).

Definition _extract_with_pymupdf : M bool :=
  try_except
    (path <- gets (fun st => pdf_path (self st)) ;;
     doc <- call (fitz_open w path) ;;
     text_content <-
       for_enumerate 0 (doc_pages doc) (fun page_num page text_content =>
         text <- call page ;;
         if truthy (strip text) then
           ret (text_content ++ [mkPageText (page_num + 1) text (py "text")])
         else ret text_content) [] ;;
     if nonempty text_content then
       (modify (with_results (extend_content text_content)) ;;
        modify (append_method (py "PyMuPDF")) ;;
        _extract_tables ;;
        ret true)
     else ret false)
    (fun e =>
       print (py "PyMuPDF extraction failed: " ++ exn_str e) ;; ret false).

Definition _extract_with_pdfplumber : M bool :=
  try_except
    (path <- gets (fun st => pdf_path (self st)) ;;
     pages <- call (pdfplumber_open w path) ;;
     text_content <-
       for_enumerate 0 pages (fun page_num page text_content =>
         text <- call (pl_extract_text page) ;;
         let text_content :=
           if truthy (strip text) then
             text_content ++ [mkPageText (page_num + 1) text (py "text")]
           else text_content in
         (* Extract figures *)
         images <- call (pl_images page) ;;
         for_each images (fun image =>
           bbox <- call (getitem image (py "bbox")) ;;
           width <- call (getitem image (py "width")) ;;
           height <- call (getitem image (py "height")) ;;
           modify (with_results (append_figure
             (mkFigure (page_num + 1) bbox width height)))) ;;
         ret text_content) [] ;;
     if nonempty text_content then
       (modify (with_results (extend_content text_content)) ;;
        modify (append_method (py "PDFPlumber")) ;;
        _extract_tables ;;
        ret true)
     else ret false)
    (fun e =>
       print (py "PDFPlumber extraction failed: " ++ exn_str e) ;; ret false).

Definition _extract_with_pypdf : M bool :=
  try_except
    (path <- gets (fun st => pdf_path (self st)) ;;
     reader_pages <- call (PdfReader w path) ;;
     text_content <-
       for_enumerate 0 reader_pages (fun page_num page text_content =>
         text <- call page ;;
         if truthy (strip text) then
           ret (text_content ++ [mkPageText (page_num + 1) text (py "text")])
         else ret text_content) [] ;;
     if nonempty text_content then
       (modify (with_results (extend_content text_content)) ;;
        modify (append_method (py "PyPDF")) ;;
        _extract_tables ;;
        ret true)
     else ret false)
    (fun e =>
       match exn_kind e with
       | PdfReadError =>
           print (py "Encrypted PDF detected: " ++ exn_str e) ;; ret false
       | OtherException =>
           print (py "PyPDF extraction failed: " ++ exn_str e) ;; ret false
       end).

Definition _ocr_fallback : M bool :=
  try_except
    (path <- gets (fun st => pdf_path (self st)) ;;
     images <- call (convert_from_path w path) ;;
     text_content <-
       for_enumerate 0 images (fun page_num img text_content =>
         cmd <- gets tesseract_cmd ;;
         text <- call (image_to_string w cmd img) ;;
         if truthy (strip text) then
           ret (text_content
                ++ [mkPageText (page_num + 1) text (py "ocr_text")])
         else ret text_content) [] ;;
     if nonempty text_content then
       (modify (with_results (extend_content text_content)) ;;
        modify (append_method (py "Tesseract OCR")) ;;
        modify (set_is_scanned true) ;;
        ret true)
     else ret false)
    (fun e =>
       print (py "OCR extraction failed: " ++ exn_str e) ;; ret false).

(** [for method in methods: if method(): break] *)
Fixpoint for_methods (methods : list (M bool)) : M unit :=
  match methods with
  | [] => ret tt
  | method :: rest =>
      ok <- method ;;
      if ok then ret tt else for_methods rest
  end.

Definition methods : list (M bool) :=
  [ _extract_with_pymupdf; _extract_with_pdfplumber; _extract_with_pypdf;
    _ocr_fallback ].

Definition extract : M ExtractionResult :=
  _extract_metadata ;;
  for_methods methods ;;
  gets (fun st => results (self st)).

(** One line of [_process_content]; returns the new [current_header]. *)
Definition process_line (line : pystr) (current_header : pystr) : M pystr :=
  let line := strip line in
  if is_heading line then
    (modify (with_results (fun r =>
       set_headers (Dict.set PyStr.eqb (headers r) line []) r)) ;;
     ret line)
  else
    h <- gets (fun st => headers (results (self st))) ;;
    match Dict.get PyStr.eqb h current_header with
    | Some body =>
        modify (with_results
          (set_headers (Dict.set PyStr.eqb h current_header (body ++ [line])))) ;;
        ret current_header
    | None =>
        modify (with_results
          (set_headers (Dict.set PyStr.eqb h sentinel [line]))) ;;
        ret current_header
    end.

Definition _process_content : M unit :=
  items <- gets (fun st => content (results (self st))) ;;
  for_fold items (fun item current_header =>
    for_fold (split newline (pt_content item)) process_line current_header)
    sentinel ;;
  ret tt.

(** The branch of [main()] that writes the output file: [open] may
    raise, and then nothing is written and nothing more is printed;
    [json.dump] renders every value of the model. *)
Definition save_results (file : pystr) (results : ExtractionResult) : M unit :=
  call (open_for_writing w file) ;;
  modify (fun st => mkState (self st) (stdout st)
                      (files st ++ [(file, Json results)])
                      (tesseract_cmd st)) ;;
  print (py "Results saved to " ++ file).

(** The branch of [main()] that prints the rendering. *)
Definition print_results (results : ExtractionResult) : M unit :=
  modify (fun st => mkState (self st) (stdout st ++ [Json results])
                      (files st) (tesseract_cmd st)).

(** The [try] block of [main()], after the extractor is built.  The
    result object that [extract] returns is [self.results] itself, so
    what is rendered includes the headers that [_process_content] adds
    afterwards.  [output_arg] is [args.output]: [None] without [-o],
    and [if args.output:] is a truth test, which an empty path fails. *)
Definition main_try (output_arg : option pystr) : M unit :=
  _ <- extract ;;
  _process_content ;;
  results <- gets (fun st => results (self st)) ;;
  match output_arg with
  | Some file =>
      if truthy file then save_results file results
      else print_results results
  | None => print_results results
  end.

(** [main()] for the arguments [pdf_path] and [-o output]: the exit code
    and the final state of the process. *)
Definition main (path : pystr) (output_arg : option pystr)
    (out : list output) (fs : list (pystr * output)) (cmd : pystr)
    : Z * state :=
  match main_try output_arg (__init__ path out fs cmd) with
  | (Ok _, st) => (0, st)
  | (Raise e, st) =>
      (1, snd (print (py "Error processing PDF: " ++ exn_str e) st))
  end.

End Methods.

(* ===================================================================== *)
(** ** Vocabulary of the properties *)
(* ===================================================================== *)

(** The four candidates of [extract], in priority order. *)
Inductive strategy : Type := PyMuPDF | PDFPlumber | PyPDF | TesseractOCR.

Definition strategies : list strategy :=
  [PyMuPDF; PDFPlumber; PyPDF; TesseractOCR].

Definition run_strategy (w : world) (s : strategy) : M bool :=
  match s with
  | PyMuPDF => _extract_with_pymupdf w
  | PDFPlumber => _extract_with_pdfplumber w
  | PyPDF => _extract_with_pypdf w
  | TesseractOCR => _ocr_fallback w
  end.

(** The name a candidate appends to [extraction_methods]. *)
Definition strategy_name (s : strategy) : pystr :=
  match s with
  | PyMuPDF => py "PyMuPDF"
  | PDFPlumber => py "PDFPlumber"
  | PyPDF => py "PyPDF"
  | TesseractOCR => py "Tesseract OCR"
  end.

(** The [type] tag a candidate gives its records. *)
Definition strategy_tag (s : strategy) : pystr :=
  match s with
  | TesseractOCR => py "ocr_text"
  | _ => py "text"
  end.

(** All calls of a sequence succeed, or the first exception. *)
Fixpoint sequence {A} (l : list (result A)) : result (list A) :=
  match l with
  | [] => Ok []
  | Raise e :: _ => Raise e
  | Ok a :: l' =>
      match sequence l' with
      | Ok l'' => Ok (a :: l'')
      | Raise e => Raise e
      end
  end.

Definition and_then {A B} (r : result A) (f : A -> result B) : result B :=
  match r with
  | Ok a => f a
  | Raise e => Raise e
  end.

(** What a figure record takes from an image: the keys are read in the
    order the code names them, and the first one that is missing
    raises. *)
Definition image_fields (image : plumber_image)
    : result (pyobj * pyobj * pyobj) :=
  and_then (getitem image (py "bbox")) (fun bbox =>
  and_then (getitem image (py "width")) (fun width =>
  and_then (getitem image (py "height")) (fun height =>
  Ok (bbox, width, height)))).

Definition figure_of (i : Z) (fields : pyobj * pyobj * pyobj)
    : FigureRecord :=
  mkFigure (i + 1) (fst (fst fields)) (snd (fst fields)) (snd fields).

(** The images of a page that are read before the first one that lacks
    a key. *)
Fixpoint read_images (images : list plumber_image)
    : list (pyobj * pyobj * pyobj) :=
  match images with
  | [] => []
  | image :: images' =>
      match image_fields image with
      | Ok fields => fields :: read_images images'
      | Raise _ => []
      end
  end.

(** The page loop of pdfplumber reads the text and then the images of
    each page, image by image. *)
Definition plumber_read (p : plumber_page) : result pystr :=
  and_then (pl_extract_text p) (fun t =>
  and_then (pl_images p) (fun images =>
  and_then (sequence (map image_fields images)) (fun _ => Ok t))).

(** No image of the pages has a "bbox" key. *)
Definition lack_bbox (pages : list plumber_page) : Prop :=
  forall p images image,
    In p pages -> pl_images p = Ok images -> In image images ->
    Dict.get PyStr.eqb image (py "bbox") = None.

(** The image dicts that pdfplumber builds have no "bbox" key (the
    corners are under "x0", "y0", "x1" and "y1"). *)
Definition pdfplumber_images (w : world) : Prop :=
  forall path pages, pdfplumber_open w path = Ok pages -> lack_bbox pages.

(** The [KeyError] of [image["bbox"]] on such a dict. *)
Definition bbox_error : exn := mkExn OtherException (py "'bbox'").

(** The page texts a candidate's loop reads when every library call in
    it succeeds, or the exception that stops it. *)
Definition strategy_texts (w : world) (s : strategy) (path cmd : pystr)
    : result (list pystr) :=
  match s with
  | PyMuPDF =>
      and_then (fitz_open w path) (fun doc => sequence (doc_pages doc))
  | PDFPlumber =>
      and_then (pdfplumber_open w path) (fun pages =>
        sequence (map plumber_read pages))
  | PyPDF => and_then (PdfReader w path) sequence
  | TesseractOCR =>
      and_then (convert_from_path w path) (fun images =>
        sequence (map (image_to_string w cmd) images))
  end.

(** A page yields text that is non-blank after trimming. *)
Definition nonblank (text : pystr) : bool := truthy (strip text).

(** The records of the pages with non-blank text: 1-based page number,
    page order. *)
Definition page_records (tag : pystr) (texts : list pystr)
    : list PageTextRecord :=
  map (fun it => mkPageText (Z.of_nat (fst it) + 1) (snd it) tag)
      (filter (fun it => nonblank (snd it))
              (combine (seq 0 (length texts)) texts)).

(** The records of a page loop that starts at index [i]. *)
Fixpoint records_from (tag : pystr) (i : Z) (texts : list pystr)
    : list PageTextRecord :=
  match texts with
  | [] => []
  | t :: ts =>
      (if nonblank t then [mkPageText (i + 1) t tag] else [])
      ++ records_from tag (i + 1) ts
  end.

(** A candidate is accepted: its loop completes and some page is
    non-blank. *)
Definition accepted (w : world) (path cmd : pystr) (s : strategy) : bool :=
  match strategy_texts w s path cmd with
  | Ok texts => existsb nonblank texts
  | Raise _ => false
  end.

(** The first accepted candidate in priority order. *)
Definition select (w : world) (path cmd : pystr) : option strategy :=
  find (accepted w path cmd) strategies.

(** The candidates that are run: up to and including the first accepted
    one. *)
Fixpoint tried (w : world) (path cmd : pystr) (ss : list strategy)
    : list strategy :=
  match ss with
  | [] => []
  | s :: ss' =>
      s :: (if accepted w path cmd s then [] else tried w path cmd ss')
  end.

(** The figure records the pdfplumber loop appends from index [i] on,
    until it ends or an exception stops it. *)
Fixpoint plumber_figures (i : Z) (pages : list plumber_page)
    : list FigureRecord :=
  match pages with
  | [] => []
  | p :: ps =>
      match pl_extract_text p, pl_images p with
      | Ok _, Ok images =>
          map (figure_of i) (read_images images) ++
          match sequence (map image_fields images) with
          | Ok _ => plumber_figures (i + 1) ps
          | Raise _ => []
          end
      | _, _ => []
      end
  end.

(** The figure records a candidate appends, accepted or not. *)
Definition strategy_figures (w : world) (path : pystr) (s : strategy)
    : list FigureRecord :=
  match s with
  | PDFPlumber =>
      match pdfplumber_open w path with
      | Ok pages => plumber_figures 0 pages
      | Raise _ => []
      end
  | _ => []
  end.

Definition camelot_record (t : camelot_table) : TableRecord :=
  mkTable (py "Camelot") (ct_page t)
    (to_dict_records (map_cells (replace_cell blank_cell CNone) (ct_df t))).

Definition tabula_record (it : nat * DataFrame) : TableRecord :=
  mkTable (py "Tabula") (Z.of_nat (fst it) + 1)
    (to_dict_records (map_cells (fillna_cell (CStr [])) (snd it))).

(** The table records of the grid-line method: one per non-empty table. *)
Definition camelot_records (w : world) (path : pystr) : list TableRecord :=
  match camelot_read_pdf w path with
  | Ok ts => map camelot_record
               (filter (fun t => negb (df_empty (ct_df t))) ts)
  | Raise _ => []
  end.

(** The table records of the stream method: one per non-empty table,
    numbered by its position among the tables returned. *)
Definition tabula_records (w : world) (path : pystr) : list TableRecord :=
  match tabula_read_pdf w path with
  | Ok dfs => map tabula_record
                (filter (fun it => negb (df_empty (snd it)))
                        (combine (seq 0 (length dfs)) dfs))
  | Raise _ => []
  end.

Fixpoint tabula_from (i : Z) (dfs : list DataFrame) : list TableRecord :=
  match dfs with
  | [] => []
  | df :: dfs' =>
      (if negb (df_empty df) then
         [mkTable (py "Tabula") (i + 1)
            (to_dict_records (map_cells (fillna_cell (CStr [])) df))]
       else [])
      ++ tabula_from (i + 1) dfs'
  end.

(** What [_extract_tables] prints. *)
Definition table_messages (w : world) (path : pystr) : list output :=
  match camelot_read_pdf w path with
  | Ok _ => []
  | Raise e => [Text (py "Camelot table extraction failed: " ++ exn_str e)]
  end ++
  match tabula_read_pdf w path with
  | Ok _ => []
  | Raise e => [Text (py "Tabula table extraction failed: " ++ exn_str e)]
  end.

(** What a candidate prints when [e] stops it. *)
Definition failure_message (s : strategy) (e : exn) : pystr :=
  match s with
  | PyMuPDF => py "PyMuPDF extraction failed: " ++ exn_str e
  | PDFPlumber => py "PDFPlumber extraction failed: " ++ exn_str e
  | PyPDF =>
      match exn_kind e with
      | PdfReadError => py "Encrypted PDF detected: " ++ exn_str e
      | OtherException => py "PyPDF extraction failed: " ++ exn_str e
      end
  | TesseractOCR => py "OCR extraction failed: " ++ exn_str e
  end.

(** A state grown by appended records, names and output; [is_scanned]
    possibly raised. *)
Definition update (st : state) (c : list PageTextRecord)
    (t : list TableRecord) (f : list FigureRecord) (names : list pystr)
    (scanned : bool) (out : list output) : state :=
  let x := self st in
  let r := results x in
  mkState
    (mkExtractor (pdf_path x)
       (mkResults (metadata r) (headers r) (content r ++ c) (list_items r)
                  (tables r ++ t) (figures r ++ f))
       (extraction_methods x ++ names) (is_scanned x || scanned)
       (ocr_engine x))
    (stdout st ++ out) (files st) (tesseract_cmd st).

Definition is_ocr (s : strategy) : bool :=
  match s with TesseractOCR => true | _ => false end.

(** The whole effect of running candidate [s] in state [st]. *)
Definition strategy_effect (w : world) (s : strategy) (st : state)
    : bool * state :=
  let path := pdf_path (self st) in
  let figs := strategy_figures w path s in
  match strategy_texts w s path (tesseract_cmd st) with
  | Raise e => (false, update st [] [] figs [] false
                         [Text (failure_message s e)])
  | Ok texts =>
      if existsb nonblank texts then
        (true,
         update st (page_records (strategy_tag s) texts)
           (if is_ocr s then []
            else camelot_records w path ++ tabula_records w path)
           figs [strategy_name s] (is_ocr s)
           (if is_ocr s then [] else table_messages w path))
      else (false, update st [] [] figs [] false [])
  end.

(** One line of the content structurer on the pair of the mapping and
    the current header. *)
Definition step_line (hc : Dict.dict pystr (list pystr) * pystr)
    (raw : pystr) : Dict.dict pystr (list pystr) * pystr :=
  let (h, current_header) := hc in
  let line := strip raw in
  if is_heading line then (Dict.set PyStr.eqb h line [], line)
  else
    match Dict.get PyStr.eqb h current_header with
    | Some body =>
        (Dict.set PyStr.eqb h current_header (body ++ [line]), current_header)
    | None => (Dict.set PyStr.eqb h sentinel [line], current_header)
    end.

(** The lines [_process_content] goes through, in order. *)
Definition all_lines (items : list PageTextRecord) : list pystr :=
  flat_map (fun item => split newline (pt_content item)) items.

(** The non-heading lines met while the current header is not a key of
    the mapping, in order. *)
Fixpoint fallback_lines (hc : Dict.dict pystr (list pystr) * pystr)
    (lines : list pystr) : list pystr :=
  match lines with
  | [] => []
  | raw :: rest =>
      (if negb (is_heading (strip raw))
          && negb (Dict.contains PyStr.eqb (fst hc) (snd hc))
       then [strip raw] else [])
      ++ fallback_lines (step_line hc raw) rest
  end.

(** Two states with the same object and the same tesseract command:
    they may differ in what was printed and written before. *)
Definition same_object (st st' : state) : Prop :=
  self st = self st' /\ tesseract_cmd st = tesseract_cmd st'.

(** A program whose value and effect on the object do not depend on
    what was printed and written before. *)
Definition respects {A} (m : M A) : Prop :=
  forall st st', same_object st st' ->
    fst (m st) = fst (m st') /\ same_object (snd (m st)) (snd (m st')).

(** What the selected candidate, if any, leaves in the object. *)
Definition selected_content (w : world) (path cmd : pystr)
    (sel : option strategy) : list PageTextRecord :=
  match sel with
  | Some s =>
      match strategy_texts w s path cmd with
      | Ok texts => page_records (strategy_tag s) texts
      | Raise _ => []
      end
  | None => []
  end.

Definition selected_tables (w : world) (path : pystr)
    (sel : option strategy) : list TableRecord :=
  match sel with
  | Some s =>
      if is_ocr s then []
      else camelot_records w path ++ tabula_records w path
  | None => []
  end.

Definition selected_names (sel : option strategy) : list pystr :=
  match sel with
  | Some s => [strategy_name s]
  | None => []
  end.

Definition selected_scanned (sel : option strategy) : bool :=
  match sel with
  | Some s => is_ocr s
  | None => false
  end.

(** The metadata mapping [_extract_metadata] stores for a document. *)
Definition metadata_of (doc : fitz_doc) : Dict.dict pystr pyval :=
  [ (py "title", get_default (doc_metadata doc) "title");
    (py "author", get_default (doc_metadata doc) "author");
    (py "creator", get_default (doc_metadata doc) "creator");
    (py "creation_date", get_default (doc_metadata doc) "creation_date");
    (py "modification_date", get_default (doc_metadata doc) "mod_date");
    (py "page_count", PInt (doc_page_count doc)) ].

(** The body list of a key, empty when the key is absent. *)
Definition body_of (h : Dict.dict pystr (list pystr)) (k : pystr)
    : list pystr :=
  match Dict.get PyStr.eqb h k with
  | Some body => body
  | None => []
  end.

(** ** Example documents *)

(** An image as pdfplumber describes it (the raw stream left out). *)
Definition example_image : plumber_image :=
  [ (py "x0", ONum 0); (py "y0", ONum 0);
    (py "x1", ONum 612); (py "y1", ONum 792);
    (py "width", ONum 612); (py "height", ONum 792);
    (py "name", OStr (py "Im0"));
    (py "srcsize", OTuple [2550; 3300]%Q);
    (py "imagemask", ONone); (py "bits", ONum 8);
    (py "colorspace", OStr (py "DeviceGray"));
    (py "object_type", OStr (py "image"));
    (py "page_number", ONum 1);
    (py "top", ONum 0); (py "bottom", ONum 792); (py "doctop", ONum 0) ].

(** A file system in which one directory is missing. *)
Definition example_disk (file : pystr) : result unit :=
  if PyStr.eqb file (py "/no-such-dir/out.json") then
    Raise (mkExn OtherException
      (py "[Errno 2] No such file or directory: '/no-such-dir/out.json'"))
  else Ok tt.

(** A one-page scan: no text layer, one image on the page, text only
    through OCR. *)
Definition scanned_world : world :=
  mkWorld (py "posix")
    (fun _ => Ok (mkFitzDoc [] 1 [Ok (py "")]))
    (fun _ => Ok [mkPlumberPage (Ok (py "")) (Ok [example_image])])
    (fun _ => Ok [Ok (py " ")])
    (fun _ => Ok [7%N])
    (fun _ _ => Ok (py "RESULTS"))
    (fun _ => Raise (mkExn OtherException (py "no tables")))
    (fun _ => Raise (mkExn OtherException (py "no java")))
    example_disk.

(** A two-page born-digital document with one ruled table on page 2. *)
Definition digital_world : world :=
  mkWorld (py "posix")
    (fun _ => Ok (mkFitzDoc [(py "title", PStr (py "Report"))] 2
                    [Ok (py "the cat sat"); Ok (py " ")]))
    (fun _ => Ok [mkPlumberPage (Ok (py "the cat sat")) (Ok [example_image]);
                  mkPlumberPage (Ok (py " ")) (Ok [])])
    (fun _ => Ok [Ok (py "the cat sat"); Ok (py " ")])
    (fun _ => Ok [7%N; 8%N])
    (fun _ _ => Ok (py "the cat sat"))
    (fun _ => Ok [mkCamelotTable 2
                    (mkDataFrame [LInt 0; LInt 1]
                       [[CStr (py " "); CStr (py "a")]])])
    (fun _ => Ok [mkDataFrame [] [];
                  mkDataFrame [LStr (py "c")] [[CNaN]; [CStr (py " ")]]])
    example_disk.

Definition example_path : pystr := py "a.pdf".

(** The state after [__init__] in a fresh process. *)
Definition fresh (w : world) : state :=
  __init__ w example_path [] [] (py "tesseract").

(** The state after [extract] in a fresh process. *)
Definition extracted (w : world) : state := snd (extract w (fresh w)).

(** A document that cannot be opened at all. *)
Definition unreadable_world : world :=
  mkWorld (py "posix")
    (fun _ => Raise (mkExn OtherException (py "cannot open")))
    (fun _ => Raise (mkExn OtherException (py "cannot open")))
    (fun _ => Raise (mkExn PdfReadError (py "cannot open")))
    (fun _ => Raise (mkExn OtherException (py "cannot open")))
    (fun _ _ => Raise (mkExn OtherException (py "no image")))
    (fun _ => Raise (mkExn OtherException (py "cannot open")))
    (fun _ => Raise (mkExn OtherException (py "cannot open")))
    example_disk.

(** A document that opens, with one image on its page, from which no
    candidate gets any text. *)
Definition blank_world : world :=
  mkWorld (py "posix")
    (fun _ => Ok (mkFitzDoc [] 1 [Ok (py " ")]))
    (fun _ => Ok [mkPlumberPage (Ok (py "")) (Ok [example_image])])
    (fun _ => Raise (mkExn PdfReadError (py "encrypted")))
    (fun _ => Ok [7%N])
    (fun _ _ => Ok (py "
"))
    (fun _ =>
       Ok [mkCamelotTable 1 (mkDataFrame [LInt 0] [[CStr (py "x")]])])
    (fun _ => Ok [])
    example_disk.

(** The one-page scan on Windows, where only the tesseract of the
    Windows path reads the page. *)
Definition windows_world : world :=
  mkWorld (py "nt")
    (fun _ => Ok (mkFitzDoc [] 1 [Ok (py "")]))
    (fun _ => Ok [mkPlumberPage (Ok (py "")) (Ok [example_image])])
    (fun _ => Ok [Ok (py " ")])
    (fun _ => Ok [7%N])
    (fun cmd _ =>
       if PyStr.eqb cmd windows_tesseract then Ok (py "RESULTS")
       else Raise (mkExn OtherException (py "tesseract not found")))
    (fun _ => Raise (mkExn OtherException (py "no tables")))
    (fun _ => Raise (mkExn OtherException (py "no java")))
    example_disk.

(** ** Vocabulary of the table records *)

(** A string cell of whitespace only, the empty string included. *)
Definition is_blank (c : cell) : bool :=
  match c with
  | CStr s => forallb is_space s
  | _ => false
  end.

(** A missing cell: [None] or NaN. *)
Definition is_missing (c : cell) : bool :=
  match c with
  | CNone | CNaN => true
  | _ => false
  end.

(** What the grid-line method is to record for a cell: the null marker
    for a blank string. *)
Definition grid_cell (null : cell) (c : cell) : cell :=
  if is_blank c then null else c.

(** What the stream method is to record for a cell: the empty string
    for a missing value. *)
Definition stream_cell (c : cell) : cell :=
  if is_missing c then CStr [] else c.

(** The frame has a row and a column. *)
Definition has_cells (df : DataFrame) : bool :=
  match rows df, columns df with
  | _ :: _, _ :: _ => true
  | _, _ => false
  end.

(** [data] is the frame [df] row by row with every cell passed through
    [norm]: one mapping per row; whatever a mapping holds under a label
    is the passed cell of a column with that label; and, the labels
    being distinct, the mapping holds the passed cell of every column
    under the label of the column. *)
Definition records_of (norm : cell -> cell) (df : DataFrame)
    (data : list (Dict.dict label cell)) : Prop :=
  length data = length (rows df) /\
  forall i row d,
    nth_error (rows df) i = Some row -> nth_error data i = Some d ->
    (forall l v,
        Dict.get label_eqb d l = Some v ->
        exists j c,
          nth_error (columns df) j = Some l /\ nth_error row j = Some c /\
          v = norm c) /\
    (NoDup (columns df) ->
     forall j l c,
       nth_error (columns df) j = Some l -> nth_error row j = Some c ->
       Dict.get label_eqb d l = Some (norm c)).

(** No mapping of [data] holds a cell that [bad] marks. *)
Definition no_cell (bad : cell -> bool) (data : list (Dict.dict label cell))
    : Prop :=
  forall d l v, In d data -> Dict.get label_eqb d l = Some v -> bad v = false.

(** ** Vocabulary of the further properties *)

(** The trimmed lines before the first heading line. *)
Fixpoint leading_body (lines : list pystr) : list pystr :=
  match lines with
  | [] => []
  | raw :: rest =>
      if is_heading (strip raw) then []
      else strip raw :: leading_body rest
  end.

(** The pattern has no [$]. *)
Fixpoint no_eol (r : Re.regex) : bool :=
  match r with
  | Re.Eol => false
  | Re.Bol | Re.Cls _ => true
  | Re.Cat r1 r2 => no_eol r1 && no_eol r2
  | Re.Star r1 | Re.Plus r1 | Re.Opt r1 => no_eol r1
  end.

(** The page has no image. *)
Definition no_image (p : plumber_page) : Prop := pl_images p = Ok [].

(** The file [main] is asked to write: the path given with [-o], unless
    it is empty. *)
Definition output_file (output_arg : option pystr) : option pystr :=
  match output_arg with
  | Some (c :: file) => Some (c :: file)
  | Some [] | None => None
  end.

(** The outcome of the output step of [main]: whether the file that is
    asked for opens. *)
Definition output_step (w : world) (output_arg : option pystr) : result unit :=
  match output_file output_arg with
  | Some file => open_for_writing w file
  | None => Ok tt
  end.

(** The state after the output step of [main], when it succeeds. *)
Definition emitted (output_arg : option pystr) (st : state) : state :=
  match output_file output_arg with
  | Some file =>
      mkState (self st)
        (stdout st ++ [Text (py "Results saved to " ++ file)])
        (files st ++ [(file, Json (results (self st)))])
        (tesseract_cmd st)
  | None =>
      mkState (self st) (stdout st ++ [Json (results (self st))])
        (files st) (tesseract_cmd st)
  end.

(** The state after [_process_content]. *)
Definition structured (st : state) : state :=
  with_results
    (set_headers
       (fst (fold_left step_line (all_lines (content (results (self st))))
               (headers (results (self st)), sentinel))))
    st.

(** An extractor whose [content] holds one page with a preamble and the
    same heading twice. *)
Definition sample_state : state :=
  with_results
    (extend_content
       [mkPageText 1 (py "preamble
RESULTS
first
RESULTS
second
") (py "text")])
    (fresh digital_world).

(* ===================================================================== *)
(** * Properties *)
(* ===================================================================== *)

(** ** Sample evaluations *)

Example strip_sample : strip (py "  a b  ") = py "a b".
Proof. reflexivity. Qed.

Example split_sample :
  split newline (py "a
b
") = [py "a"; py "b"; py ""].
Proof. reflexivity. Qed.

Example split_empty : split newline (py "") = [py ""].
Proof. reflexivity. Qed.

Example heading_samples :
  map (fun s => is_heading (strip (py s)))
      ["IV. Methods"; "12. Ab"; "A B C:"; "II";
       "1.Intro"; "RESULTS: x"; "A"; "I"; "Main Content"]%string
  = [true; true; true; true; false; false; false; false; false].
Proof. vm_compute. reflexivity. Qed.

(** The born-digital sample: PyMuPDF is selected, page 2 is blank and
    gives no record; the stream method returned an empty table first, so
    its second table is recorded with page 2. *)
Example digital_run :
  let r := results (self (snd (main digital_world example_path None [] []
                                 (py "tesseract")))) in
  map pt_page (content r) = [1] /\
  extraction_methods (self (extracted digital_world)) = [py "PyMuPDF"] /\
  map (fun t => (tb_method t, tb_page t, tb_data t)) (tables r)
  = [ (py "Camelot", 2, [[(LInt 0, CNone); (LInt 1, CStr (py "a"))]]);
      (py "Tabula", 2, [[(LStr (py "c"), CStr (py ""))];
                        [(LStr (py "c"), CStr (py " "))]]) ] /\
  headers r = [(py "Main Content", [py "the cat sat"])].
Proof. vm_compute. repeat split; reflexivity. Qed.

(** The scanned sample: the three digital candidates yield nothing, OCR
    is selected, and the text it reads is an all-caps heading. *)
Example scanned_run :
  let st := snd (main scanned_world example_path None [] []
                   (py "tesseract")) in
  map (fun rec => (pt_page rec, pt_type rec)) (content (results (self st)))
  = [(1, py "ocr_text")] /\
  is_scanned (self st) = true /\
  tables (results (self st)) = [] /\
  figures (results (self st)) = [] /\
  headers (results (self st)) = [(py "RESULTS", [])] /\
  firstn 1 (stdout st) = [Text (py "PDFPlumber extraction failed: 'bbox'")].
Proof. vm_compute. repeat split; reflexivity. Qed.

(** The figure loop reads image by image: were a page to hand over a
    dict with the three keys before one without "bbox", the record of
    the first would stay when the second stops the candidate. *)
Example figures_loop_sample :
  let full := [(py "bbox", OTuple [0; 0; 1; 1]%Q); (py "width", ONum 1);
               (py "height", ONum 1)] in
  let w := mkWorld (py "posix") (fitz_open scanned_world)
             (fun _ => Ok [mkPlumberPage (Ok (py "text"))
                             (Ok [full; example_image; full])])
             (PdfReader scanned_world) (convert_from_path scanned_world)
             (image_to_string scanned_world)
             (camelot_read_pdf scanned_world) (tabula_read_pdf scanned_world)
             example_disk in
  let run := _extract_with_pdfplumber w (fresh w) in
  fst run = Ok false /\
  figures (results (self (snd run)))
  = [mkFigure 1 (OTuple [0; 0; 1; 1]%Q) (ONum 1) (ONum 1)] /\
  content (results (self (snd run))) = [] /\
  stdout (snd run) = [Text (py "PDFPlumber extraction failed: 'bbox'")].
Proof. vm_compute. repeat split; reflexivity. Qed.

(** ** The matcher is correct *)

(** A match leaves a suffix of what it started from. *)
Lemma lang_suffix (n0 : nat) (r : Re.regex) (s s' : pystr) :
  Re.lang n0 r s s' -> exists p, s = p ++ s'.
Proof.
  induction 1;
    try (exists []; reflexivity);
    try (exists [c]; reflexivity);
    try assumption;
    try (destruct IHlang1 as [p1 ->]; destruct IHlang2 as [p2 ->];
         exists (p1 ++ p2); now rewrite app_assoc).
Qed.

Lemma lang_length (n0 : nat) (r : Re.regex) (s s' : pystr) :
  Re.lang n0 r s s' -> (length s' <= length s)%nat.
Proof.
  intros H. destruct (lang_suffix _ _ _ _ H) as [p ->].
  rewrite length_app. lia.
Qed.

Lemma lang_same_length (n0 : nat) (r : Re.regex) (s s' : pystr) :
  Re.lang n0 r s s' -> length s' = length s -> s' = s.
Proof.
  intros H E. destruct (lang_suffix _ _ _ _ H) as [p ->].
  rewrite length_app in E. destruct p; [reflexivity | cbn in E; lia].
Qed.

Lemma star_loop_sound (n0 : nat) (r1 : Re.regex) (k : pystr -> bool) :
  (forall s k', Re.run r1 n0 s k' = true ->
                exists s', Re.lang n0 r1 s s' /\ k' s' = true) ->
  forall fuel s,
    Re.star_loop (Re.run r1 n0) k fuel s = true ->
    exists s2, Re.lang n0 (Re.Star r1) s s2 /\ k s2 = true.
Proof.
  intros IH fuel. induction fuel as [|fuel IHf]; intros s H;
    cbn [Re.star_loop] in H; apply orb_true_iff in H;
    destruct H as [H|H]; try discriminate H.
  - exists s. split; [constructor | exact H].
  - exists s. split; [constructor | exact H].
  - apply IH in H. destruct H as (s1 & H1 & H).
    apply andb_true_iff in H. destruct H as [_ H].
    apply IHf in H. destruct H as (s2 & H2 & Hk).
    exists s2. split; [econstructor; eassumption | exact Hk].
Qed.

Lemma run_sound (n0 : nat) (r : Re.regex) :
  forall (s : pystr) (k : pystr -> bool),
    Re.run r n0 s k = true ->
    exists s', Re.lang n0 r s s' /\ k s' = true.
Proof.
  induction r as [| |p|r1 IH1 r2 IH2|r1 IH|r1 IH|r1 IH]; intros s k H;
    cbn [Re.run] in H.
  - apply andb_true_iff in H. destruct H as [Hn Hk].
    apply Nat.eqb_eq in Hn. exists s. split; [now constructor | exact Hk].
  - destruct s as [|c [|c' s]]; try discriminate H.
    + exists []. split; [constructor | exact H].
    + apply andb_true_iff in H. destruct H as [Hc Hk].
      apply N.eqb_eq in Hc. subst c.
      exists [newline]. split; [constructor | exact Hk].
  - destruct s as [|c s]; [discriminate H|].
    apply andb_true_iff in H. destruct H as [Hp Hk].
    exists s. split; [now constructor | exact Hk].
  - apply IH1 in H. destruct H as (s1 & H1 & H).
    apply IH2 in H. destruct H as (s2 & H2 & Hk).
    exists s2. split; [econstructor; eassumption | exact Hk].
  - apply (star_loop_sound n0 r1 k IH) in H. exact H.
  - apply IH in H. destruct H as (s1 & H1 & H).
    apply (star_loop_sound n0 r1 k IH) in H. destruct H as (s2 & H2 & Hk).
    exists s2. split; [econstructor; eassumption | exact Hk].
  - apply orb_true_iff in H. destruct H as [H|H].
    + apply IH in H. destruct H as (s1 & H1 & Hk).
      exists s1. split; [now apply Re.L_Opt_some | exact Hk].
    + exists s. split; [apply Re.L_Opt_none | exact H].
Qed.

(** One more iteration of a starred body: skipped when it consumes
    nothing, run when it makes progress. *)
Lemma star_more_complete (n0 : nat) (r : Re.regex) (s s1 : pystr)
    (k : pystr -> bool) :
  Re.lang n0 r s s1 ->
  (forall k', k' s1 = true -> Re.run r n0 s k' = true) ->
  (forall fuel, (length s1 <= fuel)%nat ->
                Re.star_loop (Re.run r n0) k fuel s1 = true) ->
  forall fuel, (length s <= fuel)%nat ->
               Re.star_loop (Re.run r n0) k fuel s = true.
Proof.
  intros H1 Hrun Hrest fuel Hfuel.
  destruct (Nat.eq_dec (length s1) (length s)) as [El|Nl].
  - rewrite <- (lang_same_length _ _ _ _ H1 El). apply Hrest. lia.
  - pose proof (lang_length _ _ _ _ H1) as Hle.
    destruct fuel as [|fuel]; [lia|]. cbn [Re.star_loop].
    apply orb_true_iff. right. apply Hrun.
    apply andb_true_iff. split; [apply Nat.ltb_lt; lia|].
    apply Hrest. lia.
Qed.

Lemma run_complete (n0 : nat) (r : Re.regex) (s s' : pystr) :
  Re.lang n0 r s s' ->
  forall k : pystr -> bool,
    k s' = true ->
    Re.run r n0 s k = true /\
    forall r1, r = Re.Star r1 ->
      forall fuel, (length s <= fuel)%nat ->
        Re.star_loop (Re.run r1 n0) k fuel s = true.
Proof.
  induction 1 as [s Hn| | |p c s Hp|r1 r2 s s1 s2 H1 IH1 H2 IH2
                  |r s s' H IH|r s|r s|r s s1 s2 H1 IH1 H2 IH2
                  |r s s1 s2 H1 IH1 H2 IH2];
    intros k Hk; (split; [|intros r0 E; try discriminate E]);
    cbn [Re.run].
  - rewrite Hn, Nat.eqb_refl. exact Hk.
  - exact Hk.
  - rewrite Hk. reflexivity.
  - now rewrite Hp, Hk.
  - apply IH1. now apply IH2.
  - apply orb_true_iff. left. now apply IH.
  - now rewrite Hk, orb_true_r.
  - destruct (length s); cbn [Re.star_loop]; now rewrite Hk.
  - intros fuel _. destruct fuel; cbn [Re.star_loop]; now rewrite Hk.
  - apply (star_more_complete n0 r s s1 k H1
             (fun k' Hk' => proj1 (IH1 k' Hk'))
             (proj2 (IH2 k Hk) r eq_refl)).
    lia.
  - injection E as <-.
    apply (star_more_complete n0 r s s1 k H1
             (fun k' Hk' => proj1 (IH1 k' Hk'))
             (proj2 (IH2 k Hk) r eq_refl)).
  - apply IH1. apply (proj2 (IH2 k Hk) r eq_refl).
    now apply lang_length in H1.
Qed.

(** [pattern.match(s)] is truthy exactly when the pattern matches a
    prefix of [s]. *)
Lemma matches_correct (r : Re.regex) (s : pystr) :
  Re.matches r s = true <-> exists s', Re.lang (length s) r s s'.
Proof.
  unfold Re.matches. split.
  - intros H. apply run_sound in H. destruct H as (s' & H & _). now exists s'.
  - intros [s' H]. now apply (run_complete _ _ _ _ H).
Qed.

(** ** Strings and dictionaries *)

Lemma pystr_eqb_eq (a b : pystr) : PyStr.eqb a b = true <-> a = b.
Proof.
  revert b; induction a as [|x a IH]; intros [|y b]; simpl;
    try (split; [discriminate | congruence]); try tauto.
  unfold char_eqb. rewrite andb_true_iff, N.eqb_eq, IH.
  split; [intros [-> ->]; reflexivity | intros H; inversion H; auto].
Qed.

Lemma pystr_eqb_refl (a : pystr) : PyStr.eqb a a = true.
Proof. apply pystr_eqb_eq; reflexivity. Qed.

Lemma pystr_eqb_neq (a b : pystr) : a <> b -> PyStr.eqb a b = false.
Proof.
  intros H. destruct (PyStr.eqb a b) eqn:E; [|reflexivity].
  apply pystr_eqb_eq in E. contradiction.
Qed.

Lemma dict_get_set_same {V} (d : Dict.dict pystr V) k v :
  Dict.get PyStr.eqb (Dict.set PyStr.eqb d k v) k = Some v.
Proof.
  induction d as [|[k' v'] d IH]; simpl.
  - now rewrite pystr_eqb_refl.
  - destruct (PyStr.eqb k' k) eqn:E; simpl; rewrite E; auto.
Qed.

Lemma dict_get_set_other {V} (d : Dict.dict pystr V) k k' v :
  k <> k' ->
  Dict.get PyStr.eqb (Dict.set PyStr.eqb d k v) k' = Dict.get PyStr.eqb d k'.
Proof.
  intros Hne. induction d as [|[k0 v0] d IH]; simpl.
  - now rewrite pystr_eqb_neq.
  - destruct (PyStr.eqb k0 k) eqn:E; simpl.
    + apply pystr_eqb_eq in E; subst k0.
      now rewrite pystr_eqb_neq.
    + destruct (PyStr.eqb k0 k'); auto.
Qed.

(** ** The state grows *)

Lemma update_nil st : update st [] [] [] [] false [] = st.
Proof.
  destruct st as [[p [m h c l t f] ms sc oe] out fs cmd].
  unfold update; simpl. now rewrite !app_nil_r, orb_false_r.
Qed.

Lemma update_update st c1 t1 f1 n1 s1 o1 c2 t2 f2 n2 s2 o2 :
  update (update st c1 t1 f1 n1 s1 o1) c2 t2 f2 n2 s2 o2 =
  update st (c1 ++ c2) (t1 ++ t2) (f1 ++ f2) (n1 ++ n2) (s1 || s2)
         (o1 ++ o2).
Proof.
  unfold update; simpl. now rewrite !app_assoc, orb_assoc.
Qed.

Lemma sequence_map_id {A} (l : list (result A)) :
  sequence (map (fun x => x) l) = sequence l.
Proof. now rewrite map_id. Qed.

(** ** Page loops *)

Lemma records_from_page_records_gen tag (texts : list pystr) (n : nat) :
  records_from tag (Z.of_nat n) texts =
  map (fun it => mkPageText (Z.of_nat (fst it) + 1) (snd it) tag)
      (filter (fun it => nonblank (snd it))
              (combine (seq n (length texts)) texts)).
Proof.
  revert n; induction texts as [|t ts IH]; intros n; simpl; [reflexivity|].
  assert (E : Z.of_nat n + 1 = Z.of_nat (S n)) by lia.
  rewrite E, IH, <- E. destruct (nonblank t); reflexivity.
Qed.

Lemma records_from_page_records tag texts :
  records_from tag 0 texts = page_records tag texts.
Proof. apply (records_from_page_records_gen tag texts 0). Qed.

Lemma nonempty_records_from tag i texts :
  nonempty (records_from tag i texts) = existsb nonblank texts.
Proof.
  revert i; induction texts as [|t ts IH]; intros i; simpl; [reflexivity|].
  destruct (nonblank t); simpl; auto.
Qed.

(** A loop whose body reads one text per item and leaves the state
    alone collects the records of the non-blank texts. *)
Lemma text_loop {A} (body : Z -> A -> list PageTextRecord ->
                            M (list PageTextRecord))
    (f : A -> result pystr) (tag : pystr) (st : state) :
  (forall i x acc,
      body i x acc st =
      (match f x with
       | Ok text =>
           Ok (if nonblank text
               then acc ++ [mkPageText (i + 1) text tag] else acc)
       | Raise e => Raise e
       end, st)) ->
  forall xs i acc,
    for_enumerate i xs body acc st =
    (match sequence (map f xs) with
     | Ok texts => Ok (acc ++ records_from tag i texts)
     | Raise e => Raise e
     end, st).
Proof.
  intros Hbody xs; induction xs as [|x xs IH]; intros i acc; simpl.
  - unfold ret. now rewrite app_nil_r.
  - unfold bind. rewrite Hbody. destruct (f x) as [text|e]; [|reflexivity].
    rewrite IH. destruct (sequence (map f xs)); [|reflexivity].
    simpl. destruct (nonblank text); simpl; now rewrite <- ?app_assoc.
Qed.

(** ** The primitive updates as growth *)

Lemma extend_content_update st c :
  with_results (extend_content c) st = update st c [] [] [] false [].
Proof.
  unfold with_results, with_self, extend_content, update; simpl.
  now rewrite !app_nil_r, orb_false_r.
Qed.

Lemma append_table_update st t :
  with_results (append_table t) st = update st [] [t] [] [] false [].
Proof.
  unfold with_results, with_self, append_table, update; simpl.
  now rewrite !app_nil_r, orb_false_r.
Qed.

Lemma append_figure_update st f :
  with_results (append_figure f) st = update st [] [] [f] [] false [].
Proof.
  unfold with_results, with_self, append_figure, update; simpl.
  now rewrite !app_nil_r, orb_false_r.
Qed.

Lemma append_method_update st name :
  append_method name st = update st [] [] [] [name] false [].
Proof.
  destruct st as [[p [m h c l t f] ms sc oe] out fs cmd].
  unfold append_method, with_self, update; simpl.
  now rewrite !app_nil_r, orb_false_r.
Qed.

Lemma set_is_scanned_update st :
  set_is_scanned true st = update st [] [] [] [] true [].
Proof.
  destruct st as [[p [m h c l t f] ms sc oe] out fs cmd].
  unfold set_is_scanned, with_self, update; simpl.
  now rewrite !app_nil_r, orb_true_r.
Qed.

Lemma print_update s st :
  print s st = (Ok tt, update st [] [] [] [] false [Text s]).
Proof.
  destruct st as [[p [m h c l t f] ms sc oe] out fs cmd].
  unfold print, modify, update; simpl.
  now rewrite !app_nil_r, orb_false_r.
Qed.

Lemma update_path st c t f n s o :
  pdf_path (self (update st c t f n s o)) = pdf_path (self st).
Proof. reflexivity. Qed.

Lemma update_cmd st c t f n s o :
  tesseract_cmd (update st c t f n s o) = tesseract_cmd st.
Proof. reflexivity. Qed.

(** ** The table extractor *)

Lemma tabula_from_records (dfs : list DataFrame) (n : nat) :
  tabula_from (Z.of_nat n) dfs =
  map tabula_record
      (filter (fun it => negb (df_empty (snd it)))
              (combine (seq n (length dfs)) dfs)).
Proof.
  revert n; induction dfs as [|df dfs IH]; intros n; simpl; [reflexivity|].
  assert (E : Z.of_nat n + 1 = Z.of_nat (S n)) by lia.
  rewrite E, IH, <- E. destruct (df_empty df); reflexivity.
Qed.

Lemma tabula_from_zero (dfs : list DataFrame) :
  tabula_from 0 dfs =
  map tabula_record
      (filter (fun it => negb (df_empty (snd it)))
              (combine (seq 0 (length dfs)) dfs)).
Proof. exact (tabula_from_records dfs 0). Qed.

Lemma camelot_loop (ts : list camelot_table) : forall st,
  for_each ts (fun table =>
    if df_empty (ct_df table) then ret tt
    else
      modify (with_results (append_table
        (mkTable (py "Camelot") (ct_page table)
           (to_dict_records
              (df_replace_regex blank_cell CNone (ct_df table))))))) st =
  (Ok tt,
   update st []
     (map camelot_record (filter (fun t => negb (df_empty (ct_df t))) ts))
     [] [] false []).
Proof.
  induction ts as [|t ts IH]; intros st; simpl.
  - unfold ret. now rewrite update_nil.
  - unfold bind. destruct (df_empty (ct_df t)); simpl.
    + apply IH.
    + unfold modify. rewrite IH, append_table_update, update_update.
      reflexivity.
Qed.

Lemma tabula_loop (dfs : list DataFrame) : forall i st,
  for_enumerate i dfs (fun i table (_ : unit) =>
    if negb (df_empty table) then
      modify (with_results (append_table
        (mkTable (py "Tabula") (i + 1)
           (to_dict_records (df_fillna (CStr (py "")) table)))))
    else ret tt) tt st =
  (Ok tt, update st [] (tabula_from i dfs) [] [] false []).
Proof.
  induction dfs as [|df dfs IH]; intros i st; simpl.
  - unfold ret. now rewrite update_nil.
  - unfold bind. destruct (df_empty df); simpl.
    + apply IH.
    + unfold modify. rewrite IH, append_table_update, update_update.
      reflexivity.
Qed.

(** [_extract_tables] never raises; it appends the records of the two
    methods to [tables] and prints one line per method that failed. *)
Lemma extract_tables_spec (w : world) (st : state) :
  _extract_tables w st =
  (Ok tt,
   update st []
     (camelot_records w (pdf_path (self st))
      ++ tabula_records w (pdf_path (self st)))
     [] [] false (table_messages w (pdf_path (self st)))).
Proof.
  unfold _extract_tables, camelot_records, tabula_records, table_messages.
  unfold bind at 1. unfold try_except at 1. unfold bind at 1 2.
  unfold gets at 1, call at 1.
  destruct (camelot_read_pdf w (pdf_path (self st))) as [ts|e].
  - rewrite camelot_loop.
    unfold try_except, bind, gets, call. rewrite update_path.
    destruct (tabula_read_pdf w (pdf_path (self st))) as [dfs|e].
    + rewrite tabula_loop, update_update.
      rewrite tabula_from_zero. reflexivity.
    + rewrite print_update, update_update. reflexivity.
  - rewrite print_update.
    unfold try_except, bind, gets, call. rewrite update_path.
    destruct (tabula_read_pdf w (pdf_path (self st))) as [dfs|e'].
    + rewrite tabula_loop, update_update.
      rewrite tabula_from_zero. reflexivity.
    + rewrite print_update, update_update. reflexivity.
Qed.

(** ** The candidates *)

(** The success path shared by the three digital candidates. *)
Lemma commit_digital (w : world) (name : pystr) (recs : list PageTextRecord)
    (st : state) :
  (modify (with_results (extend_content recs)) ;;
   modify (append_method name) ;;
   _extract_tables w ;;
   ret true)%py st =
  (Ok true,
   update st recs
     (camelot_records w (pdf_path (self st))
      ++ tabula_records w (pdf_path (self st)))
     [] [name] false (table_messages w (pdf_path (self st)))).
Proof.
  unfold bind, modify, ret.
  rewrite extract_tables_spec, append_method_update, extend_content_update.
  rewrite !update_path, !update_update. simpl.
  now rewrite !app_nil_r.
Qed.

Lemma pymupdf_spec (w : world) (st : state) :
  _extract_with_pymupdf w st =
  (Ok (fst (strategy_effect w PyMuPDF st)),
   snd (strategy_effect w PyMuPDF st)).
Proof.
  unfold _extract_with_pymupdf, strategy_effect, strategy_texts, and_then.
  unfold try_except. unfold bind at 1 2 3. unfold gets at 1, call at 1.
  destruct (fitz_open w (pdf_path (self st))) as [doc|e]; simpl.
  2: { unfold bind. now rewrite print_update. }
  erewrite text_loop with (f := fun x => x) (tag := py "text").
  2: { intros i x acc. unfold bind, call, ret.
       destruct x as [text|e]; [|reflexivity].
       unfold nonblank. destruct (truthy (strip text)); reflexivity. }
  rewrite sequence_map_id.
  destruct (sequence (doc_pages doc)) as [texts|e]; simpl.
  2: { unfold bind. now rewrite print_update. }
  rewrite nonempty_records_from, records_from_page_records.
  destruct (existsb nonblank texts); simpl.
  - now rewrite commit_digital.
  - unfold ret. now rewrite update_nil.
Qed.

Lemma pypdf_spec (w : world) (st : state) :
  _extract_with_pypdf w st =
  (Ok (fst (strategy_effect w PyPDF st)), snd (strategy_effect w PyPDF st)).
Proof.
  unfold _extract_with_pypdf, strategy_effect, strategy_texts, and_then.
  unfold try_except. unfold bind at 1 2 3. unfold gets at 1, call at 1.
  destruct (PdfReader w (pdf_path (self st))) as [pages|e]; simpl.
  2: { destruct (exn_kind e); unfold bind; now rewrite print_update. }
  erewrite text_loop with (f := fun x => x) (tag := py "text").
  2: { intros i x acc. unfold bind, call, ret.
       destruct x as [text|e]; [|reflexivity].
       unfold nonblank. destruct (truthy (strip text)); reflexivity. }
  rewrite sequence_map_id.
  destruct (sequence pages) as [texts|e]; simpl.
  2: { destruct (exn_kind e); unfold bind; now rewrite print_update. }
  rewrite nonempty_records_from, records_from_page_records.
  destruct (existsb nonblank texts); simpl.
  - now rewrite commit_digital.
  - unfold ret. now rewrite update_nil.
Qed.

Lemma ocr_spec (w : world) (st : state) :
  _ocr_fallback w st =
  (Ok (fst (strategy_effect w TesseractOCR st)),
   snd (strategy_effect w TesseractOCR st)).
Proof.
  unfold _ocr_fallback, strategy_effect, strategy_texts, and_then.
  unfold try_except. unfold bind at 1 2 3. unfold gets at 1, call at 1.
  destruct (convert_from_path w (pdf_path (self st))) as [images|e]; simpl.
  2: { unfold bind. now rewrite print_update. }
  erewrite text_loop
    with (f := image_to_string w (tesseract_cmd st)) (tag := py "ocr_text").
  2: { intros i x acc. unfold bind, call, ret, gets.
       destruct (image_to_string w (tesseract_cmd st) x) as [text|e];
         [|reflexivity].
       unfold nonblank. destruct (truthy (strip text)); reflexivity. }
  destruct (sequence (map (image_to_string w (tesseract_cmd st)) images))
    as [texts|e]; simpl.
  2: { unfold bind. now rewrite print_update. }
  rewrite nonempty_records_from, records_from_page_records.
  destruct (existsb nonblank texts); simpl.
  - unfold bind, modify, ret.
    rewrite set_is_scanned_update, append_method_update,
      extend_content_update, !update_update. simpl.
    now rewrite !app_nil_r.
  - unfold ret. now rewrite update_nil.
Qed.

Lemma figures_loop (images : list plumber_image) (i : Z) : forall st,
  for_each images (fun image =>
    bbox <- call (getitem image (py "bbox")) ;;
    width <- call (getitem image (py "width")) ;;
    height <- call (getitem image (py "height")) ;;
    modify (with_results (append_figure
      (mkFigure (i + 1) bbox width height))))%py st =
  (match sequence (map image_fields images) with
   | Ok _ => Ok tt
   | Raise e => Raise e
   end,
   update st [] [] (map (figure_of i) (read_images images)) [] false []).
Proof.
  induction images as [|im ims IH]; intros st;
    cbn [for_each map sequence read_images].
  - unfold ret. now rewrite update_nil.
  - remember (sequence (map image_fields ims)) as rest eqn:Hrest.
    remember (read_images ims) as read eqn:Hread.
    unfold image_fields, and_then, bind at 1 2. unfold call at 1.
    destruct (getitem im (py "bbox")) as [bbox|e];
      [|now rewrite update_nil].
    unfold bind at 1. unfold call at 1.
    destruct (getitem im (py "width")) as [width|e];
      [|now rewrite update_nil].
    unfold bind at 1. unfold call at 1.
    destruct (getitem im (py "height")) as [height|e];
      [|now rewrite update_nil].
    unfold bind at 1. unfold modify at 1.
    rewrite IH, append_figure_update, update_update.
    destruct rest; reflexivity.
Qed.

Lemma plumber_loop (pages : list plumber_page) : forall i acc st,
  for_enumerate i pages (fun page_num page text_content =>
    text <- call (pl_extract_text page) ;;
    let text_content :=
      if truthy (strip text) then
        text_content ++ [mkPageText (page_num + 1) text (py "text")]
      else text_content in
    images <- call (pl_images page) ;;
    for_each images (fun image =>
      bbox <- call (getitem image (py "bbox")) ;;
      width <- call (getitem image (py "width")) ;;
      height <- call (getitem image (py "height")) ;;
      modify (with_results (append_figure
        (mkFigure (page_num + 1) bbox width height)))) ;;
    ret text_content)%py acc st =
  (match sequence (map plumber_read pages) with
   | Ok texts => Ok (acc ++ records_from (py "text") i texts)
   | Raise e => Raise e
   end,
   update st [] [] (plumber_figures i pages) [] false []).
Proof.
  induction pages as [|p ps IH]; intros i acc st; simpl.
  - unfold ret. now rewrite update_nil, app_nil_r.
  - unfold plumber_read at 1, and_then.
    unfold bind at 1 2. unfold call at 1.
    destruct (pl_extract_text p) as [text|e].
    2: { now rewrite update_nil. }
    unfold bind at 1. unfold call at 1.
    destruct (pl_images p) as [images|e].
    2: { now rewrite update_nil. }
    unfold bind at 1. rewrite figures_loop.
    destruct (sequence (map image_fields images)) as [fields|e].
    2: { now rewrite app_nil_r. }
    unfold ret at 1.
    rewrite IH, update_update. simpl.
    destruct (sequence (map plumber_read ps)) as [texts|e]; [|reflexivity].
    simpl. unfold nonblank.
    destruct (truthy (strip text)); simpl; now rewrite <- ?app_assoc.
Qed.

Lemma pdfplumber_spec (w : world) (st : state) :
  _extract_with_pdfplumber w st =
  (Ok (fst (strategy_effect w PDFPlumber st)),
   snd (strategy_effect w PDFPlumber st)).
Proof.
  unfold _extract_with_pdfplumber, strategy_effect, strategy_texts,
    strategy_figures, and_then.
  unfold try_except. unfold bind at 1 2 3. unfold gets at 1, call at 1.
  destruct (pdfplumber_open w (pdf_path (self st))) as [pages|e]; simpl.
  2: { unfold bind. now rewrite print_update. }
  rewrite plumber_loop.
  destruct (sequence (map plumber_read pages)) as [texts|e]; simpl.
  2: { unfold bind. rewrite print_update, update_update. simpl.
       now rewrite !app_nil_r. }
  rewrite nonempty_records_from, records_from_page_records.
  destruct (existsb nonblank texts); simpl.
  - rewrite commit_digital, update_path, update_update. simpl.
    now rewrite !app_nil_r.
  - reflexivity.
Qed.

(** Every candidate returns, with the effect [strategy_effect]. *)
Lemma run_strategy_spec (w : world) (s : strategy) (st : state) :
  run_strategy w s st =
  (Ok (fst (strategy_effect w s st)), snd (strategy_effect w s st)).
Proof.
  destruct s; simpl.
  - apply pymupdf_spec.
  - apply pdfplumber_spec.
  - apply pypdf_spec.
  - apply ocr_spec.
Qed.

Lemma strategy_effect_accepted (w : world) (s : strategy) (st : state) :
  fst (strategy_effect w s st) =
  accepted w (pdf_path (self st)) (tesseract_cmd st) s.
Proof.
  unfold strategy_effect, accepted.
  destruct (strategy_texts w s (pdf_path (self st)) (tesseract_cmd st))
    as [texts|e]; [|reflexivity].
  destruct (existsb nonblank texts); reflexivity.
Qed.

(** ** The selector *)

Lemma for_methods_spec (w : world) (ss : list strategy) : forall st,
  let path := pdf_path (self st) in
  let cmd := tesseract_cmd st in
  let sel := find (accepted w path cmd) ss in
  exists out,
    for_methods (map (run_strategy w) ss) st =
    (Ok tt,
     update st (selected_content w path cmd sel) (selected_tables w path sel)
       (flat_map (strategy_figures w path) (tried w path cmd ss))
       (selected_names sel) (selected_scanned sel) out).
Proof.
  induction ss as [|s ss IH]; intros st path cmd sel.
  - exists []. simpl. unfold ret. now rewrite update_nil.
  - simpl. unfold bind. rewrite run_strategy_spec.
    subst sel. simpl find.
    pose proof (strategy_effect_accepted w s st) as Hacc.
    fold path cmd in Hacc. rewrite Hacc.
    unfold strategy_effect in *. fold path cmd in Hacc |- *.
    unfold accepted in *.
    destruct (strategy_texts w s path cmd) as [texts|e] eqn:Htexts.
    + destruct (existsb nonblank texts) eqn:Hnb; simpl.
      * eexists. unfold ret. simpl. rewrite Htexts, app_nil_r.
        reflexivity.
      * destruct (IH (update st [] [] (strategy_figures w path s) []
                             false [])) as [out Hout].
        rewrite update_path, update_cmd in Hout. fold path cmd in Hout.
        rewrite Hout, update_update. simpl. eexists. reflexivity.
    + simpl.
      destruct (IH (update st [] [] (strategy_figures w path s) [] false
                           [Text (failure_message s e)])) as [out Hout].
      rewrite update_path, update_cmd in Hout. fold path cmd in Hout.
      rewrite Hout, update_update. simpl. eexists. reflexivity.
Qed.

Lemma methods_strategies (w : world) :
  methods w = map (run_strategy w) strategies.
Proof. reflexivity. Qed.

Lemma extract_metadata_spec (w : world) (st : state) :
  _extract_metadata w st =
  match fitz_open w (pdf_path (self st)) with
  | Ok doc => (Ok tt, with_results (set_metadata (metadata_of doc)) st)
  | Raise e => (Raise e, st)
  end.
Proof.
  unfold _extract_metadata, bind, gets, call, modify.
  destruct (fitz_open w (pdf_path (self st))); reflexivity.
Qed.

(** [extract] raises only if the document cannot be opened for its
    metadata; otherwise it returns the result object, grown by what the
    candidates that were run left. *)
Lemma extract_spec (w : world) (st : state) :
  let path := pdf_path (self st) in
  let cmd := tesseract_cmd st in
  let sel := select w path cmd in
  match fitz_open w path with
  | Raise e => extract w st = (Raise e, st)
  | Ok doc =>
      exists out,
        let st' :=
          update (with_results (set_metadata (metadata_of doc)) st)
            (selected_content w path cmd sel) (selected_tables w path sel)
            (flat_map (strategy_figures w path) (tried w path cmd strategies))
            (selected_names sel) (selected_scanned sel) out in
        extract w st = (Ok (results (self st')), st')
  end.
Proof.
  intros path cmd sel.
  destruct (fitz_open w path) as [doc|e] eqn:Hopen; unfold extract;
    unfold bind at 1; rewrite extract_metadata_spec; fold path;
    rewrite Hopen; [|reflexivity].
  rewrite methods_strategies.
  destruct (for_methods_spec w strategies
              (with_results (set_metadata (metadata_of doc)) st))
    as [out Hout].
  exists out. unfold bind. rewrite Hout. reflexivity.
Qed.

(** ** The content structurer *)

Lemma with_results_headers_id st :
  with_results (set_headers (headers (results (self st)))) st = st.
Proof. now destruct st as [[p [m h c l t f] ms sc oe] out fs cmd]. Qed.

Lemma process_line_spec (line cur : pystr) (st : state) :
  process_line line cur st =
  (Ok (snd (step_line (headers (results (self st)), cur) line)),
   with_results
     (set_headers (fst (step_line (headers (results (self st)), cur) line)))
     st).
Proof.
  unfold process_line, step_line.
  destruct (is_heading (strip line)); [reflexivity|].
  unfold bind, gets.
  destruct (Dict.get PyStr.eqb (headers (results (self st))) cur);
    reflexivity.
Qed.

Lemma lines_loop (lines : list pystr) : forall cur st,
  for_fold lines process_line cur st =
  (Ok (snd (fold_left step_line lines (headers (results (self st)), cur))),
   with_results
     (set_headers
        (fst (fold_left step_line lines (headers (results (self st)), cur))))
     st).
Proof.
  induction lines as [|l ls IH]; intros cur st; cbn [for_fold fold_left].
  - unfold ret. cbn [fst snd]. now rewrite with_results_headers_id.
  - unfold bind. rewrite process_line_spec, IH.
    remember (step_line (headers (results (self st)), cur) l) as hc.
    destruct hc as [h' cur']. reflexivity.
Qed.

Lemma items_loop (items : list PageTextRecord) : forall cur st,
  for_fold items (fun item current_header =>
    for_fold (split newline (pt_content item)) process_line current_header)
    cur st =
  (Ok (snd (fold_left step_line (all_lines items)
              (headers (results (self st)), cur))),
   with_results
     (set_headers
        (fst (fold_left step_line (all_lines items)
                (headers (results (self st)), cur))))
     st).
Proof.
  induction items as [|it items IH]; intros cur st; cbn [for_fold].
  - unfold ret. cbn. now rewrite with_results_headers_id.
  - change (all_lines (it :: items))
      with (split newline (pt_content it) ++ all_lines items).
    unfold bind. rewrite lines_loop, IH, fold_left_app.
    remember (fold_left step_line (split newline (pt_content it))
                (headers (results (self st)), cur)) as hc.
    destruct hc as [h' cur']. reflexivity.
Qed.

(** [_process_content] never raises; it replaces [headers] by the fold of
    [step_line] over the lines of [content], starting from the sentinel. *)
Lemma process_content_spec (st : state) :
  _process_content st =
  (Ok tt,
   with_results
     (set_headers
        (fst (fold_left step_line (all_lines (content (results (self st))))
                (headers (results (self st)), sentinel))))
     st).
Proof.
  unfold _process_content. unfold bind at 1. unfold gets at 1.
  unfold bind. rewrite items_loop. reflexivity.
Qed.

Lemma sentinel_not_heading : is_heading sentinel = false.
Proof. vm_compute. reflexivity. Qed.

Lemma heading_not_sentinel (line : pystr) :
  is_heading line = true -> line <> sentinel.
Proof.
  intros H E. rewrite E, sentinel_not_heading in H. discriminate.
Qed.

(** Once the current header is a key of the mapping it stays one: no
    later line takes the fallback branch, and the body list of the
    sentinel only grows at its end. *)
Lemma present_stays (lines : list pystr) : forall h cur,
  Dict.get PyStr.eqb h cur <> None ->
  fallback_lines (h, cur) lines = [] /\
  forall b, Dict.get PyStr.eqb h sentinel = Some b ->
    exists rest,
      Dict.get PyStr.eqb (fst (fold_left step_line lines (h, cur))) sentinel
      = Some (b ++ rest).
Proof.
  induction lines as [|l ls IH]; intros h cur Hcur.
  - split; [reflexivity|]. intros b Hb. exists []. simpl.
    now rewrite app_nil_r.
  - cbn [fallback_lines fold_left fst snd].
    unfold Dict.contains.
    destruct (Dict.get PyStr.eqb h cur) as [body|] eqn:Hget; [|congruence].
    rewrite andb_false_r. cbn [app].
    unfold step_line. rewrite Hget.
    destruct (is_heading (strip l)) eqn:Hh.
    + destruct (IH (Dict.set PyStr.eqb h (strip l) []) (strip l)) as [F G].
      { rewrite dict_get_set_same. discriminate. }
      split; [exact F|]. intros b Hb. apply G.
      rewrite dict_get_set_other; [exact Hb|].
      now apply heading_not_sentinel.
    + destruct (IH (Dict.set PyStr.eqb h cur (body ++ [strip l])) cur)
        as [F G].
      { rewrite dict_get_set_same. discriminate. }
      split; [exact F|]. intros b Hb.
      destruct (PyStr.eqb cur sentinel) eqn:E.
      * apply pystr_eqb_eq in E. subst cur.
        assert (body = b) by congruence. subst body.
        destruct (G (b ++ [strip l])) as [rest Hrest].
        { apply dict_get_set_same. }
        exists ([strip l] ++ rest). now rewrite app_assoc.
      * apply G. rewrite dict_get_set_other; [exact Hb|].
        intros ->. now rewrite pystr_eqb_refl in E.
Qed.

(** After any line the current header is a key of the mapping. *)
Lemma step_line_present (h : Dict.dict pystr (list pystr)) (cur l : pystr) :
  Dict.get PyStr.eqb h cur <> None
  \/ (cur = sentinel /\ Dict.get PyStr.eqb h sentinel = None) ->
  Dict.get PyStr.eqb (fst (step_line (h, cur) l)) (snd (step_line (h, cur) l))
  <> None.
Proof.
  intros Inv. unfold step_line.
  destruct (is_heading (strip l)); cbn [fst snd].
  - rewrite dict_get_set_same. discriminate.
  - destruct (Dict.get PyStr.eqb h cur) as [body|] eqn:Hget; cbn [fst snd].
    + rewrite dict_get_set_same. discriminate.
    + destruct Inv as [Hp|[-> _]]; [congruence|].
      rewrite dict_get_set_same. discriminate.
Qed.

(** From the empty mapping, a current header that is not a key is the
    sentinel, and the sentinel is not a key either. *)
Lemma absent_is_sentinel (lines : list pystr) : forall h cur,
  Dict.get PyStr.eqb h cur <> None
  \/ (cur = sentinel /\ Dict.get PyStr.eqb h sentinel = None) ->
  Dict.get PyStr.eqb (fst (fold_left step_line lines (h, cur)))
                     (snd (fold_left step_line lines (h, cur))) <> None
  \/ (snd (fold_left step_line lines (h, cur)) = sentinel
      /\ Dict.get PyStr.eqb (fst (fold_left step_line lines (h, cur)))
                            sentinel = None).
Proof.
  induction lines as [|l ls IH]; intros h cur Inv; [exact Inv|].
  cbn [fold_left].
  pose proof (step_line_present h cur l Inv) as Hp.
  destruct (step_line (h, cur) l) as [h' cur'].
  apply IH. left. exact Hp.
Qed.

(** C7. The heading classifier, applied to the trimmed line as in
    [_process_content]: "1. Introduction" is a heading, "the cat sat" is
    not, "RESULTS" and "RESULTS:" are headings; and a line classified as
    a heading becomes the current header, with its body list set to the
    empty list. *)
Theorem heading_classifier :
  is_heading (strip (py "1. Introduction")) = true /\
  is_heading (strip (py "the cat sat")) = false /\
  is_heading (strip (py "RESULTS")) = true /\
  is_heading (strip (py "RESULTS:")) = true /\
  forall (raw cur : pystr) (st : state),
    is_heading (strip raw) = true ->
    fst (process_line raw cur st) = Ok (strip raw) /\
    Dict.get PyStr.eqb
      (headers (results (self (snd (process_line raw cur st)))))
      (strip raw) = Some [].
Proof.
  do 4 (split; [vm_compute; reflexivity|]).
  intros raw cur st H. rewrite process_line_spec. unfold step_line.
  rewrite H. split; [reflexivity|].
  cbn [fst snd with_results with_self self results headers set_headers].
  apply dict_get_set_same.
Qed.

Lemma heading_classifier_witness :
  fst (process_line (py "  RESULTS:") sentinel (extracted digital_world))
  = Ok (py "RESULTS:") /\
  Dict.get PyStr.eqb
    (headers (results (self (snd (process_line (py "  RESULTS:") sentinel
                                    (extracted digital_world))))))
    (py "RESULTS:") = Some [].
Proof.
  apply (proj2 (proj2 (proj2 (proj2 heading_classifier)))
           (py "  RESULTS:") sentinel (extracted digital_world)).
  vm_compute. reflexivity.
Defined.

(** C4. In [_process_content]: a non-heading line processed while the
    current header is not a key of the [headers] mapping (it is then the
    sentinel "Main Content", not inserted yet) is appended to the body
    list of the sentinel; and at the end the body list of the sentinel
    starts with all such lines, in order. *)
Theorem fallback_lines_reach_sentinel (st : state) :
  (forall (lines : list pystr) (raw cur : pystr),
      let st1 := snd (for_fold lines process_line sentinel st) in
      fst (for_fold lines process_line sentinel st) = Ok cur ->
      is_heading (strip raw) = false ->
      Dict.get PyStr.eqb (headers (results (self st1))) cur = None ->
      cur = sentinel /\
      Dict.get PyStr.eqb
        (headers (results (self (snd (process_line raw cur st1))))) sentinel
      = Some (body_of (headers (results (self st1))) sentinel ++ [strip raw]))
  /\
  (let fb := fallback_lines (headers (results (self st)), sentinel)
               (all_lines (content (results (self st)))) in
   fb = [] \/
   exists rest,
     Dict.get PyStr.eqb
       (headers (results (self (snd (_process_content st))))) sentinel
     = Some (fb ++ rest)).
Proof.
  split.
  - intros lines raw cur st1 Hcur Hnh Habs. subst st1.
    rewrite lines_loop in *.
    cbn [fst snd with_results with_self self results headers set_headers]
      in *.
    injection Hcur as Hcur.
    destruct (absent_is_sentinel lines (headers (results (self st))) sentinel)
      as [Hp|[Hs Hn]].
    { destruct (Dict.get PyStr.eqb (headers (results (self st))) sentinel)
        eqn:E; [left; discriminate | right; split; reflexivity]. }
    { rewrite Hcur in Hp. contradiction. }
    split; [congruence|].
    rewrite process_line_spec.
    cbn [fst snd with_results with_self self results headers set_headers].
    destruct (fold_left step_line lines
                (headers (results (self st)), sentinel)) as [h c].
    cbn [fst snd] in *.
    unfold step_line. rewrite Hnh, Habs. cbn [fst].
    rewrite dict_get_set_same. unfold body_of. now rewrite Hn.
  - rewrite process_content_spec.
    cbn [fst snd with_results with_self self results headers set_headers].
    set (h := headers (results (self st))).
    destruct (Dict.get PyStr.eqb h sentinel) as [b|] eqn:Hs.
    { left. apply present_stays. congruence. }
    destruct (all_lines (content (results (self st)))) as [|l ls];
      [left; reflexivity|].
    cbn [fallback_lines fold_left fst snd].
    unfold step_line, Dict.contains. rewrite Hs. cbn [negb andb].
    rewrite andb_true_r.
    destruct (is_heading (strip l)) eqn:Hh; cbn [negb app].
    + left.
      apply (present_stays ls (Dict.set PyStr.eqb h (strip l) []) (strip l)).
      rewrite dict_get_set_same. discriminate.
    + right.
      destruct (present_stays ls (Dict.set PyStr.eqb h sentinel [strip l])
                  sentinel) as [F G].
      { rewrite dict_get_set_same. discriminate. }
      rewrite F. destruct (G [strip l]) as [rest Hrest].
      { apply dict_get_set_same. }
      exists rest. exact Hrest.
Qed.

Lemma fallback_lines_reach_sentinel_witness :
  sentinel = sentinel /\
  Dict.get PyStr.eqb
    (headers (results (self (snd (process_line (py " the cat sat ") sentinel
       (snd (for_fold [] process_line sentinel (extracted digital_world))))))))
    sentinel
  = Some (body_of
            (headers (results (self (snd (for_fold [] process_line sentinel
                                            (extracted digital_world))))))
            sentinel ++ [strip (py " the cat sat ")]).
Proof.
  refine (proj1 (fallback_lines_reach_sentinel (extracted digital_world))
            [] (py " the cat sat ") sentinel _ _ _);
    vm_compute; reflexivity.
Defined.

(** ** The run of [extract] *)

Lemma accepted_texts (w : world) (path cmd : pystr) (s : strategy) :
  accepted w path cmd s = true ->
  exists texts,
    strategy_texts w s path cmd = Ok texts /\ existsb nonblank texts = true.
Proof.
  unfold accepted.
  destruct (strategy_texts w s path cmd) as [texts|e]; [|discriminate].
  intros H. now exists texts.
Qed.

Lemma page_records_tag (tag : pystr) (texts : list pystr) :
  Forall (fun rec => pt_type rec = tag) (page_records tag texts).
Proof.
  unfold page_records. apply Forall_forall. intros rec Hin.
  apply in_map_iff in Hin. destruct Hin as [it [<- _]]. reflexivity.
Qed.

Lemma strategy_tag_ocr (s : strategy) :
  strategy_tag s = py "ocr_text" <-> s = TesseractOCR.
Proof.
  destruct s; split; intros H; try reflexivity; try discriminate H.
Qed.

Lemma strategy_tag_text (s : strategy) :
  strategy_tag s = py "text" <-> s <> TesseractOCR.
Proof.
  destruct s; split; intros H; try reflexivity; try discriminate;
    try discriminate H; try congruence.
Qed.

Lemma for_methods_stops (m : M bool) (rest : list (M bool)) (st : state) :
  fst (m st) = Ok true -> for_methods (m :: rest) st = (Ok tt, snd (m st)).
Proof.
  intros H. simpl. unfold bind. destruct (m st) as [[b|e] st']; simpl in *.
  - injection H as ->. reflexivity.
  - discriminate.
Qed.

(** The object after [extract], run right after [__init__]. *)
Lemma extract_fresh (w : world) (path : pystr) (out : list output)
    (fs : list (pystr * output)) (cmd : pystr) :
  let st0 := __init__ w path out fs cmd in
  let cmd0 := tesseract_cmd st0 in
  let sel := select w path cmd0 in
  let x := self (snd (extract w st0)) in
  tesseract_cmd (snd (extract w st0)) = cmd0 /\
  files (snd (extract w st0)) = fs /\
  headers (results x) = [] /\ list_items (results x) = [] /\
  match fitz_open w path with
  | Raise e =>
      fst (extract w st0) = Raise e /\
      metadata (results x) = [] /\ content (results x) = [] /\
      tables (results x) = [] /\ figures (results x) = [] /\
      extraction_methods x = [] /\ is_scanned x = false
  | Ok doc =>
      fst (extract w st0) = Ok (results x) /\
      metadata (results x) = metadata_of doc /\
      content (results x) = selected_content w path cmd0 sel /\
      tables (results x) = selected_tables w path sel /\
      figures (results x) =
        flat_map (strategy_figures w path) (tried w path cmd0 strategies) /\
      extraction_methods x = selected_names sel /\
      is_scanned x = selected_scanned sel
  end.
Proof.
  intros st0 cmd0 sel x. subst x.
  pose proof (extract_spec w st0) as H. cbv zeta in H.
  change (pdf_path (self st0)) with path in H.
  fold cmd0 in H. fold sel in H.
  destruct (fitz_open w path) as [doc|e].
  - destruct H as [out' H]. rewrite H. cbn. repeat split; reflexivity.
  - rewrite H. cbn. repeat split; reflexivity.
Qed.

(** C1. After a run of [extract], either no candidate was selected and
    [content] is empty, or exactly one candidate was selected (the first
    in priority order that is accepted): [content] is the list of that
    candidate's page records, every record carries that candidate's
    [type] tag, and the tag is "ocr_text" exactly for the OCR fallback
    and "text" exactly for the three digital candidates.  The loop over
    the candidates stops at the first one that returns [True]: the
    candidates after it are not run. *)
Theorem content_from_one_strategy (w : world) (path : pystr)
    (out : list output) (fs : list (pystr * output)) (cmd : pystr) :
  let st0 := __init__ w path out fs cmd in
  let st := snd (extract w st0) in
  let r := results (self st) in
  ((extraction_methods (self st) = [] /\ content r = [])
   \/ exists s texts,
        select w path (tesseract_cmd st0) = Some s /\
        fst (run_strategy w s st0) = Ok true /\
        extraction_methods (self st) = [strategy_name s] /\
        strategy_texts w s path (tesseract_cmd st0) = Ok texts /\
        content r = page_records (strategy_tag s) texts /\
        Forall (fun rec => pt_type rec = strategy_tag s) (content r) /\
        (strategy_tag s = py "ocr_text" <-> s = TesseractOCR) /\
        (strategy_tag s = py "text" <-> s <> TesseractOCR))
  /\ (forall (m : M bool) (rest : list (M bool)) (st1 : state),
        fst (m st1) = Ok true ->
        for_methods (m :: rest) st1 = (Ok tt, snd (m st1))).
Proof.
  intros st0 st r. split; [|apply for_methods_stops].
  destruct (extract_fresh w path out fs cmd)
    as (_ & _ & _ & _ & H). fold st0 st in H. fold r in H.
  destruct (fitz_open w path) as [doc|e].
  - destruct H as (_ & _ & Hc & _ & _ & Hn & _).
    destruct (select w path (tesseract_cmd st0)) as [s|] eqn:Hsel.
    + right. pose proof Hsel as Hacc. unfold select in Hacc.
      apply find_some in Hacc. destruct Hacc as [_ Hacc].
      destruct (accepted_texts _ _ _ _ Hacc) as [texts [Ht Hnb]].
      exists s, texts. cbn [selected_content selected_names] in Hc, Hn.
      rewrite Ht in Hc.
      repeat split; auto.
      * rewrite run_strategy_spec, strategy_effect_accepted. cbn [fst].
        f_equal. exact Hacc.
      * rewrite Hc. apply page_records_tag.
      * apply strategy_tag_ocr.
      * apply strategy_tag_ocr.
      * apply strategy_tag_text.
      * apply strategy_tag_text.
    + left. split; assumption.
  - left. destruct H as (_ & _ & Hc & _ & _ & Hn & _). split; assumption.
Qed.

Lemma content_from_one_strategy_witness :
  for_methods [_extract_with_pymupdf digital_world;
               _extract_with_pdfplumber digital_world]
    (fresh digital_world)
  = (Ok tt, snd (_extract_with_pymupdf digital_world (fresh digital_world))).
Proof.
  apply (proj2 (content_from_one_strategy digital_world example_path [] []
                  (py "tesseract"))).
  vm_compute. reflexivity.
Defined.

Lemma strategy_name_inj (s s' : strategy) :
  strategy_name s = strategy_name s' -> s = s'.
Proof. destruct s, s'; intros H; try reflexivity; discriminate H. Qed.

Lemma select_ocr (w : world) (path cmd : pystr) :
  select w path cmd = Some TesseractOCR <->
  accepted w path cmd PyMuPDF = false /\
  accepted w path cmd PDFPlumber = false /\
  accepted w path cmd PyPDF = false /\
  accepted w path cmd TesseractOCR = true.
Proof.
  unfold select, strategies. cbn [find].
  destruct (accepted w path cmd PyMuPDF), (accepted w path cmd PDFPlumber),
    (accepted w path cmd PyPDF), (accepted w path cmd TesseractOCR);
    split; try (intros H; discriminate H);
    try (intros (A & B & C & D); discriminate); auto.
Qed.

(** C3. After a run of [extract], [is_scanned] is true if and only if the
    OCR fallback is the candidate that succeeded: the one recorded in
    [extraction_methods], that is, the document opened, the three digital
    candidates were not accepted and the OCR fallback was.  It is false
    at the start, and [_ocr_fallback] raises it exactly when it returns
    [True]. *)
Theorem is_scanned_iff_ocr_selected (w : world) (path : pystr)
    (out : list output) (fs : list (pystr * output)) (cmd : pystr) :
  let st0 := __init__ w path out fs cmd in
  let cmd0 := tesseract_cmd st0 in
  let st := snd (extract w st0) in
  is_scanned (self st0) = false /\
  (is_scanned (self st) = true <->
   extraction_methods (self st) = [strategy_name TesseractOCR]) /\
  (is_scanned (self st) = true <->
   (exists doc, fitz_open w path = Ok doc) /\
   accepted w path cmd0 PyMuPDF = false /\
   accepted w path cmd0 PDFPlumber = false /\
   accepted w path cmd0 PyPDF = false /\
   accepted w path cmd0 TesseractOCR = true) /\
  (forall st1 : state,
      let b := accepted w (pdf_path (self st1)) (tesseract_cmd st1)
                 TesseractOCR in
      fst (_ocr_fallback w st1) = Ok b /\
      is_scanned (self (snd (_ocr_fallback w st1)))
      = (is_scanned (self st1) || b)).
Proof.
  intros st0 cmd0 st.
  destruct (extract_fresh w path out fs cmd) as (_ & _ & _ & _ & H).
  fold st0 in H. fold cmd0 in H. fold st in H.
  split; [reflexivity|]. split; [|split].
  - destruct (fitz_open w path) as [doc|e].
    + destruct H as (_ & _ & _ & _ & _ & Hn & Hs). rewrite Hn, Hs.
      destruct (select w path cmd0) as [s|];
        cbn [selected_names selected_scanned].
      * split; intros E.
        -- destruct s; try discriminate E. reflexivity.
        -- assert (Es : s = TesseractOCR)
             by (apply strategy_name_inj; injection E; auto).
           now subst s.
      * split; intros E; discriminate E.
    + destruct H as (_ & _ & _ & _ & _ & Hn & Hs). rewrite Hn, Hs.
      split; intros E; discriminate E.
  - rewrite <- select_ocr.
    destruct (fitz_open w path) as [doc|e].
    + destruct H as (_ & _ & _ & _ & _ & _ & Hs). rewrite Hs.
      destruct (select w path cmd0) as [s|]; cbn [selected_scanned].
      * split.
        -- intros E. destruct s; try discriminate E.
           split; [now exists doc | reflexivity].
        -- intros [_ E]. injection E as ->. reflexivity.
      * split; [intros E | intros [_ E]]; discriminate E.
    + destruct H as (_ & _ & _ & _ & _ & _ & Hs). rewrite Hs.
      split; [intros E; discriminate E|].
      intros [[doc E] _]. discriminate E.
  - intros st1 b. rewrite ocr_spec. cbn [fst snd].
    rewrite strategy_effect_accepted. fold b. split; [reflexivity|].
    unfold strategy_effect. subst b. unfold accepted.
    destruct (strategy_texts w TesseractOCR (pdf_path (self st1))
                (tesseract_cmd st1)) as [texts|e]; [|reflexivity].
    destruct (existsb nonblank texts); reflexivity.
Qed.

(** ** What the stages leave alone *)

(** A candidate touches only [content], [tables], [figures],
    [extraction_methods], [is_scanned] and standard output. *)
Lemma strategy_effect_frame (w : world) (s : strategy) (st : state) :
  let st' := snd (strategy_effect w s st) in
  metadata (results (self st')) = metadata (results (self st)) /\
  headers (results (self st')) = headers (results (self st)) /\
  list_items (results (self st')) = list_items (results (self st)) /\
  figures (results (self st'))
  = figures (results (self st))
    ++ strategy_figures w (pdf_path (self st)) s /\
  pdf_path (self st') = pdf_path (self st) /\
  ocr_engine (self st') = ocr_engine (self st) /\
  files st' = files st /\
  tesseract_cmd st' = tesseract_cmd st.
Proof.
  unfold strategy_effect.
  destruct (strategy_texts w s (pdf_path (self st)) (tesseract_cmd st))
    as [texts|e]; [destruct (existsb nonblank texts)|];
    cbn; repeat split; reflexivity.
Qed.

(** A candidate that is not accepted leaves the result alone, but for
    the figures it appended. *)
Lemma strategy_effect_rejected (w : world) (s : strategy) (st : state) :
  fst (strategy_effect w s st) = false ->
  let st' := snd (strategy_effect w s st) in
  content (results (self st')) = content (results (self st)) /\
  tables (results (self st')) = tables (results (self st)) /\
  extraction_methods (self st') = extraction_methods (self st) /\
  is_scanned (self st') = is_scanned (self st).
Proof.
  unfold strategy_effect.
  destruct (strategy_texts w s (pdf_path (self st)) (tesseract_cmd st))
    as [texts|e]; [destruct (existsb nonblank texts)|];
    cbn; intros H; try discriminate H;
    now rewrite !app_nil_r, orb_false_r.
Qed.

Lemma strategy_figures_other (w : world) (path : pystr) (s : strategy) :
  s <> PDFPlumber -> strategy_figures w path s = [].
Proof. destruct s; intros H; try reflexivity. congruence. Qed.

(** ** The image dicts of pdfplumber *)

Lemma image_fields_no_bbox (image : plumber_image) :
  Dict.get PyStr.eqb image (py "bbox") = None ->
  image_fields image = Raise bbox_error.
Proof.
  intros H. unfold image_fields, getitem, and_then. now rewrite H.
Qed.

Lemma lack_bbox_cons (p : plumber_page) (ps : list plumber_page) :
  lack_bbox (p :: ps) -> lack_bbox [p] /\ lack_bbox ps.
Proof.
  intros H. split; intros q images image Hq; apply H.
  - destruct Hq as [<-|[]]. now left.
  - now right.
Qed.

(** A page whose images lack the key: nothing is read from them, and
    the loop over them ends normally only when there is none. *)
Lemma page_images_no_bbox (p : plumber_page) (images : list plumber_image) :
  lack_bbox [p] -> pl_images p = Ok images ->
  read_images images = [] /\
  sequence (map image_fields images)
  = match images with [] => Ok [] | _ :: _ => Raise bbox_error end.
Proof.
  intros H Hp. destruct images as [|image images]; [now split|].
  cbn [read_images map sequence].
  rewrite (image_fields_no_bbox image); [now split|].
  apply (H p (image :: images) image); [now left|exact Hp|now left].
Qed.

Lemma plumber_read_no_bbox (p : plumber_page) :
  lack_bbox [p] ->
  plumber_read p =
  match pl_extract_text p, pl_images p with
  | Ok t, Ok [] => Ok t
  | Ok _, Ok (_ :: _) => Raise bbox_error
  | Ok _, Raise e => Raise e
  | Raise e, _ => Raise e
  end.
Proof.
  intros H. unfold plumber_read, and_then.
  destruct (pl_extract_text p) as [t|e]; [|reflexivity].
  destruct (pl_images p) as [images|e] eqn:Hp; [|reflexivity].
  destruct (page_images_no_bbox p images H Hp) as [_ ->].
  now destruct images.
Qed.

Lemma plumber_figures_no_bbox (pages : list plumber_page) :
  lack_bbox pages -> forall i, plumber_figures i pages = [].
Proof.
  induction pages as [|p ps IH]; intros H i; [reflexivity|].
  destruct (lack_bbox_cons p ps H) as [Hp Hps].
  cbn [plumber_figures].
  destruct (pl_extract_text p) as [t|e]; [|reflexivity].
  destruct (pl_images p) as [images|e] eqn:Himages; [|reflexivity].
  destruct (page_images_no_bbox p images Hp Himages) as [-> ->].
  destruct images; [apply (IH Hps)|reflexivity].
Qed.

(** The loop ends normally only on pages without images. *)
Lemma plumber_texts_no_image (pages : list plumber_page) :
  lack_bbox pages -> forall texts,
  sequence (map plumber_read pages) = Ok texts -> Forall no_image pages.
Proof.
  induction pages as [|p ps IH]; intros H texts Hs; [constructor|].
  destruct (lack_bbox_cons p ps H) as [Hp Hps].
  cbn [map sequence] in Hs. rewrite (plumber_read_no_bbox p Hp) in Hs.
  destruct (pl_extract_text p) as [t|e]; [|discriminate Hs].
  destruct (pl_images p) as [[|image images]|e] eqn:Himages;
    try discriminate Hs.
  destruct (sequence (map plumber_read ps)) as [ts|e] eqn:Hps';
    [|discriminate Hs].
  constructor; [exact Himages|apply (IH Hps ts eq_refl)].
Qed.

(** The loop stops with the [KeyError] at the first page with an image,
    when the pages before it were read. *)
Lemma plumber_stops_at_image (pre post : list plumber_page)
    (p : plumber_page) (texts : list pystr) (text : pystr)
    (image : plumber_image) (images : list plumber_image) :
  lack_bbox (pre ++ p :: post) ->
  sequence (map plumber_read pre) = Ok texts ->
  pl_extract_text p = Ok text -> pl_images p = Ok (image :: images) ->
  sequence (map plumber_read (pre ++ p :: post)) = Raise bbox_error.
Proof.
  intros H Hpre Ht Hi. revert texts Hpre.
  induction pre as [|q pre IH]; intros texts Hpre.
  - cbn [app map sequence].
    destruct (lack_bbox_cons p post H) as [Hp _].
    rewrite (plumber_read_no_bbox p Hp), Ht, Hi. reflexivity.
  - cbn [app map sequence] in *.
    destruct (plumber_read q) as [t|e]; [|discriminate Hpre].
    destruct (sequence (map plumber_read pre)) as [ts|e] eqn:Hs;
      [|discriminate Hpre].
    destruct (lack_bbox_cons q _ H) as [_ H'].
    now rewrite (IH H' ts eq_refl).
Qed.

Lemma strategy_figures_no_bbox (w : world) (path : pystr) (s : strategy) :
  pdfplumber_images w -> strategy_figures w path s = [].
Proof.
  intros H. destruct s; try reflexivity. cbn [strategy_figures].
  destruct (pdfplumber_open w path) as [pages|e] eqn:Hp; [|reflexivity].
  apply plumber_figures_no_bbox. apply (H path pages Hp).
Qed.

Lemma flat_map_nil {A B} (f : A -> list B) (l : list A) :
  (forall x, f x = []) -> flat_map f l = [].
Proof.
  intros H. induction l as [|x l IH]; [reflexivity|].
  cbn [flat_map]. now rewrite H, IH.
Qed.

(** With the image dicts of pdfplumber, [figures] is empty after
    [extract]. *)
Lemma extract_no_figures (w : world) (path : pystr) (out : list output)
    (fs : list (pystr * output)) (cmd : pystr) :
  pdfplumber_images w ->
  figures (results (self (snd (extract w (__init__ w path out fs cmd))))) = [].
Proof.
  intros H.
  destruct (extract_fresh w path out fs cmd) as (_ & _ & _ & _ & Hx).
  destruct (fitz_open w path) as [doc|e].
  - destruct Hx as (_ & _ & _ & _ & Hf & _). rewrite Hf.
    apply flat_map_nil. intros s. now apply strategy_figures_no_bbox.
  - destruct Hx as (_ & _ & _ & _ & Hf & _). exact Hf.
Qed.

Lemma main_try_spec (w : world) (output_arg : option pystr) (st : state)
    (r : result ExtractionResult) (st1 : state) :
  extract w st = (r, st1) ->
  exists out' fs',
    main_try w output_arg st =
    (match r with Ok _ => output_step w output_arg | Raise e => Raise e end,
     mkState
       (self (match r with
              | Ok _ =>
                  with_results
                    (set_headers
                       (fst (fold_left step_line
                               (all_lines (content (results (self st1))))
                               (headers (results (self st1)), sentinel))))
                    st1
              | Raise _ => st1
              end))
       out' fs' (tesseract_cmd st1)).
Proof.
  intros E. unfold main_try. unfold bind at 1. rewrite E.
  destruct r as [r|e].
  - unfold bind at 1. rewrite process_content_spec.
    unfold output_step, output_file, save_results, print_results.
    unfold bind, gets, print, modify, call.
    destruct output_arg as [[|c file]|]; cbn [truthy];
      [| destruct (open_for_writing w (c :: file)) as [[]|e] |];
      cbn; eexists; eexists; reflexivity.
  - exists (stdout st1), (files st1). now destruct st1.
Qed.

(** The result object at the end of [main]. *)
Lemma main_results (w : world) (path : pystr) (output_arg : option pystr)
    (out : list output) (fs : list (pystr * output)) (cmd : pystr)
    (r : result ExtractionResult) (st1 : state) :
  extract w (__init__ w path out fs cmd) = (r, st1) ->
  tesseract_cmd (snd (main w path output_arg out fs cmd)) = tesseract_cmd st1
  /\
  extraction_methods (self (snd (main w path output_arg out fs cmd)))
  = extraction_methods (self st1) /\
  is_scanned (self (snd (main w path output_arg out fs cmd)))
  = is_scanned (self st1) /\
  fst (main w path output_arg out fs cmd)
  = match r, output_step w output_arg with
    | Ok _, Ok _ => 0
    | _, _ => 1
    end /\
  results (self (snd (main w path output_arg out fs cmd)))
  = match r with
    | Ok _ =>
        set_headers
          (fst (fold_left step_line (all_lines (content (results (self st1))))
                  (headers (results (self st1)), sentinel)))
          (results (self st1))
    | Raise _ => results (self st1)
    end.
Proof.
  intros E. unfold main.
  destruct (main_try_spec w output_arg _ r st1 E) as (out' & fs' & H).
  rewrite H. destruct r as [r|e]; [destruct (output_step w output_arg)|];
    cbn; repeat split; reflexivity.
Qed.

(** C8. [list_items] is the empty list at the end of a run: [__init__]
    sets it to the empty list and neither [extract] nor
    [_process_content] nor the output step changes it. *)
Theorem list_items_always_empty (w : world) (path : pystr)
    (output_arg : option pystr) (out : list output)
    (fs : list (pystr * output)) (cmd : pystr) :
  list_items (results (self (__init__ w path out fs cmd))) = [] /\
  list_items (results (self (snd (extract w (__init__ w path out fs cmd)))))
  = [] /\
  list_items (results (self (snd (main w path output_arg out fs cmd)))) = []
  /\
  (forall st : state,
      (forall s, list_items (results (self (snd (run_strategy w s st))))
                 = list_items (results (self st))) /\
      list_items (results (self (snd (_extract_metadata w st))))
      = list_items (results (self st)) /\
      list_items (results (self (snd (_extract_tables w st))))
      = list_items (results (self st)) /\
      list_items (results (self (snd (_process_content st))))
      = list_items (results (self st))).
Proof.
  destruct (extract_fresh w path out fs cmd) as (_ & _ & _ & Hl & _).
  split; [reflexivity|]. split; [exact Hl|]. split.
  - destruct (extract w (__init__ w path out fs cmd)) as [r st1] eqn:E.
    destruct (main_results w path output_arg out fs cmd r st1 E)
      as (_ & _ & _ & _ & H).
    rewrite H. cbn [snd] in Hl. destruct r; exact Hl.
  - intros st. repeat split.
    + intros s. rewrite run_strategy_spec. cbn [snd].
      apply (strategy_effect_frame w s st).
    + rewrite extract_metadata_spec.
      destruct (fitz_open w (pdf_path (self st))); reflexivity.
    + rewrite extract_tables_spec. reflexivity.
    + rewrite process_content_spec. reflexivity.
Qed.

(** C9. [figures] is written only by the page loop of the pdfplumber
    candidate: every candidate appends exactly its [strategy_figures],
    one record per image read before an exception stops the loop, which
    is empty for all but pdfplumber, and [_extract_metadata],
    [_extract_tables] and [_process_content] leave [figures] alone.  If
    PyMuPDF is the selected candidate, [figures] is empty at the end of
    [extract] and of [main].  The records are appended before the text
    check, so that a candidate that returns [False] would keep them; but
    every record needs [image["bbox"]], and the image dicts of
    pdfplumber have no such key: with them no candidate changes
    [figures], and [figures] is empty at the end of every run, whichever
    candidate is selected. *)
Theorem figures_only_from_pdfplumber :
  (forall (w : world) (path : pystr) (output_arg : option pystr)
          (out : list output) (fs : list (pystr * output)) (cmd : pystr),
      let st := snd (extract w (__init__ w path out fs cmd)) in
      extraction_methods (self st) = [strategy_name PyMuPDF] ->
      figures (results (self st)) = [] /\
      figures (results (self (snd (main w path output_arg out fs cmd)))) = [])
  /\
  (forall (w : world) (st : state),
      (forall s,
          figures (results (self (snd (run_strategy w s st))))
          = figures (results (self st))
            ++ strategy_figures w (pdf_path (self st)) s) /\
      (forall s path, s <> PDFPlumber -> strategy_figures w path s = []) /\
      figures (results (self (snd (_extract_metadata w st))))
      = figures (results (self st)) /\
      figures (results (self (snd (_extract_tables w st))))
      = figures (results (self st)) /\
      figures (results (self (snd (_process_content st))))
      = figures (results (self st)))
  /\
  (forall w : world, pdfplumber_images w ->
      (forall s st,
          figures (results (self (snd (run_strategy w s st))))
          = figures (results (self st))) /\
      (forall (path : pystr) (output_arg : option pystr)
              (out : list output) (fs : list (pystr * output)) (cmd : pystr),
          figures (results (self (snd (extract w
                     (__init__ w path out fs cmd))))) = [] /\
          figures (results (self (snd (main w path output_arg out fs cmd))))
          = [])).
Proof.
  split; [|split].
  - intros w path output_arg out fs cmd st Hm.
    destruct (extract_fresh w path out fs cmd) as (_ & _ & _ & _ & H).
    fold st in H.
    assert (Hf : figures (results (self st)) = []).
    { destruct (fitz_open w path) as [doc|e].
      - destruct H as (_ & _ & _ & _ & Hf & Hn & _).
        rewrite Hn in Hm. rewrite Hf.
        destruct (select w path _) as [s|] eqn:Hsel; [|discriminate Hm].
        assert (Es : s = PyMuPDF)
          by (apply strategy_name_inj; injection Hm; auto).
        subst s. unfold select in Hsel. apply find_some in Hsel.
        destruct Hsel as [_ Hacc]. unfold strategies. cbn [tried].
        rewrite Hacc. reflexivity.
      - destruct H as (_ & _ & _ & _ & Hf & _). exact Hf. }
    split; [exact Hf|].
    destruct (extract w (__init__ w path out fs cmd)) as [r st1] eqn:E.
    destruct (main_results w path output_arg out fs cmd r st1 E)
      as (_ & _ & _ & _ & Hr).
    rewrite Hr. subst st. cbn [snd] in Hf. destruct r; exact Hf.
  - intros w st. repeat split.
    + intros s. rewrite run_strategy_spec. cbn [snd].
      apply (strategy_effect_frame w s st).
    + intros s path. apply strategy_figures_other.
    + rewrite extract_metadata_spec.
      destruct (fitz_open w (pdf_path (self st))); reflexivity.
    + rewrite extract_tables_spec. cbn. now rewrite app_nil_r.
    + rewrite process_content_spec. reflexivity.
  - intros w Hw. split.
    + intros s st. rewrite run_strategy_spec. cbn [snd].
      destruct (strategy_effect_frame w s st) as (_ & _ & _ & Hf & _).
      rewrite Hf, (strategy_figures_no_bbox w _ s Hw). apply app_nil_r.
    + intros path output_arg out fs cmd.
      pose proof (extract_no_figures w path out fs cmd Hw) as Hf.
      split; [exact Hf|].
      destruct (extract w (__init__ w path out fs cmd)) as [r st1] eqn:E.
      destruct (main_results w path output_arg out fs cmd r st1 E)
        as (_ & _ & _ & _ & Hr).
      rewrite Hr. cbn [snd] in Hf. destruct r; exact Hf.
Qed.

Lemma figures_only_from_pdfplumber_witness :
  pdfplumber_images scanned_world /\
  (exists image,
      pdfplumber_open scanned_world example_path
      = Ok [mkPlumberPage (Ok (py "")) (Ok [image])]) /\
  _extract_with_pdfplumber scanned_world (fresh scanned_world)
  = (Ok false,
     update (fresh scanned_world) [] [] [] [] false
       [Text (py "PDFPlumber extraction failed: 'bbox'")]) /\
  extraction_methods (self (extracted scanned_world))
  = [strategy_name TesseractOCR] /\
  figures (results (self (extracted scanned_world))) = [] /\
  figures (results (self (snd (main scanned_world example_path None [] []
                                 (py "tesseract"))))) = [].
Proof.
  assert (H : pdfplumber_images scanned_world).
  { intros path pages Hp p images image.
    injection Hp as <-. intros [<-|[]] Hi. injection Hi as <-.
    intros [<-|[]]. reflexivity. }
  split; [exact H|]. split; [eexists; reflexivity|].
  split; [vm_compute; reflexivity|]. split; [vm_compute; reflexivity|].
  apply (proj2 (proj2 (proj2 figures_only_from_pdfplumber) scanned_world H)
           example_path None [] [] (py "tesseract")).
Defined.

(** ** The records of a candidate *)

Lemma nonblank_iff (t : pystr) : nonblank t = true <-> strip t <> [].
Proof.
  unfold nonblank, truthy. destruct (strip t); split; intros H;
    try reflexivity; try discriminate; congruence.
Qed.

Lemma existsb_nonblank (texts : list pystr) :
  existsb nonblank texts = true <->
  exists t, In t texts /\ strip t <> [].
Proof.
  rewrite existsb_exists. split; intros [t [Hin H]]; exists t;
    (split; [exact Hin|]); now apply nonblank_iff.
Qed.

Lemma in_records_from (tag : pystr) (texts : list pystr) :
  forall (k : nat) (rec : PageTextRecord),
    In rec (records_from tag (Z.of_nat k) texts) <->
    exists n t,
      nth_error texts n = Some t /\ strip t <> [] /\
      rec = mkPageText (Z.of_nat (k + n) + 1) t tag.
Proof.
  induction texts as [|t0 ts IH]; intros k rec; cbn [records_from].
  - split; [intros []|]. intros (n & t & H & _). now destruct n.
  - assert (E : Z.of_nat k + 1 = Z.of_nat (S k)) by lia.
    rewrite in_app_iff, E, IH. split.
    + intros [Hin|(n & t & Hn & Hb & ->)].
      * destruct (nonblank t0) eqn:Hb; [|destruct Hin].
        destruct Hin as [<-|[]]. exists 0%nat, t0.
        rewrite Nat.add_0_r, <- E. repeat split. now apply nonblank_iff.
      * exists (S n), t. repeat split; auto.
        now replace (k + S n)%nat with (S k + n)%nat by lia.
    + intros (n & t & Hn & Hb & ->). destruct n as [|n]; cbn in Hn.
      * injection Hn as ->. left.
        apply nonblank_iff in Hb. rewrite Hb.
        left. rewrite Nat.add_0_r, E. reflexivity.
      * right. exists n, t. repeat split; auto.
        now replace (k + S n)%nat with (S k + n)%nat by lia.
Qed.

Lemma sorted_records_from (tag : pystr) (texts : list pystr) :
  forall i : Z,
    StronglySorted Z.lt (map pt_page (records_from tag i texts)) /\
    Forall (fun p => i < p) (map pt_page (records_from tag i texts)).
Proof.
  induction texts as [|t ts IH]; intros i; cbn [records_from].
  - split; constructor.
  - destruct (IH (i + 1)) as [Hs Hf].
    assert (Hf' : Forall (fun p => i < p)
                    (map pt_page (records_from tag (i + 1) ts))).
    { eapply Forall_impl; [|exact Hf]. cbn. intros; lia. }
    destruct (nonblank t); cbn [app map pt_page].
    + split; constructor; auto; lia.
    + split; auto.
Qed.

(** C2. A candidate that is run is accepted (returns [True], which stops
    the selector) if and only if its page loop completes and at least one
    page yields text that is non-blank after trimming; then the records it appends to [content] are exactly
    those of the pages with non-blank trimmed text, with the 1-based page
    number, in page order.  Otherwise it returns [False]. *)
Theorem accepted_iff_some_page_nonblank (w : world) (s : strategy)
    (st : state) :
  let path := pdf_path (self st) in
  let cmd := tesseract_cmd st in
  let run := run_strategy w s st in
  (fst run = Ok true <->
   exists texts,
     strategy_texts w s path cmd = Ok texts /\
     exists t, In t texts /\ strip t <> []) /\
  (fst run = Ok true \/ fst run = Ok false) /\
  (forall texts,
      strategy_texts w s path cmd = Ok texts ->
      (exists t, In t texts /\ strip t <> []) ->
      content (results (self (snd run)))
      = content (results (self st)) ++ page_records (strategy_tag s) texts) /\
  (forall (tag : pystr) (texts : list pystr) (rec : PageTextRecord),
      In rec (page_records tag texts) <->
      exists n t,
        nth_error texts n = Some t /\ strip t <> [] /\
        rec = mkPageText (Z.of_nat n + 1) t tag) /\
  (forall (tag : pystr) (texts : list pystr),
      StronglySorted Z.lt (map pt_page (page_records tag texts))).
Proof.
  intros path cmd run. subst run. rewrite run_strategy_spec. cbn [fst snd].
  rewrite strategy_effect_accepted. fold path cmd.
  split; [|split; [|split; [|split]]].
  - unfold accepted.
    destruct (strategy_texts w s path cmd) as [texts|e].
    + split.
      * intros H. injection H as H. exists texts.
        split; [reflexivity|]. now apply existsb_nonblank.
      * intros (texts' & E & H). injection E as <-.
        apply existsb_nonblank in H. now rewrite H.
    + split; [discriminate|]. intros (texts' & E & _). discriminate.
  - destruct (accepted w path cmd s); auto.
  - intros texts Ht Hnb. apply existsb_nonblank in Hnb.
    unfold strategy_effect. fold path cmd. rewrite Ht, Hnb. reflexivity.
  - intros tag texts rec. rewrite <- records_from_page_records.
    apply (in_records_from tag texts 0 rec).
  - intros tag texts. rewrite <- records_from_page_records.
    apply sorted_records_from.
Qed.

Lemma accepted_iff_some_page_nonblank_witness :
  content (results (self (snd (run_strategy digital_world PyMuPDF
                                 (fresh digital_world)))))
  = content (results (self (fresh digital_world)))
    ++ page_records (strategy_tag PyMuPDF) [py "the cat sat"; py " "].
Proof.
  apply (proj1 (proj2 (proj2 (accepted_iff_some_page_nonblank digital_world
                                PyMuPDF (fresh digital_world))))).
  - vm_compute. reflexivity.
  - exists (py "the cat sat"). split; [left; reflexivity|].
    vm_compute. discriminate.
Defined.

(** ** Failed and empty candidates *)

Lemma results_eta (r : ExtractionResult) :
  mkResults (metadata r) (headers r) (content r) (list_items r) (tables r)
            (figures r) = r.
Proof. now destruct r. Qed.

(** C6.  No candidate raises, and neither does the table extractor.  A
    candidate that fails internally or yields no text returns [False]
    and leaves [metadata], [headers], [content], [list_items], [tables],
    [extraction_methods] and [is_scanned] as they were; [figures] grows
    by the figure records the candidate appended, which is nothing for
    every candidate but pdfplumber, and nothing for pdfplumber too with
    the image dicts it builds, which lack the "bbox" key that every
    record needs: the result object is then the one the candidate
    started from.  The loop then runs the next candidate. *)
Theorem failed_candidate_contributes_nothing (w : world) (s : strategy)
    (st : state) :
  let run := run_strategy w s st in
  let r := results (self st) in
  let r' := results (self (snd run)) in
  (fst run = Ok true \/ fst run = Ok false) /\
  fst (_extract_tables w st) = Ok tt /\
  (fst run = Ok false ->
   metadata r' = metadata r /\ headers r' = headers r /\
   content r' = content r /\ list_items r' = list_items r /\
   tables r' = tables r /\
   extraction_methods (self (snd run)) = extraction_methods (self st) /\
   is_scanned (self (snd run)) = is_scanned (self st) /\
   figures r' = figures r ++ strategy_figures w (pdf_path (self st)) s /\
   (s <> PDFPlumber -> r' = r) /\
   (pdfplumber_images w -> r' = r) /\
   forall rest : list (M bool),
     for_methods (run_strategy w s :: rest) st = for_methods rest (snd run)).
Proof.
  intros run r r'. subst run r r'.
  split; [|split].
  - rewrite run_strategy_spec. cbn [fst].
    destruct (fst (strategy_effect w s st)); auto.
  - now rewrite extract_tables_spec.
  - intros Hfalse.
    assert (Hrej : fst (strategy_effect w s st) = false).
    { rewrite run_strategy_spec in Hfalse. cbn [fst] in Hfalse.
      now injection Hfalse. }
    assert (Hloop : forall rest : list (M bool),
               for_methods (run_strategy w s :: rest) st
               = for_methods rest (snd (run_strategy w s st))).
    { intros rest. cbn [for_methods]. unfold bind.
      rewrite run_strategy_spec, Hrej. reflexivity. }
    rewrite run_strategy_spec. cbn [snd].
    destruct (strategy_effect_frame w s st) as (Hm & Hh & Hl & Hf & _).
    destruct (strategy_effect_rejected w s st Hrej) as (Hc & Ht & Hn & Hs).
    assert (Hsame : strategy_figures w (pdf_path (self st)) s = [] ->
              results (self (snd (strategy_effect w s st)))
              = results (self st)).
    { intros Hnil. rewrite Hnil, app_nil_r in Hf.
      rewrite <- (results_eta (results (self (snd (strategy_effect w s st))))).
      rewrite Hm, Hh, Hc, Hl, Ht, Hf. apply results_eta. }
    repeat split; auto.
    + intros Hne. apply Hsame. now apply strategy_figures_other.
    + intros Hw. apply Hsame. now apply strategy_figures_no_bbox.
    + rewrite run_strategy_spec in Hloop. exact Hloop.
Qed.

Lemma failed_candidate_contributes_nothing_witness :
  let st := fresh scanned_world in
  let run := run_strategy scanned_world PDFPlumber st in
  fst run = Ok false /\
  results (self (snd run)) = results (self st) /\
  for_methods [run_strategy scanned_world PDFPlumber;
               run_strategy scanned_world PyPDF] st
  = for_methods [run_strategy scanned_world PyPDF] (snd run).
Proof.
  intros st run.
  pose proof (failed_candidate_contributes_nothing scanned_world
                PDFPlumber st) as (_ & _ & Hfail).
  assert (Hfalse : fst run = Ok false) by (vm_compute; reflexivity).
  destruct (Hfail Hfalse) as (_ & _ & _ & _ & _ & _ & _ & _ & _ & Hr & Hnext).
  split; [exact Hfalse|]. split; [|apply Hnext].
  apply Hr. intros path pages Hp p images image.
  injection Hp as <-. intros [<-|[]] Hi. injection Hi as <-.
  intros [<-|[]]. reflexivity.
Defined.

(** ** Cell normalization *)

(** After the leading [\s*] of the pattern "^\s*$" the end of the
    subject is reached exactly when all of it is whitespace. *)
Lemma star_space_eol (n0 fuel : nat) : forall s : pystr,
  (length s <= fuel)%nat ->
  Re.star_loop (Re.run Re.space n0)
    (fun s' => Re.run Re.Eol n0 s' (fun _ => true)) fuel s
  = forallb is_space s.
Proof.
  induction fuel as [|fuel IH]; intros s Hlen.
  - destruct s; [reflexivity | cbn in Hlen; lia].
  - destruct s as [|c s]; [reflexivity|].
    cbn [Re.star_loop Re.run Re.space forallb].
    rewrite IH by (cbn in Hlen; lia).
    assert (Hlt : Nat.ltb (length s) (length (c :: s)) = true)
      by (apply Nat.ltb_lt; cbn; lia).
    rewrite Hlt. cbn [andb].
    destruct s as [|c' s'].
    + cbn [forallb]. rewrite !andb_true_r.
      unfold char_eqb, newline.
      destruct (N.eqb c 10) eqn:E; [|reflexivity].
      apply N.eqb_eq in E. subst c. reflexivity.
    + reflexivity.
Qed.

Lemma blank_cell_not_at_start (n0 : nat) (s : pystr) :
  (length s < n0)%nat -> Re.search_from blank_cell n0 s = false.
Proof.
  induction s as [|c s IH]; intros Hlen; cbn [Re.search_from].
  - unfold blank_cell. cbn [Re.run].
    replace (Nat.eqb (length (@nil char)) n0) with false; [reflexivity|].
    symmetry. apply Nat.eqb_neq. cbn in *. lia.
  - rewrite IH by (cbn in Hlen; lia).
    unfold blank_cell. cbn [Re.run].
    replace (Nat.eqb (length (c :: s)) n0) with false; [reflexivity|].
    symmetry. apply Nat.eqb_neq. lia.
Qed.

(** The pattern "^\s*$" is found in a string exactly when the string
    consists of whitespace only (the empty string included). *)
Lemma blank_cell_search (s : pystr) :
  Re.search blank_cell s = forallb is_space s.
Proof.
  unfold Re.search. destruct s as [|c s]; [reflexivity|].
  cbn [Re.search_from].
  rewrite blank_cell_not_at_start by (cbn; lia).
  rewrite orb_false_r. unfold blank_cell. cbn [Re.run].
  rewrite Nat.eqb_refl. cbn [andb].
  apply star_space_eol. lia.
Qed.

Section DictFacts.
Context {K V : Type}.
Variable key_eqb : K -> K -> bool.
Hypothesis key_eqb_eq : forall a b, key_eqb a b = true <-> a = b.

Lemma dict_get_set (d : Dict.dict K V) (k k' : K) (v : V) :
  Dict.get key_eqb (Dict.set key_eqb d k v) k'
  = if key_eqb k k' then Some v else Dict.get key_eqb d k'.
Proof.
  induction d as [|[k0 v0] d IH]; cbn [Dict.set Dict.get]; [reflexivity|].
  destruct (key_eqb k0 k) eqn:E0.
  - apply key_eqb_eq in E0. subst k0. cbn [Dict.get].
    destruct (key_eqb k k'); reflexivity.
  - cbn [Dict.get]. rewrite IH.
    destruct (key_eqb k0 k') eqn:E1; [|reflexivity].
    destruct (key_eqb k k') eqn:E2; [|reflexivity].
    apply key_eqb_eq in E1, E2. subst.
    assert (key_eqb k' k' = true) by now apply key_eqb_eq.
    congruence.
Qed.

(** Looking a key up in [dict(pairs)] is picking the last pair with
    that key. *)
Lemma dict_get_fold (k : K) (pairs : list (K * V)) : forall d,
  Dict.get key_eqb
    (fold_left (fun d kv => Dict.set key_eqb d (fst kv) (snd kv)) pairs d) k
  = fold_left (fun acc kv => if key_eqb (fst kv) k then Some (snd kv) else acc)
      pairs (Dict.get key_eqb d k).
Proof.
  induction pairs as [|kv pairs IH]; intros d; cbn [fold_left]; [reflexivity|].
  now rewrite IH, dict_get_set.
Qed.

Lemma pick_sound (k : K) (pairs : list (K * V)) : forall acc v,
  fold_left (fun acc kv => if key_eqb (fst kv) k then Some (snd kv) else acc)
    pairs acc = Some v ->
  acc = Some v \/ exists j, nth_error pairs j = Some (k, v).
Proof.
  induction pairs as [|[k0 v0] pairs IH]; intros acc v H; cbn [fold_left] in H.
  - now left.
  - apply IH in H. destruct H as [H|[j H]].
    + cbn [fst snd] in H. destruct (key_eqb k0 k) eqn:E; [|now left].
      injection H as <-. apply key_eqb_eq in E. subst k0.
      right. now exists 0%nat.
    + right. now exists (S j).
Qed.

Lemma pick_absent (k : K) (pairs : list (K * V)) : forall acc,
  ~ In k (map fst pairs) ->
  fold_left (fun acc kv => if key_eqb (fst kv) k then Some (snd kv) else acc)
    pairs acc = acc.
Proof.
  induction pairs as [|[k0 v0] pairs IH]; intros acc H; cbn [fold_left];
    [reflexivity|].
  cbn [fst snd map] in *. destruct (key_eqb k0 k) eqn:E.
  - apply key_eqb_eq in E. subst k0. destruct H. now left.
  - apply IH. intros Hin. apply H. now right.
Qed.

Lemma pick_complete (k : K) (v : V) (pairs : list (K * V)) :
  NoDup (map fst pairs) -> In (k, v) pairs -> forall acc,
  fold_left (fun acc kv => if key_eqb (fst kv) k then Some (snd kv) else acc)
    pairs acc = Some v.
Proof.
  induction pairs as [|[k0 v0] pairs IH]; intros Hnd Hin acc;
    [destruct Hin|].
  cbn [fold_left fst snd]. cbn [map fst] in Hnd.
  inversion Hnd as [|x l Hnotin Hnd']; subst.
  destruct Hin as [E|Hin].
  - injection E as -> ->.
    rewrite (proj2 (key_eqb_eq k k) eq_refl). now apply pick_absent.
  - now apply IH.
Qed.

Lemma of_pairs_sound (pairs : list (K * V)) (k : K) (v : V) :
  Dict.get key_eqb (Dict.of_pairs key_eqb pairs) k = Some v ->
  exists j, nth_error pairs j = Some (k, v).
Proof.
  unfold Dict.of_pairs. rewrite dict_get_fold. cbn [Dict.get]. intros H.
  apply pick_sound in H. destruct H as [H|H]; [discriminate H|exact H].
Qed.

Lemma of_pairs_complete (pairs : list (K * V)) (k : K) (v : V) (j : nat) :
  NoDup (map fst pairs) -> nth_error pairs j = Some (k, v) ->
  Dict.get key_eqb (Dict.of_pairs key_eqb pairs) k = Some v.
Proof.
  intros Hnd Hj. unfold Dict.of_pairs. rewrite dict_get_fold.
  apply pick_complete; [exact Hnd|]. eapply nth_error_In. exact Hj.
Qed.
End DictFacts.

Lemma label_eqb_eq (a b : label) : label_eqb a b = true <-> a = b.
Proof.
  destruct a as [x|x], b as [y|y]; cbn [label_eqb];
    try (split; intros H; discriminate H).
  - rewrite Z.eqb_eq. split; intros H; [now subst|now injection H].
  - rewrite pystr_eqb_eq. split; intros H; [now subst|now injection H].
Qed.

Lemma nth_error_combine_map {A} (norm : cell -> cell) (cols : list A) :
  forall (row : list cell) (j : nat),
  nth_error (combine cols (map norm row)) j
  = match nth_error cols j, nth_error row j with
    | Some l, Some c => Some (l, norm c)
    | _, _ => None
    end.
Proof.
  induction cols as [|l cols IH]; intros row j.
  - cbn [combine]. now destruct j.
  - destruct row as [|c row]; cbn [combine map].
    + destruct j; cbn [nth_error]; [reflexivity|].
      now destruct (nth_error cols j).
    + destruct j; cbn [nth_error]; [reflexivity|apply IH].
Qed.

Lemma nodup_combine {A B} (cols : list A) : forall row : list B,
  NoDup cols -> NoDup (map fst (combine cols row)).
Proof.
  induction cols as [|l cols IH]; intros row H; [constructor|].
  destruct row as [|c row]; [constructor|].
  cbn [combine map fst]. inversion H as [|x xs Hnotin Hnd]; subst.
  constructor; [|now apply IH].
  intros Hin. apply Hnotin. apply in_map_iff in Hin.
  destruct Hin as [[l' c'] [<- Hin]]. cbn [fst].
  eapply in_combine_l. exact Hin.
Qed.

(** What is recorded for a frame is the frame row by row, cell by cell. *)
Lemma to_dict_records_of (norm : cell -> cell) (df : DataFrame) :
  records_of norm df (to_dict_records (map_cells norm df)).
Proof.
  unfold records_of, to_dict_records, map_cells.
  cbn [rows columns]. split; [now rewrite !length_map|].
  intros i row d Hrow Hd.
  rewrite map_map in Hd.
  rewrite nth_error_map, Hrow in Hd. cbn [option_map] in Hd.
  injection Hd as <-. split.
  - intros l v Hget.
    apply (of_pairs_sound label_eqb label_eqb_eq) in Hget.
    destruct Hget as [j Hj]. rewrite nth_error_combine_map in Hj.
    destruct (nth_error (columns df) j) as [l'|] eqn:Hl; [|discriminate Hj].
    destruct (nth_error row j) as [c|] eqn:Hc; [|discriminate Hj].
    injection Hj as -> <-. now exists j, c.
  - intros Hnd j l c Hl Hc.
    apply (of_pairs_complete label_eqb label_eqb_eq _ _ _ j).
    + now apply nodup_combine.
    + now rewrite nth_error_combine_map, Hl, Hc.
Qed.

Lemma records_of_no_cell (norm : cell -> cell) (bad : cell -> bool)
    (df : DataFrame) (data : list (Dict.dict label cell)) :
  (forall c, bad (norm c) = false) ->
  records_of norm df data -> no_cell bad data.
Proof.
  intros Hnorm [Hlen H] d l v Hin Hget.
  apply In_nth_error in Hin. destruct Hin as [i Hi].
  assert (Hlt : (i < length (rows df))%nat).
  { rewrite <- Hlen. apply nth_error_Some. now rewrite Hi. }
  destruct (nth_error (rows df) i) as [row|] eqn:Hrow.
  2: { apply nth_error_Some in Hlt. now destruct Hlt. }
  destruct (H i row d Hrow Hi) as [Hsound _].
  destruct (Hsound l v Hget) as (j & c & _ & _ & ->). apply Hnorm.
Qed.

Lemma grid_cell_replace (null c : cell) :
  replace_cell blank_cell null c = grid_cell null c.
Proof.
  unfold grid_cell, is_blank, replace_cell.
  destruct c; try reflexivity. now rewrite blank_cell_search.
Qed.

Lemma stream_cell_fillna (c : cell) : fillna_cell (CStr []) c = stream_cell c.
Proof. now destruct c. Qed.

Lemma has_cells_not_empty (df : DataFrame) :
  negb (df_empty df) = has_cells df.
Proof.
  unfold df_empty, has_cells.
  destruct (rows df), (columns df); reflexivity.
Qed.

Lemma grid_cell_not_blank (null c : cell) :
  is_missing null = true -> is_blank (grid_cell null c) = false.
Proof.
  intros H. unfold grid_cell. destruct (is_blank c) eqn:E; [|exact E].
  now destruct null.
Qed.

Lemma stream_cell_not_missing (c : cell) : is_missing (stream_cell c) = false.
Proof.
  unfold stream_cell. destruct (is_missing c) eqn:E; [reflexivity|exact E].
Qed.

Lemma Forall2_map_right {A B} (P : A -> B -> Prop) (f : A -> B)
    (l : list A) :
  (forall x, P x (f x)) -> Forall2 P l (map f l).
Proof.
  intros H. induction l as [|x l IH]; cbn [map]; constructor; auto.
Qed.

Lemma filter_ext_bool {A} (f g : A -> bool) (l : list A) :
  (forall x, f x = g x) -> filter f l = filter g l.
Proof.
  intros H. induction l as [|x l IH]; cbn [filter]; [reflexivity|].
  now rewrite H, IH.
Qed.

(** C5. [_extract_tables] returns normally and appends to [tables] first
    the records of the grid-line method, then those of the stream method
    (none for a method whose call raises).  Grid-line method: one record
    per table that has a row and a column, in order, the others are
    skipped; [page] is the table's own page; [data] is the table row by
    row, where a string cell of whitespace only has become [None] and
    any other cell is kept, so that no recorded cell is a blank string.
    Stream method: one record per table that has a row and a column;
    [page] is the 1-based position of the table in the list the method
    returned; [data] is the table row by row, where a missing cell
    ([None] or NaN) has become the empty string and any other cell is
    kept (a blank string stays a blank string), so that no recorded
    cell is missing.  The null marker is one missing value for all
    cells: the [None] the code passes, which is what pandas 2 stores. *)
Theorem table_normalization (w : world) (st : state) :
  let path := pdf_path (self st) in
  fst (_extract_tables w st) = Ok tt /\
  exists (null : cell) (camelot tabula : list TableRecord),
    is_missing null = true /\
    tables (results (self (snd (_extract_tables w st))))
    = tables (results (self st)) ++ camelot ++ tabula /\
    match camelot_read_pdf w path with
    | Raise _ => camelot = []
    | Ok ts =>
        Forall2
          (fun t rec =>
             tb_method rec = py "Camelot" /\ tb_page rec = ct_page t /\
             records_of (grid_cell null) (ct_df t) (tb_data rec) /\
             no_cell is_blank (tb_data rec))
          (filter (fun t => has_cells (ct_df t)) ts) camelot
    end /\
    match tabula_read_pdf w path with
    | Raise _ => tabula = []
    | Ok dfs =>
        Forall2
          (fun it rec =>
             tb_method rec = py "Tabula" /\
             tb_page rec = Z.of_nat (fst it) + 1 /\
             records_of stream_cell (snd it) (tb_data rec) /\
             no_cell is_missing (tb_data rec))
          (filter (fun it => has_cells (snd it))
                  (combine (seq 0 (length dfs)) dfs))
          tabula
    end.
Proof.
  intros path. rewrite extract_tables_spec. fold path.
  split; [reflexivity|].
  exists CNone, (camelot_records w path), (tabula_records w path).
  split; [reflexivity|]. split; [reflexivity|]. split.
  - unfold camelot_records.
    destruct (camelot_read_pdf w path) as [ts|e]; [|reflexivity].
    rewrite (filter_ext_bool (fun t => negb (df_empty (ct_df t)))
               (fun t => has_cells (ct_df t)))
      by (intros t; apply has_cells_not_empty).
    apply Forall2_map_right. intros t. unfold camelot_record.
    cbn [tb_method tb_page tb_data].
    assert (Hrec : records_of (grid_cell CNone) (ct_df t)
              (to_dict_records
                 (map_cells (replace_cell blank_cell CNone) (ct_df t)))).
    { destruct (to_dict_records_of (replace_cell blank_cell CNone) (ct_df t))
        as [Hlen H].
      split; [exact Hlen|]. intros i row d Hrow Hd.
      destruct (H i row d Hrow Hd) as [Hs Hc]. split.
      - intros l v Hget. destruct (Hs l v Hget) as (j & c & Hl & Hcj & ->).
        exists j, c. now rewrite grid_cell_replace.
      - intros Hnd j l c Hl Hcj. rewrite <- grid_cell_replace.
        now apply (Hc Hnd j). }
    split; [reflexivity|]. split; [reflexivity|]. split; [exact Hrec|].
    apply (records_of_no_cell (grid_cell CNone) is_blank (ct_df t));
      [intros c; now apply grid_cell_not_blank|exact Hrec].
  - unfold tabula_records.
    destruct (tabula_read_pdf w path) as [dfs|e]; [|reflexivity].
    rewrite (filter_ext_bool (fun it => negb (df_empty (snd it)))
               (fun it => has_cells (snd it)))
      by (intros it; apply has_cells_not_empty).
    apply Forall2_map_right. intros it. unfold tabula_record.
    cbn [tb_method tb_page tb_data].
    assert (Hrec : records_of stream_cell (snd it)
              (to_dict_records
                 (map_cells (fillna_cell (CStr [])) (snd it)))).
    { destruct (to_dict_records_of (fillna_cell (CStr [])) (snd it))
        as [Hlen H].
      split; [exact Hlen|]. intros i row d Hrow Hd.
      destruct (H i row d Hrow Hd) as [Hs Hc]. split.
      - intros l v Hget. destruct (Hs l v Hget) as (j & c & Hl & Hcj & ->).
        exists j, c. now rewrite stream_cell_fillna.
      - intros Hnd j l c Hl Hcj. rewrite <- stream_cell_fillna.
        now apply (Hc Hnd j). }
    split; [reflexivity|]. split; [reflexivity|]. split; [exact Hrec|].
    apply (records_of_no_cell stream_cell is_missing (snd it));
      [apply stream_cell_not_missing|exact Hrec].
Qed.

Lemma table_normalization_witness :
  exists null rec d rec' d1 d2,
    is_missing null = true /\
    tables (results (self (snd (_extract_tables digital_world
                                  (fresh digital_world))))) = [rec; rec'] /\
    tb_method rec = py "Camelot" /\ tb_page rec = 2 /\
    tb_data rec = [d] /\
    Dict.get label_eqb d (LInt 0) = Some null /\
    Dict.get label_eqb d (LInt 1) = Some (CStr (py "a")) /\
    tb_method rec' = py "Tabula" /\ tb_page rec' = 2 /\
    tb_data rec' = [d1; d2] /\
    Dict.get label_eqb d1 (LStr (py "c")) = Some (CStr (py "")) /\
    Dict.get label_eqb d2 (LStr (py "c")) = Some (CStr (py " ")).
Proof.
  destruct (table_normalization digital_world (fresh digital_world))
    as (_ & null & camelot & tabula & Hnull & Htables & Hcam & Htab).
  unfold digital_world in Hcam at 1. cbn [camelot_read_pdf] in Hcam.
  cbn [filter has_cells ct_df rows columns] in Hcam.
  inversion Hcam as [|t rec ts recs (Hm & Hp & (Hlen & Hrows) & _) Hrest E1 E2].
  inversion Hrest. subst.
  destruct (tb_data rec) as [|d [|d' data]] eqn:Hdata; try discriminate Hlen.
  unfold digital_world in Htab at 1. cbn [tabula_read_pdf] in Htab.
  cbn [length seq combine filter has_cells snd rows columns] in Htab.
  inversion Htab
    as [|it rec' its recs' (Hm' & Hp' & (Hlen' & Hrows') & _) Hrest' E1' E2'].
  inversion Hrest'. subst.
  destruct (tb_data rec') as [|d1 [|d2 [|d3 data']]] eqn:Hdata';
    try discriminate Hlen'.
  exists null, rec, d, rec', d1, d2.
  destruct (Hrows 0%nat [CStr (py " "); CStr (py "a")] d eq_refl eq_refl)
    as [_ Hc].
  destruct (Hrows' 0%nat [CNaN] d1 eq_refl eq_refl) as [_ Hc1].
  destruct (Hrows' 1%nat [CStr (py " ")] d2 eq_refl eq_refl) as [_ Hc2].
  assert (Hnd : NoDup [LInt 0; LInt 1]).
  { repeat constructor; cbn; intuition discriminate. }
  assert (Hnd' : NoDup [LStr (py "c")]).
  { repeat constructor; cbn; intuition discriminate. }
  split; [exact Hnull|]. split; [exact Htables|].
  split; [exact Hm|]. split; [exact Hp|]. split; [exact Hdata|].
  split; [apply (Hc Hnd 0%nat (LInt 0) (CStr (py " "))); reflexivity|].
  split; [apply (Hc Hnd 1%nat (LInt 1) (CStr (py "a"))); reflexivity|].
  split; [exact Hm'|]. split; [exact Hp'|]. split; [exact Hdata'|].
  split; [apply (Hc1 Hnd' 0%nat (LStr (py "c")) CNaN); reflexivity|].
  apply (Hc2 Hnd' 0%nat (LStr (py "c")) (CStr (py " "))); reflexivity.
Defined.

(** ** Independence from earlier output *)

Lemma same_object_refl (st : state) : same_object st st.
Proof. split; reflexivity. Qed.

Lemma respects_ret {A} (a : A) : respects (ret a).
Proof. intros st st' R. split; [reflexivity | exact R]. Qed.

Lemma respects_call {A} (r : result A) : respects (call r).
Proof. intros st st' R. split; [reflexivity | exact R]. Qed.

Lemma respects_bind {A B} (m : M A) (f : A -> M B) :
  respects m -> (forall a, respects (f a)) -> respects (bind m f).
Proof.
  intros Hm Hf st st' R. unfold bind.
  destruct (Hm st st' R) as [E R'].
  destruct (m st) as [[a|e] s1], (m st') as [[a'|e'] s1'];
    cbn [fst snd] in *; try discriminate E.
  - injection E as ->. now apply Hf.
  - injection E as ->. split; [reflexivity | exact R'].
Qed.

Lemma respects_try {A} (body : M A) (handler : exn -> M A) :
  respects body -> (forall e, respects (handler e)) ->
  respects (try_except body handler).
Proof.
  intros Hm Hh st st' R. unfold try_except.
  destruct (Hm st st' R) as [E R'].
  destruct (body st) as [[a|e] s1], (body st') as [[a'|e'] s1'];
    cbn [fst snd] in *; try discriminate E.
  - injection E as ->. split; [reflexivity | exact R'].
  - injection E as ->. now apply Hh.
Qed.

Lemma respects_gets {A} (f : state -> A) :
  (forall st st', same_object st st' -> f st = f st') -> respects (gets f).
Proof.
  intros Hf st st' R. unfold gets. cbn [fst snd].
  split; [now rewrite (Hf st st' R) | exact R].
Qed.

Lemma respects_modify (f : state -> state) :
  (forall st st', same_object st st' -> same_object (f st) (f st')) ->
  respects (modify f).
Proof.
  intros Hf st st' R. unfold modify. cbn [fst snd].
  split; [reflexivity | now apply Hf].
Qed.

Lemma respects_print (s : pystr) : respects (print s).
Proof. apply respects_modify. intros st st' [E1 E2]. now split. Qed.

Lemma respects_for_enumerate {A B} (body : Z -> A -> B -> M B) :
  (forall i x acc, respects (body i x acc)) ->
  forall xs i acc, respects (for_enumerate i xs body acc).
Proof.
  intros Hb xs. induction xs as [|x xs IH]; intros i acc;
    cbn [for_enumerate].
  - apply respects_ret.
  - apply respects_bind; [apply Hb | intros a; apply IH].
Qed.

Lemma respects_for_fold {A B} (body : A -> B -> M B) :
  (forall x acc, respects (body x acc)) ->
  forall xs acc, respects (for_fold xs body acc).
Proof.
  intros Hb xs. induction xs as [|x xs IH]; intros acc; cbn [for_fold].
  - apply respects_ret.
  - apply respects_bind; [apply Hb | intros a; apply IH].
Qed.

Lemma respects_for_each {A} (body : A -> M unit) :
  (forall x, respects (body x)) -> forall xs, respects (for_each xs body).
Proof.
  intros Hb xs. induction xs as [|x xs IH]; cbn [for_each].
  - apply respects_ret.
  - apply respects_bind; [apply Hb | intros _; apply IH].
Qed.

Lemma respects_for_methods (ms : list (M bool)) :
  Forall respects ms -> respects (for_methods ms).
Proof.
  induction 1 as [|m ms Hm _ IH]; cbn [for_methods].
  - apply respects_ret.
  - apply respects_bind; [exact Hm|].
    intros [|]; [apply respects_ret | exact IH].
Qed.

Lemma same_object_with_self (f : extractor -> extractor) (st st' : state) :
  same_object st st' -> same_object (with_self f st) (with_self f st').
Proof. intros [E1 E2]. split; cbn; congruence. Qed.

Lemma same_object_with_results (f : ExtractionResult -> ExtractionResult)
    (st st' : state) :
  same_object st st' -> same_object (with_results f st) (with_results f st').
Proof. apply same_object_with_self. Qed.

(** Breaks a program down along the combinators of the monad. *)
Ltac respects_step :=
  first
    [ apply respects_ret
    | apply respects_call
    | apply respects_print
    | apply respects_bind
    | apply respects_try
    | apply respects_for_enumerate
    | apply respects_for_fold
    | apply respects_for_each
    | apply respects_gets;
      let R := fresh "R" in
      intros ? ? R; destruct R as [R ?]; cbn; congruence
    | apply respects_modify; intros ? ? ?;
      first [ now apply same_object_with_results
            | now apply same_object_with_self ]
    | match goal with
      | |- respects (if ?b then _ else _) => destruct b
      | |- respects (match ?x with _ => _ end) => destruct x
      | |- respects (let _ := _ in _) => cbv zeta
      end
    | intro ].

Ltac respects_tac := repeat respects_step.

Lemma respects_extract_tables (w : world) : respects (_extract_tables w).
Proof. unfold _extract_tables. respects_tac. Qed.

Lemma respects_strategy (w : world) (s : strategy) :
  respects (run_strategy w s).
Proof.
  pose proof (respects_extract_tables w) as Ht.
  destruct s; cbn [run_strategy];
    unfold _extract_with_pymupdf, _extract_with_pdfplumber,
      _extract_with_pypdf, _ocr_fallback, append_method, set_is_scanned;
    respects_tac; exact Ht.
Qed.

Lemma respects_extract (w : world) : respects (extract w).
Proof.
  unfold extract. apply respects_bind.
  { unfold _extract_metadata. respects_tac. }
  intros _. apply respects_bind.
  { apply respects_for_methods. rewrite methods_strategies.
    apply Forall_forall. intros m Hin. apply in_map_iff in Hin.
    destruct Hin as [s [<- _]]. apply respects_strategy. }
  intros _. respects_tac.
Qed.

Lemma respects_process_content : respects _process_content.
Proof. unfold _process_content, process_line. respects_tac. Qed.

Lemma respects_main_try (w : world) (output_arg : option pystr) :
  respects (main_try w output_arg).
Proof.
  unfold main_try. apply respects_bind; [apply respects_extract|].
  intros _. apply respects_bind; [apply respects_process_content|].
  intros _. respects_tac;
    apply respects_modify; intros st st' [E1 E2]; now split.
Qed.

(** Two runs of [main] on the same document whose extractors start with
    the same tesseract command end with the same exit code and the same
    extractor object. *)
Lemma main_same_object (w : world) (path : pystr)
    (output_arg : option pystr) (out out' : list output)
    (fs fs' : list (pystr * output)) (cmd cmd' : pystr) :
  tesseract_cmd (__init__ w path out fs cmd)
  = tesseract_cmd (__init__ w path out' fs' cmd') ->
  fst (main w path output_arg out' fs' cmd')
  = fst (main w path output_arg out fs cmd) /\
  self (snd (main w path output_arg out' fs' cmd'))
  = self (snd (main w path output_arg out fs cmd)).
Proof.
  intros Hcmd. unfold main.
  destruct (respects_main_try w output_arg
              (__init__ w path out fs cmd) (__init__ w path out' fs' cmd'))
    as [E [Es _]].
  { split; [reflexivity | exact Hcmd]. }
  destruct (main_try w output_arg (__init__ w path out fs cmd))
    as [[u|e] s1],
    (main_try w output_arg (__init__ w path out' fs' cmd'))
    as [[u'|e'] s1'];
    cbn [fst snd] in *; try discriminate E.
  - split; [reflexivity | now symmetry].
  - split; [reflexivity | now symmetry].
Qed.

(** C10. Running the pipeline again on the same document, with the
    libraries answering as before, gives the same exit code and the same
    result object (so the same [metadata], the same [content] from the
    same selected candidate, and the same table records), the same
    [extraction_methods] and the same [is_scanned]: both for a second run
    in the same process, which starts from the output, the files and the
    tesseract command the first run left, and for a run in another
    process that starts with the same tesseract command. *)
Theorem pipeline_deterministic (w : world) (path : pystr)
    (output_arg : option pystr) (out : list output)
    (fs : list (pystr * output)) (cmd : pystr) :
  let first := main w path output_arg out fs cmd in
  let again :=
    main w path output_arg (stdout (snd first)) (files (snd first))
         (tesseract_cmd (snd first)) in
  (fst again = fst first /\
   results (self (snd again)) = results (self (snd first)) /\
   extraction_methods (self (snd again))
   = extraction_methods (self (snd first)) /\
   is_scanned (self (snd again)) = is_scanned (self (snd first)) /\
   tesseract_cmd (snd again) = tesseract_cmd (snd first)) /\
  (forall (out' : list output) (fs' : list (pystr * output)),
      let other := main w path output_arg out' fs' cmd in
      fst other = fst first /\
      results (self (snd other)) = results (self (snd first)) /\
      extraction_methods (self (snd other))
      = extraction_methods (self (snd first)) /\
      is_scanned (self (snd other)) = is_scanned (self (snd first))).
Proof.
  intros first again.
  assert (Hcmd : tesseract_cmd (snd first)
                 = tesseract_cmd (__init__ w path out fs cmd)).
  { subst first.
    destruct (extract w (__init__ w path out fs cmd)) as [r st1] eqn:E.
    destruct (main_results w path output_arg out fs cmd r st1 E)
      as (Hc & _). rewrite Hc.
    destruct (extract_fresh w path out fs cmd) as (Hc' & _).
    rewrite E in Hc'. exact Hc'. }
  assert (Hinit : forall o f,
             tesseract_cmd (__init__ w path out fs cmd)
             = tesseract_cmd (__init__ w path o f
                                (tesseract_cmd (snd first)))).
  { intros o f. rewrite Hcmd. cbn.
    destruct (PyStr.eqb (os_name w) (py "nt")); reflexivity. }
  split.
  - subst again.
    destruct (main_same_object w path output_arg out (stdout (snd first))
                fs (files (snd first)) cmd (tesseract_cmd (snd first))
                (Hinit _ _)) as [Hcode Hself].
    fold first in Hcode, Hself. rewrite Hself.
    repeat split; try reflexivity; try exact Hcode.
    destruct (extract w (__init__ w path (stdout (snd first))
                           (files (snd first)) (tesseract_cmd (snd first))))
      as [r st1] eqn:E.
    destruct (main_results w path output_arg _ _ _ r st1 E) as (Hc & _).
    rewrite Hc.
    destruct (extract_fresh w path (stdout (snd first)) (files (snd first))
                (tesseract_cmd (snd first))) as (Hc' & _).
    rewrite E in Hc'. cbn [snd] in Hc'. rewrite Hc', <- (Hinit _ _).
    symmetry. exact Hcmd.
  - intros out' fs' other. subst other.
    destruct (main_same_object w path output_arg out out' fs fs' cmd cmd
                eq_refl) as [Hcode Hself].
    fold first in Hcode, Hself. rewrite Hself.
    repeat split; try reflexivity; exact Hcode.
Qed.

(* ===================================================================== *)
(** * Further properties of the pipeline *)
(* ===================================================================== *)

(** ** The command line *)

Lemma main_try_eq (w : world) (output_arg : option pystr) (st : state)
    (r : result ExtractionResult) (st1 : state) :
  extract w st = (r, st1) ->
  main_try w output_arg st =
  match r with
  | Ok _ =>
      match output_step w output_arg with
      | Ok _ => (Ok tt, emitted output_arg (structured st1))
      | Raise e => (Raise e, structured st1)
      end
  | Raise e => (Raise e, st1)
  end.
Proof.
  intros E. unfold main_try. unfold bind at 1. rewrite E.
  destruct r as [r|e]; [|reflexivity].
  unfold bind at 1. rewrite process_content_spec.
  unfold output_step, emitted, output_file, save_results, print_results.
  unfold bind, gets, print, modify, call.
  destruct output_arg as [[|c file]|]; cbn [truthy]; try reflexivity.
  all: now destruct (open_for_writing w (c :: file)) as [[]|e].
Qed.

(** [extract] on the object [__init__] made. *)
Lemma extract_init (w : world) (path : pystr) (out : list output)
    (fs : list (pystr * output)) (cmd : pystr) :
  let st0 := __init__ w path out fs cmd in
  let cmd0 := tesseract_cmd st0 in
  let sel := select w path cmd0 in
  match fitz_open w path with
  | Raise e => extract w st0 = (Raise e, st0)
  | Ok doc =>
      exists printed,
        let st' :=
          update (with_results (set_metadata (metadata_of doc)) st0)
            (selected_content w path cmd0 sel) (selected_tables w path sel)
            (flat_map (strategy_figures w path)
               (tried w path cmd0 strategies))
            (selected_names sel) (selected_scanned sel) printed in
        extract w st0 = (Ok (results (self st')), st')
  end.
Proof. exact (extract_spec w (__init__ w path out fs cmd)). Qed.

(** X1. If the document cannot be opened for its metadata, [main] runs no
    candidate (whatever they would have found): it prints the one line
    "Error processing PDF: ..." after what was printed before, renders no
    result, writes no file, leaves the result object as [__init__] made
    it, and exits with code 1. *)
Theorem main_fatal_when_unopenable (w : world) (path : pystr)
    (output_arg : option pystr) (out : list output)
    (fs : list (pystr * output)) (cmd : pystr) (e : exn) :
  fitz_open w path = Raise e ->
  let final := snd (main w path output_arg out fs cmd) in
  fst (main w path output_arg out fs cmd) = 1 /\
  stdout final = out ++ [Text (py "Error processing PDF: " ++ exn_str e)] /\
  files final = fs /\
  results (self final) = mkResults [] [] [] [] [] [] /\
  extraction_methods (self final) = [] /\
  is_scanned (self final) = false.
Proof.
  intros Hopen. pose proof (extract_init w path out fs cmd) as H.
  cbv zeta in H. rewrite Hopen in H.
  unfold main. rewrite (main_try_eq _ _ _ _ _ H).
  cbn. repeat split; reflexivity.
Qed.

Lemma main_fatal_when_unopenable_witness :
  let final := snd (main unreadable_world example_path None [] []
                      (py "tesseract")) in
  fst (main unreadable_world example_path None [] [] (py "tesseract")) = 1 /\
  stdout final
  = [] ++ [Text (py "Error processing PDF: " ++ py "cannot open")] /\
  files final = [] /\
  results (self final) = mkResults [] [] [] [] [] [] /\
  extraction_methods (self final) = [] /\
  is_scanned (self final) = false.
Proof.
  apply (main_fatal_when_unopenable unreadable_world example_path None [] []
           (py "tesseract") (mkExn OtherException (py "cannot open"))).
  reflexivity.
Defined.



(** What [main] leaves in the object is what [extract] left, but for the
    headers. *)
Lemma main_keeps_extracted (w : world) (path : pystr)
    (output_arg : option pystr) (out : list output)
    (fs : list (pystr * output)) (cmd : pystr) :
  let st1 := snd (extract w (__init__ w path out fs cmd)) in
  let final := snd (main w path output_arg out fs cmd) in
  metadata (results (self final)) = metadata (results (self st1)) /\
  content (results (self final)) = content (results (self st1)) /\
  tables (results (self final)) = tables (results (self st1)) /\
  figures (results (self final)) = figures (results (self st1)) /\
  extraction_methods (self final) = extraction_methods (self st1) /\
  is_scanned (self final) = is_scanned (self st1) /\
  tesseract_cmd final = tesseract_cmd st1.
Proof.
  intros st1 final. subst st1 final.
  destruct (extract w (__init__ w path out fs cmd)) as [r st1] eqn:E.
  destruct (main_results w path output_arg out fs cmd r st1 E)
    as (Hc & Hn & Hs & _ & Hr).
  rewrite Hr, Hn, Hs, Hc. cbn [snd].
  destruct r; repeat split; reflexivity.
Qed.




(** X4. Table records exist only when a digital candidate was selected:
    [tables] is then the records of the two table methods, once; when the
    OCR fallback is selected, when nothing is selected or when the
    document cannot be opened, [tables] is empty, whatever tables the
    two methods would have found.  So a document marked scanned has no
    table. *)
Theorem tables_only_with_digital_text (w : world) (path : pystr)
    (output_arg : option pystr) (out : list output)
    (fs : list (pystr * output)) (cmd : pystr) :
  let final := snd (main w path output_arg out fs cmd) in
  let cmd0 := tesseract_cmd (__init__ w path out fs cmd) in
  tables (results (self final))
  = match fitz_open w path, select w path cmd0 with
    | Ok _, Some PyMuPDF | Ok _, Some PDFPlumber | Ok _, Some PyPDF =>
        camelot_records w path ++ tabula_records w path
    | _, _ => []
    end /\
  (is_scanned (self final) = true -> tables (results (self final)) = []).
Proof.
  intros final cmd0.
  destruct (main_keeps_extracted w path output_arg out fs cmd)
    as (_ & _ & Ht & _ & _ & Hs & _).
  destruct (extract_fresh w path out fs cmd) as (_ & _ & _ & _ & H).
  fold final in Ht, Hs. fold cmd0 in H. rewrite Ht, Hs.
  destruct (fitz_open w path) as [doc|e].
  - destruct H as (_ & _ & _ & Ht' & _ & _ & Hs'). rewrite Ht', Hs'.
    destruct (select w path cmd0) as [[| | |]|]; cbn;
      split; try reflexivity; intros E; try reflexivity; discriminate E.
  - destruct H as (_ & _ & _ & Ht' & _ & _ & Hs'). rewrite Ht', Hs'.
    split; [reflexivity|]. intros _. reflexivity.
Qed.

Lemma tables_only_with_digital_text_witness :
  tables (results (self (snd (main scanned_world example_path None [] []
                                (py "tesseract"))))) = [].
Proof.
  apply (proj2 (tables_only_with_digital_text scanned_world example_path
                  None [] [] (py "tesseract"))).
  vm_compute. reflexivity.
Defined.

(** ** Candidates that are not run *)

Lemma strategy_effect_pymupdf_ext (w w' : world) (st : state) :
  fitz_open w (pdf_path (self st)) = fitz_open w' (pdf_path (self st)) ->
  camelot_read_pdf w (pdf_path (self st))
  = camelot_read_pdf w' (pdf_path (self st)) ->
  tabula_read_pdf w (pdf_path (self st))
  = tabula_read_pdf w' (pdf_path (self st)) ->
  strategy_effect w PyMuPDF st = strategy_effect w' PyMuPDF st.
Proof.
  intros Hf Hc Ht.
  unfold strategy_effect, strategy_texts, strategy_figures, camelot_records,
    tabula_records, table_messages.
  now rewrite Hf, Hc, Ht.
Qed.

(** X5. When the first candidate (PyMuPDF) is accepted, the whole run of
    [main] (exit code, object, what is printed and written) depends on
    the document only through what fitz, camelot and tabula answer: the
    answers of pdfplumber, pypdf, pdf2image and tesseract are never
    asked for.  Of the rest of the environment the run sees [os.name]
    and, when a file is asked for with [-o], whether that file opens,
    which decides the end of the run but not the extractor object. *)
Theorem later_candidates_never_consulted (w w' : world) (path : pystr)
    (output_arg : option pystr) (out : list output)
    (fs : list (pystr * output)) (cmd : pystr) :
  os_name w = os_name w' ->
  fitz_open w path = fitz_open w' path ->
  camelot_read_pdf w path = camelot_read_pdf w' path ->
  tabula_read_pdf w path = tabula_read_pdf w' path ->
  accepted w path cmd PyMuPDF = true ->
  self (snd (main w path output_arg out fs cmd))
  = self (snd (main w' path output_arg out fs cmd)) /\
  (output_file output_arg = None ->
   main w path output_arg out fs cmd = main w' path output_arg out fs cmd) /\
  (output_step w output_arg = output_step w' output_arg ->
   main w path output_arg out fs cmd = main w' path output_arg out fs cmd).
Proof.
  intros Hos Hf Hc Ht Hacc.
  assert (Hinit : __init__ w path out fs cmd = __init__ w' path out fs cmd).
  { unfold __init__. now rewrite Hos. }
  assert (Hext : extract w (__init__ w path out fs cmd)
                 = extract w' (__init__ w path out fs cmd)).
  { unfold extract. unfold bind at 1 3.
    rewrite !extract_metadata_spec.
    change (pdf_path (self (__init__ w path out fs cmd))) with path.
    rewrite <- Hf.
    destruct (fitz_open w path) as [doc|e] eqn:Ew; [|reflexivity].
    set (st1 := with_results (set_metadata (metadata_of doc))
                  (__init__ w path out fs cmd)).
    assert (Hrun : forall v, fitz_open v path = fitz_open w path ->
               camelot_read_pdf v path = camelot_read_pdf w path ->
               tabula_read_pdf v path = tabula_read_pdf w path ->
               for_methods (methods v) st1
               = (Ok tt, snd (strategy_effect w PyMuPDF st1))).
    { intros v Hvf Hvc Hvt. unfold methods.
      rewrite for_methods_stops; rewrite pymupdf_spec;
        rewrite (strategy_effect_pymupdf_ext v w st1 Hvf Hvc Hvt).
      - reflexivity.
      - cbn [fst]. rewrite strategy_effect_accepted.
        change (pdf_path (self st1)) with path.
        unfold accepted, strategy_texts in *. now rewrite Hacc. }
    unfold bind.
    rewrite (Hrun w eq_refl eq_refl eq_refl).
    rewrite (Hrun w' (eq_trans (eq_sym Hf) (eq_sym Ew)) (eq_sym Hc)
               (eq_sym Ht)).
    reflexivity. }
  unfold main. rewrite <- Hinit.
  destruct (extract w (__init__ w path out fs cmd)) as [r st1] eqn:E.
  rewrite (main_try_eq w _ _ r st1 E).
  rewrite (main_try_eq w' _ _ r st1 (eq_sym Hext)).
  split; [|split].
  - destruct r as [r|e]; [|reflexivity].
    unfold emitted.
    destruct (output_step w output_arg), (output_step w' output_arg),
      (output_file output_arg); reflexivity.
  - intros Hnone. unfold output_step. now rewrite Hnone.
  - intros Hout. now rewrite Hout.
Qed.

Lemma later_candidates_never_consulted_witness :
  main digital_world example_path None [] [] (py "tesseract")
  = main (mkWorld (os_name digital_world) (fitz_open digital_world)
            (pdfplumber_open unreadable_world) (PdfReader unreadable_world)
            (convert_from_path unreadable_world)
            (image_to_string unreadable_world)
            (camelot_read_pdf digital_world) (tabula_read_pdf digital_world)
            (fun _ => Raise (mkExn OtherException
                               (py "[Errno 30] Read-only file system"))))
         example_path None [] [] (py "tesseract").
Proof.
  apply (proj1 (proj2 (later_candidates_never_consulted digital_world _
                         example_path None [] [] (py "tesseract")
                         eq_refl eq_refl eq_refl eq_refl eq_refl))).
  reflexivity.
Defined.

(** ** The tesseract command *)

Lemma pystr_ne_eqb (a b : pystr) : PyStr.eqb a b = false -> a <> b.
Proof. intros E H. apply pystr_eqb_eq in H. congruence. Qed.

(** X6. On Windows ([os.name] is "nt") [__init__] overwrites the
    tesseract command with the fixed Windows path: the command set
    before has no influence on the exit code or on the extractor object,
    and the fixed path is what the process is left with.  On any other
    system the command is left as it was. *)
Theorem windows_overrides_tesseract_cmd (w : world) (path : pystr)
    (output_arg : option pystr) (out : list output)
    (fs : list (pystr * output)) (cmd cmd' : pystr) :
  (os_name w = py "nt" ->
   tesseract_cmd (snd (main w path output_arg out fs cmd))
   = windows_tesseract /\
   fst (main w path output_arg out fs cmd')
   = fst (main w path output_arg out fs cmd) /\
   self (snd (main w path output_arg out fs cmd'))
   = self (snd (main w path output_arg out fs cmd))) /\
  (os_name w <> py "nt" ->
   tesseract_cmd (snd (main w path output_arg out fs cmd)) = cmd).
Proof.
  destruct (main_keeps_extracted w path output_arg out fs cmd)
    as (_ & _ & _ & _ & _ & _ & Hc).
  destruct (extract_fresh w path out fs cmd) as (Hc' & _).
  rewrite Hc' in Hc. cbn [tesseract_cmd __init__] in Hc.
  split.
  - intros Hnt. rewrite Hnt, pystr_eqb_refl in Hc. split; [exact Hc|].
    apply main_same_object. cbn [tesseract_cmd __init__].
    now rewrite Hnt, pystr_eqb_refl.
  - intros Hnt. rewrite Hc. now rewrite (pystr_eqb_neq _ _ Hnt).
Qed.

Lemma windows_overrides_tesseract_cmd_witness :
  (tesseract_cmd (snd (main windows_world example_path None [] []
                         (py "tesseract"))) = windows_tesseract /\
   fst (main windows_world example_path None [] [] (py "/opt/tesseract"))
   = fst (main windows_world example_path None [] [] (py "tesseract")) /\
   self (snd (main windows_world example_path None [] []
                (py "/opt/tesseract")))
   = self (snd (main windows_world example_path None [] []
                  (py "tesseract")))) /\
  tesseract_cmd (snd (main scanned_world example_path None [] []
                        (py "tesseract"))) = py "tesseract".
Proof.
  split.
  - apply (proj1 (windows_overrides_tesseract_cmd windows_world example_path
                    None [] [] (py "tesseract") (py "/opt/tesseract"))).
    reflexivity.
  - apply (proj2 (windows_overrides_tesseract_cmd scanned_world example_path
                    None [] [] (py "tesseract") (py "tesseract"))).
    vm_compute. discriminate.
Defined.

(** ** The page records of a run *)

(** X7. In the result of [main] the page numbers of [content] strictly
    increase and start at 1 or later, and no record holds text that is
    blank after trimming. *)
Theorem content_pages_increase (w : world) (path : pystr)
    (output_arg : option pystr) (out : list output)
    (fs : list (pystr * output)) (cmd : pystr) :
  let c := content (results (self (snd (main w path output_arg out fs cmd))))
  in
  StronglySorted Z.lt (map pt_page c) /\
  Forall (fun rec => 1 <= pt_page rec /\ strip (pt_content rec) <> []) c.
Proof.
  intros c. subst c.
  destruct (main_keeps_extracted w path output_arg out fs cmd)
    as (_ & Hc & _).
  destruct (extract_fresh w path out fs cmd) as (_ & _ & _ & _ & H).
  rewrite Hc.
  assert (Hrec : forall tag texts,
             StronglySorted Z.lt (map pt_page (page_records tag texts)) /\
             Forall (fun rec => 1 <= pt_page rec
                                /\ strip (pt_content rec) <> [])
                    (page_records tag texts)).
  { intros tag texts. rewrite <- records_from_page_records. split.
    - apply sorted_records_from.
    - apply Forall_forall. intros rec Hin.
      apply (in_records_from tag texts 0) in Hin.
      destruct Hin as (n & t & _ & Hb & ->). cbn. split; [lia | exact Hb]. }
  destruct (fitz_open w path) as [doc|e].
  - destruct H as (_ & _ & Hc' & _). rewrite Hc'.
    unfold selected_content.
    destruct (select w path _) as [s|]; [|split; constructor].
    destruct (strategy_texts w s path _); [apply Hrec | split; constructor].
  - destruct H as (_ & _ & Hc' & _). rewrite Hc'. split; constructor.
Qed.

(** ** Figure records *)

(** X8. The pdfplumber candidate and the images of the document.  The
    loop appends a figure record for every image it reads, and the
    first image that lacks a key stops the candidate.  With the image
    dicts pdfplumber builds, which have no "bbox" key, that is the first
    image the loop meets: the candidate appends no figure record; it is
    accepted only when no page of the document has an image; and when
    the pages before the first page with an image were read, it prints
    "PDFPlumber extraction failed: 'bbox'", returns [False] and changes
    nothing else, whatever text the pages hold. *)
Theorem pdfplumber_stops_at_first_image (w : world) (st : state)
    (pages : list plumber_page) :
  pdfplumber_open w (pdf_path (self st)) = Ok pages ->
  let run := _extract_with_pdfplumber w st in
  figures (results (self (snd run)))
  = figures (results (self st)) ++ plumber_figures 0 pages /\
  (lack_bbox pages ->
   figures (results (self (snd run))) = figures (results (self st)) /\
   (fst run = Ok true -> Forall no_image pages) /\
   (forall pre p post texts text image images,
       pages = pre ++ p :: post ->
       sequence (map plumber_read pre) = Ok texts ->
       pl_extract_text p = Ok text ->
       pl_images p = Ok (image :: images) ->
       run = (Ok false,
              update st [] [] [] [] false
                [Text (py "PDFPlumber extraction failed: 'bbox'")]))).
Proof.
  intros Hopen run. subst run.
  assert (Hfig : figures (results (self (snd (_extract_with_pdfplumber w st))))
                 = figures (results (self st)) ++ plumber_figures 0 pages).
  { rewrite pdfplumber_spec. cbn [snd].
    destruct (strategy_effect_frame w PDFPlumber st) as (_ & _ & _ & Hf & _).
    rewrite Hf. cbn [strategy_figures]. now rewrite Hopen. }
  split; [exact Hfig|]. intros Hlack. split; [|split].
  - rewrite Hfig, (plumber_figures_no_bbox pages Hlack). apply app_nil_r.
  - rewrite pdfplumber_spec. cbn [fst].
    unfold strategy_effect, strategy_texts, and_then. rewrite Hopen.
    destruct (sequence (map plumber_read pages)) as [texts|e] eqn:Hs.
    + intros _. apply (plumber_texts_no_image pages Hlack texts Hs).
    + cbn. discriminate.
  - intros pre p post texts text image images -> Hpre Ht Hi.
    rewrite pdfplumber_spec.
    unfold strategy_effect, strategy_texts, strategy_figures, and_then.
    rewrite Hopen.
    rewrite (plumber_stops_at_image pre post p texts text image images
               Hlack Hpre Ht Hi).
    rewrite (plumber_figures_no_bbox _ Hlack). reflexivity.
Qed.

Lemma pdfplumber_stops_at_first_image_witness :
  let st := fresh scanned_world in
  let run := _extract_with_pdfplumber scanned_world st in
  lack_bbox [mkPlumberPage (Ok (py "")) (Ok [example_image])] /\
  figures (results (self (snd run))) = figures (results (self st)) /\
  run = (Ok false,
         update st [] [] [] [] false
           [Text (py "PDFPlumber extraction failed: 'bbox'")]).
Proof.
  intros st run.
  assert (Hlack : lack_bbox [mkPlumberPage (Ok (py "")) (Ok [example_image])]).
  { intros p images image [<-|[]] Hi. injection Hi as <-.
    intros [<-|[]]. reflexivity. }
  pose proof (pdfplumber_stops_at_first_image scanned_world st
                [mkPlumberPage (Ok (py "")) (Ok [example_image])] eq_refl)
    as (_ & H).
  destruct (H Hlack) as (Hf & _ & Hstop).
  split; [exact Hlack|]. split; [exact Hf|].
  apply (Hstop [] (mkPlumberPage (Ok (py "")) (Ok [example_image])) []
           [] (py "") example_image []); reflexivity.
Defined.

(** ** What is printed *)

Lemma table_messages_length (w : world) (path : pystr) :
  (length (table_messages w path) <= 2)%nat.
Proof.
  unfold table_messages.
  destruct (camelot_read_pdf w path), (tabula_read_pdf w path); cbn; lia.
Qed.

(** X9. What a candidate prints.  A candidate that an exception stops
    prints exactly one line, which carries the text of the exception and
    names the candidate (for pypdf, "Encrypted PDF detected" when the
    exception is a [PdfReadError]).  A candidate that reads every page
    and finds no text prints nothing.  An accepted candidate prints only
    the failure lines of the table methods, at most two, and the OCR
    fallback none.  No candidate writes a file. *)
Theorem candidate_output (w : world) (s : strategy) (st : state) :
  let path := pdf_path (self st) in
  let cmd := tesseract_cmd st in
  let st' := snd (run_strategy w s st) in
  files st' = files st /\
  (forall e, strategy_texts w s path cmd = Raise e ->
     fst (run_strategy w s st) = Ok false /\
     stdout st' = stdout st ++ [Text (failure_message s e)]) /\
  (forall texts, strategy_texts w s path cmd = Ok texts ->
     existsb nonblank texts = false ->
     fst (run_strategy w s st) = Ok false /\ stdout st' = stdout st) /\
  (fst (run_strategy w s st) = Ok true ->
   stdout st'
   = stdout st ++ (if is_ocr s then [] else table_messages w path)) /\
  (length (table_messages w path) <= 2)%nat.
Proof.
  intros path cmd st'. subst st'. rewrite run_strategy_spec. cbn [fst snd].
  unfold strategy_effect. fold path cmd.
  split; [|split; [|split; [|split]]].
  - destruct (strategy_texts w s path cmd) as [texts|e];
      [destruct (existsb nonblank texts)|]; reflexivity.
  - intros e He. rewrite He. split; reflexivity.
  - intros texts Ht Hnb. rewrite Ht, Hnb. cbn. now rewrite app_nil_r.
  - destruct (strategy_texts w s path cmd) as [texts|e];
      [destruct (existsb nonblank texts)|]; cbn [fst snd];
      intros H; try discriminate H. reflexivity.
  - apply table_messages_length.
Qed.

Lemma candidate_output_witness :
  let st := fresh blank_world in
  (fst (run_strategy blank_world PyPDF st) = Ok false /\
   stdout (snd (run_strategy blank_world PyPDF st))
   = stdout st
     ++ [Text (failure_message PyPDF (mkExn PdfReadError (py "encrypted")))])
  /\
  (fst (run_strategy blank_world PyMuPDF st) = Ok false /\
   stdout (snd (run_strategy blank_world PyMuPDF st)) = stdout st) /\
  stdout (snd (run_strategy scanned_world TesseractOCR (fresh scanned_world)))
  = stdout (fresh scanned_world) ++ [].
Proof.
  intros st. split; [|split].
  - apply (proj1 (proj2 (candidate_output blank_world PyPDF st))).
    reflexivity.
  - apply (proj1 (proj2 (proj2 (candidate_output blank_world PyMuPDF st)))
             [py " "]); reflexivity.
  - apply (proj1 (proj2 (proj2 (proj2
             (candidate_output scanned_world TesseractOCR
                (fresh scanned_world)))))).
    vm_compute. reflexivity.
Defined.

(** ** The outline built by [_process_content] *)

Lemma process_content_headers (st : state) :
  headers (results (self (snd (_process_content st))))
  = fst (fold_left step_line (all_lines (content (results (self st))))
           (headers (results (self st)), sentinel)).
Proof. rewrite process_content_spec. reflexivity. Qed.

Lemma dict_get_set_cases {V} (d : Dict.dict pystr V) (k k' : pystr) (v : V) :
  Dict.get PyStr.eqb (Dict.set PyStr.eqb d k v) k'
  = if PyStr.eqb k k' then Some v else Dict.get PyStr.eqb d k'.
Proof.
  destruct (PyStr.eqb k k') eqn:E.
  - apply pystr_eqb_eq in E. subst k'. apply dict_get_set_same.
  - apply dict_get_set_other. now apply pystr_ne_eqb.
Qed.

(** Under a heading, the body list of the sentinel does not change. *)
Lemma sentinel_frozen (lines : list pystr) : forall h cur,
  cur <> sentinel -> Dict.get PyStr.eqb h cur <> None ->
  Dict.get PyStr.eqb (fst (fold_left step_line lines (h, cur))) sentinel
  = Dict.get PyStr.eqb h sentinel.
Proof.
  induction lines as [|l ls IH]; intros h cur Hne Hp; [reflexivity|].
  cbn [fold_left]. unfold step_line at 2.
  destruct (is_heading (strip l)) eqn:Hh.
  - rewrite IH.
    + apply dict_get_set_other. now apply heading_not_sentinel.
    + now apply heading_not_sentinel.
    + rewrite dict_get_set_same. discriminate.
  - destruct (Dict.get PyStr.eqb h cur) as [body|] eqn:Hget; [|congruence].
    rewrite IH.
    + now apply dict_get_set_other.
    + exact Hne.
    + rewrite dict_get_set_same. discriminate.
Qed.

(** While no heading has been met, the lines go to the sentinel. *)
Lemma sentinel_growing (lines : list pystr) : forall h b,
  Dict.get PyStr.eqb h sentinel = Some b ->
  Dict.get PyStr.eqb (fst (fold_left step_line lines (h, sentinel))) sentinel
  = Some (b ++ leading_body lines).
Proof.
  induction lines as [|l ls IH]; intros h b Hb;
    cbn [fold_left leading_body].
  - now rewrite app_nil_r.
  - unfold step_line at 2. destruct (is_heading (strip l)) eqn:Hh.
    + rewrite sentinel_frozen.
      * rewrite dict_get_set_other by now apply heading_not_sentinel.
        now rewrite app_nil_r.
      * now apply heading_not_sentinel.
      * rewrite dict_get_set_same. discriminate.
    + rewrite Hb. rewrite (IH _ (b ++ [strip l])).
      * now rewrite <- app_assoc.
      * apply dict_get_set_same.
Qed.

(** X10. After [_process_content], the body list of "Main Content" is
    what it was before followed by the trimmed lines that come before
    the first heading line, blank lines included; no line after the
    first heading ever reaches it.  So, starting without the key, "Main
    Content" is a key of [headers] only if the text does not begin with a
    heading (an empty [content] gives no key at all). *)
Theorem main_content_holds_leading_lines (st : state) :
  let h0 := headers (results (self st)) in
  let lines := all_lines (content (results (self st))) in
  Dict.get PyStr.eqb (headers (results (self (snd (_process_content st)))))
    sentinel
  = match Dict.get PyStr.eqb h0 sentinel, leading_body lines with
    | Some b0, b => Some (b0 ++ b)
    | None, [] => None
    | None, b => Some b
    end.
Proof.
  intros h0 lines. rewrite process_content_headers. fold h0 lines.
  destruct (Dict.get PyStr.eqb h0 sentinel) as [b0|] eqn:H0.
  - now apply sentinel_growing.
  - destruct lines as [|l ls]; cbn [fold_left leading_body]; [exact H0|].
    unfold step_line at 2. destruct (is_heading (strip l)) eqn:Hh.
    + rewrite sentinel_frozen.
      * rewrite dict_get_set_other by now apply heading_not_sentinel.
        exact H0.
      * now apply heading_not_sentinel.
      * rewrite dict_get_set_same. discriminate.
    + rewrite H0. rewrite (sentinel_growing ls _ [strip l]).
      * reflexivity.
      * apply dict_get_set_same.
Qed.

Lemma body_after_heading (post : list pystr) : forall h k b,
  Dict.get PyStr.eqb h k = Some b ->
  Forall (fun raw => is_heading (strip raw) = false) post ->
  snd (fold_left step_line post (h, k)) = k /\
  Dict.get PyStr.eqb (fst (fold_left step_line post (h, k))) k
  = Some (b ++ map strip post).
Proof.
  induction post as [|l ls IH]; intros h k b Hb Hall; cbn [fold_left map].
  - split; [reflexivity | now rewrite app_nil_r].
  - inversion Hall as [|? ? Hl Hls]; subst.
    unfold step_line at 2 4. rewrite Hl, Hb.
    destruct (IH (Dict.set PyStr.eqb h k (b ++ [strip l])) k (b ++ [strip l]))
      as [Hk Hg]; [apply dict_get_set_same | exact Hls |].
    split; [exact Hk|]. rewrite Hg. now rewrite <- app_assoc.
Qed.

(** X11. After [_process_content], the body list of the heading met last
    is exactly the trimmed lines that follow it, blank lines included.
    A heading text that occurs again starts again from the empty list:
    what an earlier occurrence had collected is gone. *)
Theorem heading_body_is_what_follows (st : state)
    (pre post : list pystr) (hd : pystr) :
  all_lines (content (results (self st))) = pre ++ hd :: post ->
  is_heading (strip hd) = true ->
  Forall (fun raw => is_heading (strip raw) = false) post ->
  Dict.get PyStr.eqb (headers (results (self (snd (_process_content st)))))
    (strip hd)
  = Some (map strip post).
Proof.
  intros Hlines Hh Hpost. rewrite process_content_headers, Hlines.
  rewrite fold_left_app. cbn [fold_left].
  destruct (fold_left step_line pre (headers (results (self st)), sentinel))
    as [h1 c1].
  unfold step_line at 2. rewrite Hh.
  destruct (body_after_heading post (Dict.set PyStr.eqb h1 (strip hd) [])
              (strip hd) []) as [_ Hg];
    [apply dict_get_set_same | exact Hpost |].
  exact Hg.
Qed.

Lemma heading_body_is_what_follows_witness :
  Dict.get PyStr.eqb
    (headers (results (self (snd (_process_content sample_state)))))
    (strip (py "RESULTS"))
  = Some (map strip [py "second"; py ""]).
Proof.
  apply (heading_body_is_what_follows sample_state
           [py "preamble"; py "RESULTS"; py "first"]
           [py "second"; py ""] (py "RESULTS")).
  - reflexivity.
  - vm_compute. reflexivity.
  - repeat constructor.
Defined.

Lemma step_line_keeps_keys (h : Dict.dict pystr (list pystr))
    (cur l k : pystr) :
  Dict.get PyStr.eqb h k <> None ->
  Dict.get PyStr.eqb (fst (step_line (h, cur) l)) k <> None.
Proof.
  intros Hk. unfold step_line.
  destruct (is_heading (strip l)); cbn [fst];
    [|destruct (Dict.get PyStr.eqb h cur); cbn [fst]];
    rewrite dict_get_set_cases;
    match goal with |- context [PyStr.eqb ?a ?b] =>
      destruct (PyStr.eqb a b) end; auto; discriminate.
Qed.

Lemma step_line_new_key (h : Dict.dict pystr (list pystr))
    (cur l k : pystr) :
  Dict.get PyStr.eqb (fst (step_line (h, cur) l)) k <> None ->
  Dict.get PyStr.eqb h k <> None \/ k = sentinel
  \/ (is_heading (strip l) = true /\ k = strip l).
Proof.
  unfold step_line.
  destruct (is_heading (strip l)) eqn:Hh; cbn [fst].
  - rewrite dict_get_set_cases.
    destruct (PyStr.eqb (strip l) k) eqn:E; [|auto].
    apply pystr_eqb_eq in E. intros _. right. right. split; congruence.
  - destruct (Dict.get PyStr.eqb h cur) as [body|] eqn:Hc; cbn [fst];
      rewrite dict_get_set_cases.
    + destruct (PyStr.eqb cur k) eqn:E; [|auto].
      apply pystr_eqb_eq in E. subst k. intros _. left. congruence.
    + destruct (PyStr.eqb sentinel k) eqn:E; [|auto].
      apply pystr_eqb_eq in E. intros _. right. left. congruence.
Qed.

Lemma fold_step_line_keys (lines : list pystr) : forall h cur,
  let hf := fst (fold_left step_line lines (h, cur)) in
  (forall k, Dict.get PyStr.eqb h k <> None ->
             Dict.get PyStr.eqb hf k <> None) /\
  (forall raw, In raw lines -> is_heading (strip raw) = true ->
               Dict.get PyStr.eqb hf (strip raw) <> None) /\
  (forall k, Dict.get PyStr.eqb hf k <> None ->
             Dict.get PyStr.eqb h k <> None \/ k = sentinel
             \/ exists raw, In raw lines /\ is_heading (strip raw) = true
                            /\ k = strip raw).
Proof.
  induction lines as [|l ls IH]; intros h cur hf; subst hf.
  - split; [auto | split; [intros raw [] | auto]].
  - cbn [fold_left].
    destruct (step_line (h, cur) l) as [h1 c1] eqn:Hstep.
    destruct (IH h1 c1) as (Hkeep & Hall & Honly).
    assert (Eh : h1 = fst (step_line (h, cur) l)) by now rewrite Hstep.
    split; [|split].
    + intros k Hk. apply Hkeep. rewrite Eh. now apply step_line_keeps_keys.
    + intros raw [<-|Hin] Hh.
      * apply Hkeep. rewrite Eh. unfold step_line. rewrite Hh. cbn [fst].
        rewrite dict_get_set_same. discriminate.
      * now apply Hall.
    + intros k Hk. destruct (Honly k Hk) as [H1|[Hs|(raw & Hin & Hh & E)]].
      * rewrite Eh in H1.
        destruct (step_line_new_key h cur l k H1) as [H|[H|[Hh E]]]; auto.
        right. right. exists l. repeat split; auto. now left.
      * auto.
      * right. right. exists raw. repeat split; auto. now right.
Qed.

(** X12. The keys of [headers] after [_process_content]: a key is never
    removed; every heading line of the text is a key (trimmed); and every
    key is a key that was there before, "Main Content", or the trimmed
    text of a heading line. *)
Theorem header_keys_are_headings (st : state) :
  let h0 := headers (results (self st)) in
  let lines := all_lines (content (results (self st))) in
  let h := headers (results (self (snd (_process_content st)))) in
  (forall k, Dict.get PyStr.eqb h0 k <> None ->
             Dict.get PyStr.eqb h k <> None) /\
  (forall raw, In raw lines -> is_heading (strip raw) = true ->
               Dict.get PyStr.eqb h (strip raw) <> None) /\
  (forall k, Dict.get PyStr.eqb h k <> None ->
             Dict.get PyStr.eqb h0 k <> None \/ k = sentinel
             \/ exists raw, In raw lines /\ is_heading (strip raw) = true
                            /\ k = strip raw).
Proof.
  intros h0 lines h. subst h. rewrite process_content_headers.
  apply fold_step_line_keys.
Qed.

Lemma header_keys_are_headings_witness :
  Dict.get PyStr.eqb
    (headers (results (self (snd (_process_content sample_state)))))
    (strip (py "RESULTS")) <> None.
Proof.
  apply (proj1 (proj2 (header_keys_are_headings sample_state))
           (py "RESULTS")).
  - vm_compute. tauto.
  - vm_compute. reflexivity.
Defined.

(** ** What counts as a heading *)

Lemma lang_extend (n0 : nat) (r : Re.regex) (s s' : pystr) :
  Re.lang n0 r s s' -> no_eol r = true ->
  forall t, Re.lang (n0 + length t) r (s ++ t) (s' ++ t).
Proof.
  induction 1 as [s Hn| | |p c s Hp|r1 r2 s s1 s2 H1 IH1 H2 IH2
                  |r s s' H IH|r s|r s|r s s1 s2 H1 IH1 H2 IH2
                  |r s s1 s2 H1 IH1 H2 IH2];
    cbn [no_eol]; intros Hne t; try discriminate Hne.
  - constructor. rewrite length_app. lia.
  - cbn [app]. now constructor.
  - apply andb_true_iff in Hne. destruct Hne as [Hn1 Hn2].
    econstructor; [now apply IH1 | now apply IH2].
  - apply Re.L_Opt_some. now apply IH.
  - apply Re.L_Opt_none.
  - apply Re.L_Star_stop.
  - eapply Re.L_Star_more; [now apply IH1 | now apply IH2].
  - eapply Re.L_Plus; [now apply IH1 | now apply IH2].
Qed.

Lemma matches_extend (r : Re.regex) (s t : pystr) :
  no_eol r = true -> Re.matches r s = true -> Re.matches r (s ++ t) = true.
Proof.
  intros Hne H. apply matches_correct in H. destruct H as [s' H].
  apply matches_correct. exists (s' ++ t). rewrite length_app.
  now apply lang_extend.
Qed.

(** X13. The numbered, section-sign and Roman-numeral patterns look only
    at the beginning of the line: a line that starts like such a heading
    is a heading whatever follows on it, and the whole line becomes the
    key.  The all-caps pattern is anchored at the end and has no such
    property. *)
Theorem heading_decided_by_line_start (s t : pystr) :
  (Re.matches numbered s || Re.matches section_sign s
   || Re.matches roman_numeral s = true ->
   is_heading (s ++ t) = true) /\
  (exists s0 t0,
      Re.matches all_caps s0 = true /\ is_heading (s0 ++ t0) = false).
Proof.
  split.
  - intros H. unfold is_heading, header_patterns. cbn [existsb].
    apply orb_true_iff in H. destruct H as [H|H];
      [apply orb_true_iff in H; destruct H as [H|H]|].
    + rewrite (matches_extend numbered s t eq_refl H).
      now rewrite orb_true_r.
    + rewrite (matches_extend section_sign s t eq_refl H).
      now rewrite !orb_true_r.
    + rewrite (matches_extend roman_numeral s t eq_refl H).
      now rewrite !orb_true_r.
  - exists (py "RESULTS"), (py ": x"). split; vm_compute; reflexivity.
Qed.

Lemma heading_decided_by_line_start_witness :
  is_heading (py "I. " ++ py "think, therefore I am") = true.
Proof.
  apply (proj1 (heading_decided_by_line_start (py "I. ")
                  (py "think, therefore I am"))).
  vm_compute. reflexivity.
Defined.

Lemma lang_cls (n0 : nat) (p : char -> bool) (s s' : pystr) :
  Re.lang n0 (Re.Cls p) s s' -> exists c, s = c :: s' /\ p c = true.
Proof. intros H. inversion H; subst. now exists c. Qed.

Lemma lang_star_cls (n0 : nat) (p : char -> bool) (s s' : pystr) :
  Re.lang n0 (Re.Star (Re.Cls p)) s s' ->
  exists ws, s = ws ++ s' /\ forallb p ws = true.
Proof.
  intros H. remember (Re.Star (Re.Cls p)) as r eqn:Er.
  induction H; try discriminate Er.
  - exists []. split; reflexivity.
  - injection Er as ->. destruct (IHlang2 eq_refl) as (ws & -> & Hws).
    apply lang_cls in H. destruct H as (c & -> & Hc).
    exists (c :: ws). split; [reflexivity|].
    cbn [forallb]. now rewrite Hc, Hws.
Qed.

Lemma lang_plus_cls (n0 : nat) (p : char -> bool) (s s' : pystr) :
  Re.lang n0 (Re.Plus (Re.Cls p)) s s' ->
  exists c ws, s = c :: ws ++ s' /\ p c = true /\ forallb p ws = true.
Proof.
  intros H. inversion H as [| | | | | | | | |r0 s0 s1 s2 H1 H2]; subst.
  apply lang_cls in H1. destruct H1 as (c & -> & Hc).
  destruct (lang_star_cls _ _ _ _ H2) as (ws & -> & Hws).
  exists c, ws. repeat split; auto.
Qed.

Lemma lang_cat (n0 : nat) (r1 r2 : Re.regex) (s s' : pystr) :
  Re.lang n0 (Re.Cat r1 r2) s s' ->
  exists s1, Re.lang n0 r1 s s1 /\ Re.lang n0 r2 s1 s'.
Proof. intros H. inversion H; subst. eauto. Qed.

Lemma lang_bol (n0 : nat) (s s' : pystr) : Re.lang n0 Re.Bol s s' -> s' = s.
Proof. intros H. now inversion H. Qed.

Lemma roman_upper (c : char) : roman c = true -> Re.upper c = true.
Proof.
  unfold roman, char_eqb. intros H.
  repeat (apply orb_true_iff in H; destruct H as [H|H]);
    apply N.eqb_eq in H; subst c; reflexivity.
Qed.

(** The first character a heading pattern consumes after the leading
    whitespace, and one more after it. *)
Lemma heading_pattern_start (r : Re.regex) (s : pystr) :
  In r header_patterns -> Re.matches r s = true ->
  exists ws c c' rest,
    s = ws ++ c :: c' :: rest /\ forallb is_space ws = true /\
    (Re.upper c || is_digit c || N.eqb c 3618) = true.
Proof.
  intros Hin H. apply matches_correct in H. destruct H as [s' H].
  destruct Hin as [<-|[<-|[<-|[<-|[]]]]].
  - unfold all_caps, Re.space in H.
    apply lang_cat in H. destruct H as (s1 & Hb & H).
    apply lang_bol in Hb. subst s1.
    apply lang_cat in H. destruct H as (s2 & Hws & H).
    apply lang_star_cls in Hws. destruct Hws as (ws & -> & Hws).
    apply lang_cat in H. destruct H as (s3 & H & _).
    apply lang_cat in H. destruct H as (s4 & Hc & H).
    apply lang_cls in Hc. destruct Hc as (c & -> & Hc).
    apply lang_cat in H. destruct H as (s5 & Hp & _).
    apply lang_plus_cls in Hp. destruct Hp as (c' & b & -> & _ & _).
    exists ws, c, c', (b ++ s5). repeat split; auto. now rewrite Hc.
  - unfold numbered, Re.space, Re.digit, Re.lit in H.
    apply lang_cat in H. destruct H as (s1 & Hb & H).
    apply lang_bol in Hb. subst s1.
    apply lang_cat in H. destruct H as (s2 & Hws & H).
    apply lang_star_cls in Hws. destruct Hws as (ws & -> & Hws).
    apply lang_cat in H. destruct H as (s3 & Hd & H).
    apply lang_plus_cls in Hd. destruct Hd as (c & ds & -> & Hc & _).
    apply lang_cat in H. destruct H as (s4 & Hdot & _).
    apply lang_cls in Hdot. destruct Hdot as (c' & -> & _).
    destruct ds as [|d ds].
    + exists ws, c, c', s4. repeat split; auto.
      now rewrite Hc, orb_true_r.
    + exists ws, c, d, (ds ++ c' :: s4). repeat split; auto.
      now rewrite Hc, orb_true_r.
  - unfold section_sign, Re.space, Re.digit, Re.lit in H.
    apply lang_cat in H. destruct H as (s1 & Hb & H).
    apply lang_bol in Hb. subst s1.
    apply lang_cat in H. destruct H as (s2 & Hws & H).
    apply lang_star_cls in Hws. destruct Hws as (ws & -> & Hws).
    apply lang_cat in H. destruct H as (s3 & Hc & H).
    apply lang_cls in Hc. destruct Hc as (c & -> & Hc).
    apply lang_cat in H. destruct H as (s4 & Hc' & _).
    apply lang_cls in Hc'. destruct Hc' as (c' & -> & _).
    exists ws, c, c', s4. repeat split; auto.
    unfold char_eqb in Hc. rewrite N.eqb_sym in Hc.
    now rewrite Hc, orb_true_r.
  - unfold roman_numeral, Re.space, Re.lit in H.
    apply lang_cat in H. destruct H as (s1 & Hb & H).
    apply lang_bol in Hb. subst s1.
    apply lang_cat in H. destruct H as (s2 & Hws & H).
    apply lang_star_cls in Hws. destruct Hws as (ws & -> & Hws).
    apply lang_cat in H. destruct H as (s3 & Hd & H).
    apply lang_plus_cls in Hd. destruct Hd as (c & ds & -> & Hc & _).
    apply lang_cat in H. destruct H as (s4 & Hdot & _).
    apply lang_cls in Hdot. destruct Hdot as (c' & -> & _).
    apply roman_upper in Hc.
    destruct ds as [|d ds].
    + exists ws, c, c', s4. repeat split; auto. now rewrite Hc.
    + exists ws, c, d, (ds ++ c' :: s4). repeat split; auto.
      now rewrite Hc.
Qed.

(** X14. A heading line has, after its leading whitespace, at least two
    characters, the first of which is a capital letter A-Z, a decimal
    digit or U+0E22.  So a trimmed line that is empty, has one character,
    or starts with anything else (a lowercase letter, a bullet, a
    bracket) is never a heading and goes to a body list. *)
Theorem heading_starts_with_capital_or_digit (s : pystr) :
  (is_heading s = true ->
   exists ws c c' rest,
     s = ws ++ c :: c' :: rest /\ forallb is_space ws = true /\
     (Re.upper c || is_digit c || N.eqb c 3618) = true) /\
  ((length s <= 1)%nat -> is_heading s = false) /\
  (forall c rest,
      s = c :: rest -> is_space c = false ->
      (Re.upper c || is_digit c || N.eqb c 3618) = false ->
      is_heading s = false).
Proof.
  assert (Hstart : is_heading s = true ->
            exists ws c c' rest,
              s = ws ++ c :: c' :: rest /\ forallb is_space ws = true /\
              (Re.upper c || is_digit c || N.eqb c 3618) = true).
  { unfold is_heading. intros H. apply existsb_exists in H.
    destruct H as (r & Hin & Hm). now apply (heading_pattern_start r s). }
  split; [exact Hstart|]. split.
  - intros Hlen. destruct (is_heading s) eqn:E; [|reflexivity].
    destruct (Hstart eq_refl) as (ws & c & c' & rest & -> & _).
    rewrite length_app in Hlen. cbn [length] in Hlen. lia.
  - intros c rest -> Hsp Hc. destruct (is_heading (c :: rest)) eqn:E;
      [|reflexivity].
    destruct (Hstart eq_refl) as (ws & c0 & c' & rest' & Hs & Hws & Hc0).
    destruct ws as [|x ws]; cbn [app forallb] in *.
    + injection Hs as -> _. congruence.
    + injection Hs as -> _. rewrite Hsp in Hws. discriminate Hws.
Qed.

Lemma heading_starts_with_capital_or_digit_witness :
  is_heading (py "- item one") = false /\ is_heading (py "A") = false.
Proof.
  split.
  - apply (proj2 (proj2 (heading_starts_with_capital_or_digit
                           (py "- item one"))) 45%N (py " item one"));
      reflexivity.
  - apply (proj1 (proj2 (heading_starts_with_capital_or_digit (py "A")))).
    vm_compute. lia.
Defined.

(** A code point known to lie within constant bounds is outside a
    constant range. *)
Ltac out_of_range :=
  first
    [ reflexivity
    | apply andb_false_iff;
      first [ left; apply N.leb_gt; lia | right; apply N.leb_gt; lia ] ].

Ltac not_lower := unfold Re.lower, in_range; out_of_range.

Ltac not_digit :=
  unfold is_digit, digit_runs, in_range; cbn [existsb];
  repeat (apply orb_false_iff; split); out_of_range.

Lemma lang_opt (n0 : nat) (r : Re.regex) (s s' : pystr) :
  Re.lang n0 (Re.Opt r) s s' -> Re.lang n0 r s s' \/ s' = s.
Proof. intros H. inversion H; subst; auto. Qed.

Lemma lang_eol (n0 : nat) (s s' : pystr) :
  Re.lang n0 Re.Eol s s' -> s = [] \/ s = [newline].
Proof. intros H. inversion H; subst; auto. Qed.

Lemma forallb_weaken {A} (p q : A -> bool) (l : list A) :
  (forall x, p x = true -> q x = true) ->
  forallb p l = true -> forallb q l = true.
Proof.
  intros Hpq H. apply forallb_forall. intros x Hin.
  apply Hpq. now apply (proj1 (forallb_forall p l) H).
Qed.

(** X15. A line accepted by the all-caps pattern consists only of
    capital letters A-Z, whitespace and colons: a line that holds a
    lowercase letter (or a digit, or any other sign) is never an
    all-caps heading. *)
Theorem all_caps_heading_characters (s : pystr) :
  Re.matches all_caps s = true ->
  forallb (fun c => Re.upper c || is_space c || N.eqb c 58) s = true /\
  (forall c, In c s -> Re.lower c = false /\ is_digit c = false).
Proof.
  intros H.
  assert (Hall : forallb (fun c => Re.upper c || is_space c || N.eqb c 58) s
                 = true).
  { apply matches_correct in H. destruct H as [s' H].
    unfold all_caps, Re.space, Re.lit in H.
    apply lang_cat in H. destruct H as (s1 & Hb & H).
    apply lang_bol in Hb. subst s1.
    apply lang_cat in H. destruct H as (s2 & Hws & H).
    apply lang_star_cls in Hws. destruct Hws as (ws & -> & Hws).
    apply lang_cat in H. destruct H as (s3 & H & He).
    apply lang_eol in He.
    apply lang_cat in H. destruct H as (s4 & Hc & H).
    apply lang_cls in Hc. destruct Hc as (c & -> & Hc).
    apply lang_cat in H. destruct H as (s5 & Hp & H).
    apply lang_plus_cls in Hp. destruct Hp as (c' & b & -> & Hc' & Hb).
    apply lang_cat in H. destruct H as (s6 & Ho & Hws2).
    apply lang_star_cls in Hws2. destruct Hws2 as (ws2 & -> & Hws2).
    assert (Htail : forallb (fun c => Re.upper c || is_space c || N.eqb c 58)
                      (ws2 ++ s3) = true).
    { rewrite forallb_app. apply andb_true_iff. split.
      - eapply forallb_weaken; [|exact Hws2]. cbn. intros x ->.
        now rewrite orb_true_r.
      - destruct He as [->| ->]; reflexivity. }
    rewrite forallb_app. apply andb_true_iff. split.
    { eapply forallb_weaken; [|exact Hws]. cbn. intros x ->.
      now rewrite orb_true_r. }
    cbn [forallb]. rewrite Hc. cbn [orb andb].
    unfold upper_or_space in Hc'. rewrite Hc'. cbn [orb andb].
    rewrite forallb_app. apply andb_true_iff. split.
    { eapply forallb_weaken; [|exact Hb]. unfold upper_or_space.
      intros x ->. reflexivity. }
    apply lang_opt in Ho.
    destruct Ho as [Ho|Ho]; [|rewrite <- Ho; exact Htail].
    apply lang_cls in Ho. destruct Ho as (x & -> & Hx).
    cbn [forallb]. rewrite Htail, andb_true_r.
    unfold char_eqb in Hx. rewrite N.eqb_sym in Hx.
    now rewrite Hx, orb_true_r. }
  split; [exact Hall|].
  intros c Hin.
  pose proof (proj1 (forallb_forall _ s) Hall c Hin) as Hc. cbn in Hc.
  apply orb_true_iff in Hc. destruct Hc as [Hc|Hc];
    [apply orb_true_iff in Hc; destruct Hc as [Hc|Hc]|].
  - unfold Re.upper, in_range in Hc. apply andb_true_iff in Hc.
    destruct Hc as [H1 H2]. apply N.leb_le in H1, H2.
    split; [not_lower | not_digit].
  - unfold is_space, in_range in Hc.
    repeat (apply orb_true_iff in Hc; destruct Hc as [Hc|Hc]);
      try (apply andb_true_iff in Hc; destruct Hc as [H1 H2];
           apply N.leb_le in H1, H2);
      try (apply N.eqb_eq in Hc);
      (split; [not_lower | not_digit]).
  - apply N.eqb_eq in Hc. subst c. split; reflexivity.
Qed.

Lemma all_caps_heading_characters_witness :
  forallb (fun c => Re.upper c || is_space c || N.eqb c 58)
          (py "KEY FINDINGS:") = true /\
  (forall c, In c (py "KEY FINDINGS:") ->
             Re.lower c = false /\ is_digit c = false).
Proof.
  apply (all_caps_heading_characters (py "KEY FINDINGS:")).
  vm_compute. reflexivity.
Defined.

(** ** Table pages of the stream method *)





(** ** Metadata and headers *)

(** X17. When the document opens, the [metadata] of the final result has
    exactly the six keys title, author, creator, creation_date,
    modification_date and page_count, in this order, whatever the
    document's own metadata holds.  A text field absent from the
    document is the empty string; creation_date and modification_date
    are read from the document's keys "creation_date" and "mod_date";
    page_count is the document's page count.  No later stage changes
    [metadata]. *)
Theorem metadata_has_six_keys (w : world) (path : pystr)
    (output_arg : option pystr) (out : list output)
    (fs : list (pystr * output)) (cmd : pystr) (doc : fitz_doc) :
  fitz_open w path = Ok doc ->
  let m := metadata (results (self (snd (main w path output_arg out fs cmd))))
  in
  let field key :=
    match Dict.get PyStr.eqb (doc_metadata doc) (py key) with
    | Some v => v
    | None => PStr (py "")
    end in
  map fst m = [py "title"; py "author"; py "creator"; py "creation_date";
               py "modification_date"; py "page_count"] /\
  Dict.get PyStr.eqb m (py "title") = Some (field "title"%string) /\
  Dict.get PyStr.eqb m (py "author") = Some (field "author"%string) /\
  Dict.get PyStr.eqb m (py "creator") = Some (field "creator"%string) /\
  Dict.get PyStr.eqb m (py "creation_date")
  = Some (field "creation_date"%string) /\
  Dict.get PyStr.eqb m (py "modification_date")
  = Some (field "mod_date"%string) /\
  Dict.get PyStr.eqb m (py "page_count") = Some (PInt (doc_page_count doc)).
Proof.
  intros Hopen m field. subst m.
  destruct (main_keeps_extracted w path output_arg out fs cmd) as (Hm & _).
  destruct (extract_fresh w path out fs cmd) as (_ & _ & _ & _ & H).
  rewrite Hopen in H. destruct H as (_ & Hm' & _).
  rewrite Hm, Hm'. unfold metadata_of, get_default.
  repeat split; reflexivity.
Qed.

Lemma metadata_has_six_keys_witness :
  Dict.get PyStr.eqb
    (metadata (results (self (snd (main digital_world example_path None []
                                     [] (py "tesseract"))))))
    (py "creation_date")
  = Some (match Dict.get PyStr.eqb [(py "title", PStr (py "Report"))]
                  (py "creation_date") with
          | Some v => v
          | None => PStr (py "")
          end).
Proof.
  apply (metadata_has_six_keys digital_world example_path None [] []
           (py "tesseract")
           (mkFitzDoc [(py "title", PStr (py "Report"))] 2
              [Ok (py "the cat sat"); Ok (py " ")])).
  reflexivity.
Defined.

(** X18. [extract] never fills [headers]: after it the mapping is empty,
    whatever was extracted, until [_process_content] is called.
    [_process_content] always returns normally, prints and writes
    nothing, and changes nothing in the object but [headers]. *)
Theorem headers_only_from_process_content (w : world) (path : pystr)
    (out : list output) (fs : list (pystr * output)) (cmd : pystr)
    (st : state) :
  headers (results (self (snd (extract w (__init__ w path out fs cmd))))) = []
  /\
  fst (_process_content st) = Ok tt /\
  snd (_process_content st)
  = mkState
      (mkExtractor (pdf_path (self st))
         (mkResults (metadata (results (self st)))
            (headers (results (self (snd (_process_content st)))))
            (content (results (self st))) (list_items (results (self st)))
            (tables (results (self st))) (figures (results (self st))))
         (extraction_methods (self st)) (is_scanned (self st))
         (ocr_engine (self st)))
      (stdout st) (files st) (tesseract_cmd st).
Proof.
  destruct (extract_fresh w path out fs cmd) as (_ & _ & Hh & _).
  split; [exact Hh|]. rewrite process_content_spec. split; reflexivity.
Qed.
